(** * Contact-form worker: validation, e-mail rendering and response mapping

    A shallow embedding of the Cloudflare worker of the contact-form API
    (the module-format worker, and the [sendEmail] of [src/index.ts] where
    it differs), together with the part of the JavaScript runtime the worker
    relies on: strings as UTF-16 code units, [trim], [String()], truthiness,
    the two regular expressions, [JSON.stringify] of strings. *)

From Stdlib Require Import Ascii String.
From Stdlib Require Import List Bool ZArith NArith PArith Lia.
From Stdlib Require Import DecimalPos DecimalN.
Import ListNotations.

Set Implicit Arguments.
Set Warnings "-register-all".
Local Open Scope Z_scope.

(* ================================================================== *)
(** ** JavaScript strings *)
(* ================================================================== *)

(** A JavaScript string is a finite sequence of UTF-16 code units;
    [.length] is the number of code units. *)
Definition jsstring := list N.

(** An ASCII literal of the source, as code units. *)
Definition lit (s : string) : jsstring :=
  map N_of_ascii (list_ascii_of_string s).

(** Source text that contains double quotes (the HTML template, JSON
    text) is written with a backtick standing for the double quote, U+0022:
    a raw backtick cannot occur inside a JavaScript template literal. *)
Definition tpl (s : string) : jsstring :=
  map (fun c => if N.eqb c 96 then 34%N else c) (lit s).

Fixpoint jsstring_eqb (a b : jsstring) : bool :=
  match a, b with
  | [], [] => true
  | x :: a', y :: b' => N.eqb x y && jsstring_eqb a' b'
  | _, _ => false
  end.

(** WhiteSpace and LineTerminator code points of ECMA-262: what
    [String.prototype.trim] strips and what [\s] matches. *)
Definition isWhiteSpace (c : N) : bool :=
  (N.eqb c 9 || N.eqb c 10 || N.eqb c 11 || N.eqb c 12 || N.eqb c 13 ||
   N.eqb c 32 || N.eqb c 160 || N.eqb c 5760 ||
   (N.leb 8192 c && N.leb c 8202) ||
   N.eqb c 8232 || N.eqb c 8233 || N.eqb c 8239 || N.eqb c 8287 ||
   N.eqb c 12288 || N.eqb c 65279)%N%bool.

(** [\d] without the [u]/[v] flags: the ten ASCII digits. *)
Definition isDigit (c : N) : bool := (N.leb 48 c && N.leb c 57)%N.

Fixpoint dropWhile (p : N -> bool) (s : jsstring) : jsstring :=
  match s with
  | [] => []
  | c :: t => if p c then dropWhile p t else s
  end.

Definition trimStart (s : jsstring) : jsstring := dropWhile isWhiteSpace s.
Definition trimEnd (s : jsstring) : jsstring :=
  rev (dropWhile isWhiteSpace (rev s)).

(** [String.prototype.trim]. *)
Definition trim (s : jsstring) : jsstring := trimEnd (trimStart s).

(** [text.replace(/c/g, r)] for a one-character pattern [c] and a
    replacement [r] without [$] patterns. *)
Definition replaceAll (c : N) (r : jsstring) (text : jsstring) : jsstring :=
  flat_map (fun x => if N.eqb x c then r else [x]) text.

(* ================================================================== *)
(** ** Completions *)
(* ================================================================== *)

Inductive Error := TypeError | ReferenceError | SyntaxError.

(** The outcome of evaluating JavaScript code: a value, or a thrown
    exception. *)
Inductive Completion (A : Type) : Type :=
| Normal (a : A)
| Throw (e : Error).
Arguments Normal {A} a.
Arguments Throw {A} e.

Definition bind {A B} (c : Completion A) (k : A -> Completion B)
  : Completion B :=
  match c with
  | Normal a => k a
  | Throw e => Throw e
  end.

Notation "x <- c ;; k" := (bind c (fun x => k))
  (at level 61, c at next level, right associativity).

(* ================================================================== *)
(** ** Numbers *)
(* ================================================================== *)

(** A Number that [JSON.parse] can produce, in the form from which
    ECMA-262 defines [Number::toString]: a finite non-zero value is
    [± s × 10^(n − k)], where [k] is the number of decimal digits of [s]
    and [s] is the shortest digit string that identifies the value.
    [JSON.parse] never yields NaN. *)
Inductive number :=
| NumZero (neg : bool)
| NumFinite (neg : bool) (s : positive) (n : Z)
| NumInfinity (neg : bool).

Fixpoint digit_units (u : Decimal.uint) : jsstring :=
  match u with
  | Decimal.Nil => []
  | Decimal.D0 u => 48%N :: digit_units u
  | Decimal.D1 u => 49%N :: digit_units u
  | Decimal.D2 u => 50%N :: digit_units u
  | Decimal.D3 u => 51%N :: digit_units u
  | Decimal.D4 u => 52%N :: digit_units u
  | Decimal.D5 u => 53%N :: digit_units u
  | Decimal.D6 u => 54%N :: digit_units u
  | Decimal.D7 u => 55%N :: digit_units u
  | Decimal.D8 u => 56%N :: digit_units u
  | Decimal.D9 u => 57%N :: digit_units u
  end.

Definition digits_of_pos (p : positive) : jsstring :=
  digit_units (Pos.to_uint p).

Definition digits_of_N (n : N) : jsstring :=
  match n with
  | N0 => [48%N]
  | Npos p => digits_of_pos p
  end.

(** [Number::toString(x, 10)]. *)
Definition Number_toString (x : number) : jsstring :=
  match x with
  | NumZero _ => lit "0"
  | NumInfinity neg => (if neg then lit "-" else []) ++ lit "Infinity"
  | NumFinite neg s n =>
      let ds := digits_of_pos s in
      let k := Z.of_nat (length ds) in
      (if neg then lit "-" else []) ++
      if (-5 <=? n) && (n <=? 21) then
        if k <=? n then ds ++ repeat 48%N (Z.to_nat (n - k))
        else if 0 <? n then
          firstn (Z.to_nat n) ds ++ lit "." ++ skipn (Z.to_nat n) ds
        else lit "0." ++ repeat 48%N (Z.to_nat (- n)) ++ ds
      else
        let e := n - 1 in
        let sign := if e <? 0 then lit "-" else lit "+" in
        let eabs := digits_of_N (Z.abs_N e) in
        match ds with
        | [] => []
        | [d] => d :: lit "e" ++ sign ++ eabs
        | d :: rest => d :: lit "." ++ rest ++ lit "e" ++ sign ++ eabs
        end
  end.

(** [x > limit] for a Number [x] and a natural-number literal [limit]. *)
Definition number_gtb (x : number) (limit : N) : bool :=
  match x with
  | NumZero _ => false
  | NumInfinity neg => negb neg
  | NumFinite true _ _ => false
  | NumFinite false s n =>
      let k := Z.of_nat (length (digits_of_pos s)) in
      if k <=? n
      then Z.of_N limit <? Z.pos s * 10 ^ (n - k)
      else Z.of_N limit * 10 ^ (k - n) <? Z.pos s
  end.

(* ================================================================== *)
(** ** JSON values *)
(* ================================================================== *)

(** The value [request.json()] resolves to.  The members of an object are
    listed in the order of the source text; for a repeated key
    [JSON.parse] keeps the last value.  A property that is absent reads as
    [undefined], which is [None] of [option json]. *)
Inductive json :=
| JNull
| JBool (b : bool)
| JNum (x : number)
| JStr (s : jsstring)
| JArr (elements : list json)
| JObj (members : list (jsstring * json)).

Definition value := option json.
Definition undefined : value := None.

Fixpoint own_property (members : list (jsstring * json)) (key : jsstring)
  : value :=
  match members with
  | [] => None
  | (k, v) :: rest =>
      match own_property rest key with
      | Some v' => Some v'
      | None => if jsstring_eqb k key then Some v else None
      end
  end.

(** [typeof v]. *)
Definition typeof (v : value) : jsstring :=
  match v with
  | None => lit "undefined"
  | Some JNull => lit "object"
  | Some (JBool _) => lit "boolean"
  | Some (JNum _) => lit "number"
  | Some (JStr _) => lit "string"
  | Some (JArr _) => lit "object"
  | Some (JObj _) => lit "object"
  end.

(** [ToBoolean v]: what [!v], [v && ...], [v || ...] and [v ? ... : ...]
    test. *)
Definition ToBoolean (v : value) : bool :=
  match v with
  | None => false
  | Some JNull => false
  | Some (JBool b) => b
  | Some (JNum (NumZero _)) => false
  | Some (JNum _) => true
  | Some (JStr s) => negb (Nat.eqb (length s) 0)
  | Some (JArr _) => true
  | Some (JObj _) => true
  end.

(** [v === s] for a string [s]. *)
Definition strict_equal_string (v : value) (s : jsstring) : bool :=
  match v with
  | Some (JStr t) => jsstring_eqb t s
  | _ => false
  end.

Definition is_undefined (v : value) : bool :=
  match v with None => true | _ => false end.

Definition is_null (v : value) : bool :=
  match v with Some JNull => true | _ => false end.

(** [data.key] for the property names the worker reads on the body
    ([name], [email], [mobile], [subject], [message]): no built-in prototype
    defines any of them, so only an own property of an object can answer. *)
Definition Get (data : json) (key : string) : Completion value :=
  match data with
  | JNull => Throw TypeError
  | JObj members => Normal (own_property members (lit key))
  | _ => Normal undefined
  end.

(** [ToString v], as [String(v)] and template literals apply it.  An
    object parsed from JSON has no callable own property: with an own
    [toString] key both conversion methods fail and a TypeError is thrown,
    otherwise [Object.prototype.toString] answers.  An array answers through
    [Array.prototype.join]. *)
Fixpoint ToString_json (v : json) : Completion jsstring :=
  match v with
  | JNull => Normal (lit "null")
  | JBool b => Normal (if b then lit "true" else lit "false")
  | JNum x => Normal (Number_toString x)
  | JStr s => Normal s
  | JArr elements =>
      (fix join (l : list json) (first : bool) : Completion jsstring :=
         match l with
         | [] => Normal []
         | e :: rest =>
             next <- match e with
                     | JNull => Normal []
                     | _ => ToString_json e
                     end;;
             tail <- join rest false;;
             Normal ((if first then [] else lit ",") ++ next ++ tail)
         end) elements true
  | JObj members =>
      match own_property members (lit "toString") with
      | Some _ => Throw TypeError
      | None => Normal (lit "[object Object]")
      end
  end.

Definition ToString (v : value) : Completion jsstring :=
  match v with
  | None => Normal (lit "undefined")
  | Some j => ToString_json j
  end.

(** [v.trim()]: only a string has the method. *)
Definition String_prototype_trim (v : value) : Completion jsstring :=
  match v with
  | Some (JStr s) => Normal (trim s)
  | _ => Throw TypeError
  end.

(** Short-circuit [||] and [&&] over conditions that may throw. *)
Definition orC (a b : Completion bool) : Completion bool :=
  x <- a;; if x then Normal true else b.
Definition andC (a b : Completion bool) : Completion bool :=
  x <- a;; if x then b else Normal false.
Infix "|||" := orC (at level 50, left associativity).
Infix "&&&" := andC (at level 40, left associativity).

(* ================================================================== *)
(** ** Regular expressions *)
(* ================================================================== *)

(** The fragment of the regular-expression syntax the worker uses:
    character classes, concatenation and [+].  Both patterns are anchored
    with [^] and [$] and have no flags, so [test] asks whether the whole
    string belongs to the language. *)
Inductive regex :=
| RNone
| REps
| RClass (p : N -> bool)
| RCat (r1 r2 : regex)
| RAlt (r1 r2 : regex)
| RStar (r : regex).

Definition RPlus (r : regex) : regex := RCat r (RStar r).
Definition RChar (c : N) : regex := RClass (N.eqb c).

Fixpoint nullable (r : regex) : bool :=
  match r with
  | RNone => false
  | REps => true
  | RClass _ => false
  | RCat r1 r2 => nullable r1 && nullable r2
  | RAlt r1 r2 => nullable r1 || nullable r2
  | RStar _ => true
  end.

Fixpoint deriv (c : N) (r : regex) : regex :=
  match r with
  | RNone => RNone
  | REps => RNone
  | RClass p => if p c then REps else RNone
  | RCat r1 r2 =>
      if nullable r1
      then RAlt (RCat (deriv c r1) r2) (deriv c r2)
      else RCat (deriv c r1) r2
  | RAlt r1 r2 => RAlt (deriv c r1) (deriv c r2)
  | RStar r1 => RCat (deriv c r1) (RStar r1)
  end.

(** [/^r$/.test(s)]. *)
Fixpoint RegExp_test (r : regex) (s : jsstring) : bool :=
  match s with
  | [] => nullable r
  | c :: t => RegExp_test (deriv c r) t
  end.

(** The language of a regular expression. *)
Inductive lang : regex -> jsstring -> Prop :=
| lang_eps : lang REps []
| lang_class p c : p c = true -> lang (RClass p) [c]
| lang_cat r1 r2 s1 s2 : lang r1 s1 -> lang r2 s2 -> lang (RCat r1 r2) (s1 ++ s2)
| lang_alt_l r1 r2 s : lang r1 s -> lang (RAlt r1 r2) s
| lang_alt_r r1 r2 s : lang r2 s -> lang (RAlt r1 r2) s
| lang_star_nil r : lang (RStar r) []
| lang_star_cons r s1 s2 :
    lang r s1 -> lang (RStar r) s2 -> lang (RStar r) (s1 ++ s2).

(** [[^\s@]]. *)
Definition notSpaceAt (c : N) : bool :=
  negb (isWhiteSpace c || N.eqb c 64).

(** [/^[^\s@]+@[^\s@]+\.[^\s@]+$/]. *)
Definition emailRegex : regex :=
  RCat (RPlus (RClass notSpaceAt))
    (RCat (RChar 64)
       (RCat (RPlus (RClass notSpaceAt))
          (RCat (RChar 46) (RPlus (RClass notSpaceAt))))).

(** [/^\d+$/]. *)
Definition digitsRegex : regex := RPlus (RClass isDigit).

(* ================================================================== *)
(** ** Responses *)
(* ================================================================== *)

Record Response := {
  status : Z;
  headers : list (jsstring * jsstring);
  body : option jsstring
}.

Definition hex_digit (n : N) : N :=
  if N.ltb n 10 then (48 + n)%N else (87 + n)%N.

(** [\uXXXX], lower-case hexadecimal. *)
Definition unicode_escape (c : N) : jsstring :=
  lit "\u" ++ [hex_digit (c / 4096); hex_digit ((c / 256) mod 16);
               hex_digit ((c / 16) mod 16); hex_digit (c mod 16)]%N.

Definition isLeadingSurrogate (c : N) : bool := (N.leb 55296 c && N.leb c 56319)%N.
Definition isTrailingSurrogate (c : N) : bool := (N.leb 56320 c && N.leb c 57343)%N.

Fixpoint quote_units (s : jsstring) : jsstring :=
  match s with
  | [] => []
  | c :: t =>
      if N.eqb c 8 then lit "\b" ++ quote_units t
      else if N.eqb c 9 then lit "\t" ++ quote_units t
      else if N.eqb c 10 then lit "\n" ++ quote_units t
      else if N.eqb c 12 then lit "\f" ++ quote_units t
      else if N.eqb c 13 then lit "\r" ++ quote_units t
      else if N.eqb c 34 then [92%N; 34%N] ++ quote_units t
      else if N.eqb c 92 then [92%N; 92%N] ++ quote_units t
      else if N.ltb c 32 then unicode_escape c ++ quote_units t
      else if isLeadingSurrogate c then
        match t with
        | c2 :: t2 =>
            if isTrailingSurrogate c2 then c :: c2 :: quote_units t2
            else unicode_escape c ++ quote_units t
        | [] => unicode_escape c
        end
      else if isTrailingSurrogate c then unicode_escape c ++ quote_units t
      else c :: quote_units t
  end.

(** [JSON.stringify(s)] for a string [s]. *)
Definition QuoteJSONString (s : jsstring) : jsstring :=
  [34%N] ++ quote_units s ++ [34%N].

(** [JSON.stringify({ status: st, message: msg })]. *)
Definition JSON_stringify_envelope (st msg : jsstring) : jsstring :=
  tpl "{`status`:" ++ QuoteJSONString st ++
  tpl ",`message`:" ++ QuoteJSONString msg ++ lit "}".

Definition getCORSHeaders : list (jsstring * jsstring) :=
  [ (lit "Access-Control-Allow-Origin", lit "*");
    (lit "Access-Control-Allow-Methods", lit "POST, OPTIONS");
    (lit "Access-Control-Allow-Headers", lit "Content-Type");
    (lit "Access-Control-Max-Age", lit "86400") ].

Definition createErrorResponse (message : jsstring) (status : Z) : Response :=
  {| status := status;
     headers := (lit "Content-Type", lit "application/json") :: getCORSHeaders;
     body := Some (JSON_stringify_envelope (lit "error") message) |}.

Definition handleCORS : Response :=
  {| status := 200; headers := getCORSHeaders; body := None |}.

(* ================================================================== *)
(** ** Outbound calls *)
(* ================================================================== *)

(** Worker bindings; a binding that is not configured reads [undefined]. *)
Record Env := {
  MAILTRAP_API_TOKEN : option jsstring;
  FROM_EMAIL : option jsstring;
  TO_EMAIL : option jsstring;
  MAILTRAP_API_URL : option jsstring
}.

Definition truthy_binding (b : option jsstring) : bool :=
  match b with
  | Some (_ :: _) => true
  | _ => false
  end.

Definition binding_text (b : option jsstring) : jsstring :=
  match b with
  | Some s => s
  | None => lit "undefined"
  end.

(** The object handed to [JSON.stringify] for the request body. *)
Record EmailPayload := {
  payload_from : option jsstring;
  payload_to : list (option jsstring);
  payload_subject : jsstring;
  payload_text : jsstring;
  payload_html : jsstring;
  payload_reply_to : value
}.

(** The arguments of one [fetch] call; [fetch_body] stands for the
    serialisation of the payload. *)
Record FetchInit := {
  fetch_url : option jsstring;
  fetch_method : jsstring;
  fetch_headers : list (jsstring * jsstring);
  fetch_body : EmailPayload
}.

(** What the awaited [fetch] does: it resolves to a response with a
    status, whose [text()] may itself fail, or it rejects. *)
Inductive FetchOutcome :=
| Responded (st : Z) (text : Completion jsstring)
| Rejected.

Definition Network := FetchInit -> FetchOutcome.

(** The outbound calls issued so far, oldest first, each with its
    outcome. *)
Definition Log := list (FetchInit * FetchOutcome).

(** Asynchronous code: it may throw, and it may call out. *)
Definition Async (A : Type) := Network -> Log -> Completion A * Log.

Definition ret {A} (a : A) : Async A := fun _ log => (Normal a, log).

Definition lift {A} (c : Completion A) : Async A := fun _ log => (c, log).

Definition bindA {A B} (m : Async A) (k : A -> Async B) : Async B :=
  fun net log =>
    match m net log with
    | (Normal a, log') => k a net log'
    | (Throw e, log') => (Throw e, log')
    end.

Notation "x <~ m ;; k" := (bindA m (fun x => k))
  (at level 61, m at next level, right associativity).

(** [try { m } catch (error) { handler }]. *)
Definition try_catch {A} (m : Async A) (handler : Error -> Async A) : Async A :=
  fun net log =>
    match m net log with
    | (Throw e, log') => handler e net log'
    | r => r
    end.

Record FetchResponse := {
  response_status : Z;
  response_text : Completion jsstring
}.

(** [response.ok]. *)
Definition ok (r : FetchResponse) : bool :=
  (200 <=? response_status r) && (response_status r <=? 299).

Definition fetch (init : FetchInit) : Async FetchResponse :=
  fun net log =>
    match net init with
    | Responded st text =>
        (Normal {| response_status := st; response_text := text |},
         log ++ [(init, Responded st text)])
    | Rejected => (Throw TypeError, log ++ [(init, Rejected)])
    end.

(* ================================================================== *)
(** ** sendEmail *)
(* ================================================================== *)

(** The five passes of the source, in its order. *)
Definition escapeHtml_text (text : jsstring) : jsstring :=
  replaceAll 39 (lit "&#039;")
    (replaceAll 34 (lit "&quot;")
       (replaceAll 62 (lit "&gt;")
          (replaceAll 60 (lit "&lt;")
             (replaceAll 38 (lit "&amp;") text)))).

(** [escapeHtml(text)]: only a string has [replace]. *)
Definition escapeHtml (text : value) : Completion jsstring :=
  match text with
  | Some (JStr s) => Normal (escapeHtml_text s)
  | _ => Throw TypeError
  end.

(** [v || fallback]. *)
Definition or_else (v : value) (fallback : string) : value :=
  if ToBoolean v then v else Some (JStr (lit fallback)).

Definition nl : jsstring := [10%N].

(** The HTML template of [sendEmail], cut at its interpolations: up to [safeName]. *)
Definition html_0 : jsstring := tpl "
<!DOCTYPE html>
<html lang=`en`>
<head>
  <meta charset=`UTF-8`>
  <meta name=`viewport` content=`width=device-width, initial-scale=1.0`>
  <title>New Contact Form Submission</title>
</head>
<body style=`margin: 0; padding: 0; font-family: -apple-system, BlinkMacSystemFont, 'Segoe UI', Roboto, 'Helvetica Neue', Arial, sans-serif; background-color: #f5f5f5;`>
  <table role=`presentation` cellspacing=`0` cellpadding=`0` border=`0` width=`100%` style=`background-color: #f5f5f5;`>
    <tr>
      <td style=`padding: 40px 20px;`>
        <table role=`presentation` cellspacing=`0` cellpadding=`0` border=`0` width=`600` style=`max-width: 600px; margin: 0 auto; background-color: #ffffff; border-radius: 8px; box-shadow: 0 2px 4px rgba(0, 0, 0, 0.1);`>
          <!-- Header -->
          <tr>
            <td style=`padding: 32px 40px; background-color: #1a1a1a; border-radius: 8px 8px 0 0;`>
              <h1 style=`margin: 0; font-size: 24px; font-weight: 600; color: #ffffff; letter-spacing: -0.5px;`>New Contact Form Submission</h1>
            </td>
          </tr>

          <!-- Content -->
          <tr>
            <td style=`padding: 40px;`>
              <!-- Contact Information Section -->
              <table role=`presentation` cellspacing=`0` cellpadding=`0` border=`0` width=`100%`>
                <tr>
                  <td style=`padding-bottom: 24px;`>
                    <table role=`presentation` cellspacing=`0` cellpadding=`0` border=`0` width=`100%`>
                      <tr>
                        <td style=`width: 120px; padding-bottom: 12px; vertical-align: top;`>
                          <span style=`font-size: 13px; font-weight: 600; color: #666666; text-transform: uppercase; letter-spacing: 0.5px;`>Name</span>
                        </td>
                        <td style=`padding-bottom: 12px;`>
                          <span style=`font-size: 15px; color: #1a1a1a; font-weight: 500;`>".

(** Between [safeName] and the first [safeEmail]. *)
Definition html_1 : jsstring := tpl "</span>
                        </td>
                      </tr>
                      <tr>
                        <td style=`width: 120px; padding-bottom: 12px; vertical-align: top;`>
                          <span style=`font-size: 13px; font-weight: 600; color: #666666; text-transform: uppercase; letter-spacing: 0.5px;`>Email</span>
                        </td>
                        <td style=`padding-bottom: 12px;`>
                          <a href=`mailto:".

(** Between the two [safeEmail]. *)
Definition html_2 : jsstring := tpl "` style=`font-size: 15px; color: #2563eb; text-decoration: none; font-weight: 500;`>".

(** Between [safeEmail] and the mobile row. *)
Definition html_3 : jsstring := tpl "</a>
                        </td>
                      </tr>
                      ".

(** The mobile row, rendered when [safeMobile] is not empty: up to the first [safeMobile]. *)
Definition html_mobile_0 : jsstring := tpl "
                      <tr>
                        <td style=`width: 120px; padding-bottom: 12px; vertical-align: top;`>
                          <span style=`font-size: 13px; font-weight: 600; color: #666666; text-transform: uppercase; letter-spacing: 0.5px;`>Mobile</span>
                        </td>
                        <td style=`padding-bottom: 12px;`>
                          <a href=`tel:".

(** Between the two [safeMobile]. *)
Definition html_mobile_1 : jsstring := tpl "` style=`font-size: 15px; color: #2563eb; text-decoration: none; font-weight: 500;`>".

(** After the second [safeMobile]. *)
Definition html_mobile_2 : jsstring := tpl "</a>
                        </td>
                      </tr>
                      ".

(** Between the mobile row and [safeSubject]. *)
Definition html_4 : jsstring := tpl "
                      <tr>
                        <td style=`width: 120px; padding-bottom: 12px; vertical-align: top;`>
                          <span style=`font-size: 13px; font-weight: 600; color: #666666; text-transform: uppercase; letter-spacing: 0.5px;`>Subject</span>
                        </td>
                        <td style=`padding-bottom: 12px;`>
                          <span style=`font-size: 15px; color: #1a1a1a; font-weight: 500;`>".

(** Between [safeSubject] and [safeMessage]. *)
Definition html_5 : jsstring := tpl "</span>
                        </td>
                      </tr>
                    </table>
                  </td>
                </tr>
              </table>

              <!-- Divider -->
              <table role=`presentation` cellspacing=`0` cellpadding=`0` border=`0` width=`100%`>
                <tr>
                  <td style=`padding: 24px 0;`>
                    <div style=`height: 1px; background-color: #e5e5e5;`></div>
                  </td>
                </tr>
              </table>

              <!-- Message Section -->
              <table role=`presentation` cellspacing=`0` cellpadding=`0` border=`0` width=`100%`>
                <tr>
                  <td style=`padding-bottom: 12px;`>
                    <span style=`font-size: 13px; font-weight: 600; color: #666666; text-transform: uppercase; letter-spacing: 0.5px;`>Message</span>
                  </td>
                </tr>
                <tr>
                  <td style=`padding: 20px; background-color: #f9fafb; border-radius: 6px; border-left: 3px solid #2563eb;`>
                    <div style=`font-size: 15px; color: #1a1a1a; line-height: 1.6; white-space: pre-wrap;`>".

(** After [safeMessage]. *)
Definition html_6 : jsstring := tpl "</div>
                  </td>
                </tr>
              </table>
            </td>
          </tr>

          <!-- Footer -->
          <tr>
            <td style=`padding: 24px 40px; background-color: #f9fafb; border-top: 1px solid #e5e5e5; border-radius: 0 0 8px 8px;`>
              <p style=`margin: 0; font-size: 12px; color: #999999; text-align: center;`>
                This message was sent via the contact form on
                <a href=`https://desallyltd.com` style=`color: #2563eb; text-decoration: none;`>desallyltd.com</a>
              </p>
            </td>
          </tr>
        </table>
      </td>
    </tr>
  </table>
</body>
</html>
    ".

(** The plain-text template (the same in both files): up to the name. *)
Definition text_0 : jsstring := tpl "
New Contact Form Submission

Name: ".

(** Between the name and the email. *)
Definition text_1 : jsstring := tpl "
Email: ".

(** Between the mobile line and the subject. *)
Definition text_2 : jsstring := tpl "
Subject: ".

(** Between the subject and the message. *)
Definition text_3 : jsstring := tpl "

Message:
".

(** After the message. *)
Definition text_4 : jsstring := tpl "

---
This message was sent via the contact form on desallyltd.com
    ".

Record SendResult := { success : bool }.

(** The template literal [htmlContent] of [sendEmail], as a function of
    the five strings it interpolates. *)
Definition htmlContent
  (safeName safeEmail safeMobile safeSubject safeMessage : jsstring)
  : jsstring :=
  html_0 ++ safeName ++ html_1 ++ safeEmail ++ html_2 ++ safeEmail ++
  html_3 ++
  (if negb (Nat.eqb (length safeMobile) 0)
   then html_mobile_0 ++ safeMobile ++ html_mobile_1 ++ safeMobile ++
        html_mobile_2
   else []) ++
  html_4 ++ safeSubject ++ html_5 ++ safeMessage ++ html_6.

(** [sendEmail(contactData, env)].  [console] output is not modelled. *)
Definition sendEmail (contactData : json) (env : Env) : Async SendResult :=
  try_catch
    ((* Get environment variables *)
     let apiToken := MAILTRAP_API_TOKEN env in
     let fromEmail := FROM_EMAIL env in
     let toEmail := TO_EMAIL env in
     let mailtrapApiUrl := MAILTRAP_API_URL env in
     if negb (truthy_binding apiToken) || negb (truthy_binding fromEmail)
        || negb (truthy_binding toEmail)
     then ret {| success := false |} else
     (* Prepare email content *)
     subjectField <~ lift (Get contactData "subject");;
     subjectText <~ lift (ToString (or_else subjectField "New Inquiry"));;
     let subject := lit "Contact Form: " ++ subjectText in
     nameField <~ lift (Get contactData "name");;
     safeName <~ lift (escapeHtml nameField);;
     emailField <~ lift (Get contactData "email");;
     safeEmail <~ lift (escapeHtml emailField);;
     mobileField <~ lift (Get contactData "mobile");;
     safeMobile <~ lift (if ToBoolean mobileField then escapeHtml mobileField
                         else Normal []);;
     safeSubject <~ lift (if ToBoolean subjectField then escapeHtml subjectField
                          else Normal (lit "No subject provided"));;
     messageField <~ lift (Get contactData "message");;
     escapedMessage <~ lift (escapeHtml messageField);;
     let safeMessage := replaceAll 10 (lit "<br>") escapedMessage in
     let htmlContent :=
       htmlContent safeName safeEmail safeMobile safeSubject safeMessage in
     nameText <~ lift (ToString nameField);;
     emailText <~ lift (ToString emailField);;
     mobileLine <~ lift (if ToBoolean mobileField
                         then (m <- ToString mobileField;;
                               Normal (nl ++ lit "Mobile: " ++ m))
                         else Normal []);;
     subjectLine <~ lift (ToString (or_else subjectField "No subject provided"));;
     messageText <~ lift (ToString messageField);;
     let textContent :=
       text_0 ++ nameText ++ text_1 ++ emailText ++ mobileLine ++
       text_2 ++ subjectLine ++ text_3 ++ messageText ++ text_4 in
     (* Mailtrap Email Sending API payload *)
     let emailPayload :=
       {| payload_from := fromEmail;
          payload_to := [toEmail];
          payload_subject := subject;
          payload_text := textContent;
          payload_html := htmlContent;
          payload_reply_to := emailField |} in
     (* Send email via Mailtrap Email API *)
     response <~ fetch
       {| fetch_url := mailtrapApiUrl;
          fetch_method := lit "POST";
          fetch_headers :=
            [ (lit "Authorization", lit "Bearer " ++ binding_text apiToken);
              (lit "Content-Type", lit "application/json") ];
          fetch_body := emailPayload |};;
     if ok response then ret {| success := true |}
     else
       errorText <~ lift (response_text response);;
       ret {| success := false |})
    (fun error => ret {| success := false |}).

(* ================================================================== *)
(** ** The [sendEmail] of [src/index.ts] *)
(* ================================================================== *)

Module SrcIndex.

(** The HTML template of [src/index.ts], cut at its interpolations: up to the name. *)
Definition html_0 : jsstring := tpl "
      <h2>New Contact Form Submission</h2>
      <p><strong>Name:</strong> ".

(** Between the name and the email. *)
Definition html_1 : jsstring := tpl "</p>
      <p><strong>Email:</strong> ".

(** Between the email and the mobile paragraph. *)
Definition html_2 : jsstring := tpl "</p>
      ".

(** Between the mobile paragraph and the subject. *)
Definition html_3 : jsstring := tpl "
      <p><strong>Subject:</strong> ".

(** Between the subject and the message. *)
Definition html_4 : jsstring := tpl "</p>
      <h3>Message:</h3>
      <p>".

(** After the message. *)
Definition html_5 : jsstring := tpl "</p>
      <hr>
      <p><em>This message was sent via the contact form on desallyltd.com</em></p>
    ".

(** [contactData.message.replace(/\n/g, '<br>')]. *)
Definition replace_newlines (v : value) : Completion jsstring :=
  match v with
  | Some (JStr s) => Normal (replaceAll 10 (lit "<br>") s)
  | _ => Throw TypeError
  end.

(** [sendEmail(contactData)] of [src/index.ts].  The function reads a
    global [env] that the file does not declare: it is a parameter here,
    [None] when no such global exists (a ReferenceError, caught by the
    function's own [try]). *)
Definition sendEmail (global_env : option Env) (contactData : json)
  : Async SendResult :=
  try_catch
    (env <~ lift (match global_env with
                  | Some e => Normal e
                  | None => Throw ReferenceError
                  end);;
     let apiToken := MAILTRAP_API_TOKEN env in
     let fromEmail := FROM_EMAIL env in
     let toEmail := TO_EMAIL env in
     let mailtrapApiUrl := MAILTRAP_API_URL env in
     if negb (truthy_binding apiToken) || negb (truthy_binding fromEmail)
        || negb (truthy_binding toEmail)
     then ret {| success := false |} else
     (* Prepare email content *)
     subjectField <~ lift (Get contactData "subject");;
     subjectText <~ lift (ToString (or_else subjectField "New Inquiry"));;
     let subject := lit "Contact Form: " ++ subjectText in
     nameField <~ lift (Get contactData "name");;
     nameText <~ lift (ToString nameField);;
     emailField <~ lift (Get contactData "email");;
     emailText <~ lift (ToString emailField);;
     mobileField <~ lift (Get contactData "mobile");;
     mobileParagraph <~ lift (if ToBoolean mobileField
                              then (m <- ToString mobileField;;
                                    Normal (lit "<p><strong>Mobile:</strong> "
                                            ++ m ++ lit "</p>"))
                              else Normal []);;
     subjectLine <~ lift (ToString (or_else subjectField "No subject provided"));;
     messageField <~ lift (Get contactData "message");;
     messageHtml <~ lift (replace_newlines messageField);;
     let htmlContent :=
       html_0 ++ nameText ++ html_1 ++ emailText ++ html_2 ++
       mobileParagraph ++ html_3 ++ subjectLine ++ html_4 ++
       messageHtml ++ html_5 in
     mobileLine <~ lift (if ToBoolean mobileField
                         then (m <- ToString mobileField;;
                               Normal (nl ++ lit "Mobile: " ++ m))
                         else Normal []);;
     messageText <~ lift (ToString messageField);;
     let textContent :=
       text_0 ++ nameText ++ text_1 ++ emailText ++ mobileLine ++
       text_2 ++ subjectLine ++ text_3 ++ messageText ++ text_4 in
     let emailPayload :=
       {| payload_from := fromEmail;
          payload_to := [toEmail];
          payload_subject := subject;
          payload_text := textContent;
          payload_html := htmlContent;
          payload_reply_to := emailField |} in
     response <~ fetch
       {| fetch_url := mailtrapApiUrl;
          fetch_method := lit "POST";
          fetch_headers :=
            [ (lit "Authorization", lit "Bearer " ++ binding_text apiToken);
              (lit "Content-Type", lit "application/json") ];
          fetch_body := emailPayload |};;
     if ok response then ret {| success := true |}
     else
       errorText <~ lift (response_text response);;
       ret {| success := false |})
    (fun error => ret {| success := false |}).

End SrcIndex.

(* ================================================================== *)
(** ** The runtime's numeric reading of a string *)
(* ================================================================== *)

(** [data.subject.length > 200] compares whatever [length] holds with a
    number.  For an object that carries an own [length] key the operand is
    converted by the engine's [StringToNumber]; that conversion belongs to
    the runtime, not to the repository, and the worker is modelled over any
    runtime that provides it. *)
Class JSRuntime := {
  (** [StringToNumber_gtb s limit]: the Number value of the string [s]
      is greater than [limit] (false for NaN). *)
  StringToNumber_gtb : jsstring -> N -> bool
}.

Section Worker.

Context {runtime : JSRuntime}.

(** [v > limit] for an operand read from a JSON object. *)
Definition greater_than (v : value) (limit : N) : Completion bool :=
  match v with
  | None => Normal false
  | Some JNull => Normal (N.ltb limit 0)
  | Some (JBool b) => Normal (N.ltb limit (if b then 1 else 0))
  | Some (JNum x) => Normal (number_gtb x limit)
  | Some (JStr s) => Normal (StringToNumber_gtb s limit)
  | Some o => s <- ToString_json o;; Normal (StringToNumber_gtb s limit)
  end.

(** [v.length > limit] for a truthy [v]. *)
Definition length_greater_than (v : value) (limit : N) : Completion bool :=
  match v with
  | None | Some JNull => Throw TypeError
  | Some (JStr s) => Normal (N.ltb limit (N.of_nat (length s)))
  | Some (JArr l) => Normal (N.ltb limit (N.of_nat (length l)))
  | Some (JObj members) => greater_than (own_property members (lit "length")) limit
  | Some (JBool _) | Some (JNum _) => Normal false
  end.

(* ================================================================== *)
(** ** validateInput *)
(* ================================================================== *)

Record ValidationResult := {
  isValid : bool;
  message : option jsstring
}.

Definition invalid (msg : string) : ValidationResult :=
  {| isValid := false; message := Some (lit msg) |}.
Definition valid : ValidationResult :=
  {| isValid := true; message := None |}.

(** [validateInput(data)], the same text in both source files.  Each
    [if] of the source is one step of the cascade; a property is read once
    per step since a parsed JSON object has no getters. *)
Definition validateInput (data : json) : Completion ValidationResult :=
  (* Check if data exists *)
  if negb (ToBoolean (Some data))
     || negb (jsstring_eqb (typeof (Some data)) (lit "object"))
  then Normal (invalid "Invalid request body") else
  (* Validate required fields *)
  name <- Get data "name";;
  c <- Normal (negb (ToBoolean name))
       ||| Normal (negb (jsstring_eqb (typeof name) (lit "string")))
       ||| (t <- String_prototype_trim name;; Normal (Nat.eqb (length t) 0));;
  if c then Normal (invalid "Name is required") else
  email <- Get data "email";;
  c <- Normal (negb (ToBoolean email))
       ||| Normal (negb (jsstring_eqb (typeof email) (lit "string")))
       ||| (t <- String_prototype_trim email;; Normal (Nat.eqb (length t) 0));;
  if c then Normal (invalid "Email is required") else
  msg <- Get data "message";;
  c <- Normal (negb (ToBoolean msg))
       ||| Normal (negb (jsstring_eqb (typeof msg) (lit "string")))
       ||| (t <- String_prototype_trim msg;; Normal (Nat.eqb (length t) 0));;
  if c then Normal (invalid "Message is required") else
  (* Validate email format *)
  t <- String_prototype_trim email;;
  if negb (RegExp_test emailRegex t)
  then Normal (invalid "Please provide a valid email address") else
  (* Validate mobile number if provided *)
  mobile <- Get data "mobile";;
  c <- (if negb (is_undefined mobile) && negb (is_null mobile)
           && negb (strict_equal_string mobile [])
        then
          (s <- ToString mobile;;
           let mobileStr := trim s in
           Normal (negb (RegExp_test digitsRegex mobileStr)
                   || Nat.ltb (length mobileStr) 7
                   || Nat.ltb 15 (length mobileStr)))
        else Normal false);;
  if c then Normal (invalid "Mobile number must be valid") else
  (* Validate field lengths *)
  t <- String_prototype_trim name;;
  if Nat.ltb 100 (length t)
  then Normal (invalid "Name must be less than 100 characters") else
  subject <- Get data "subject";;
  c <- Normal (ToBoolean subject) &&& length_greater_than subject 200;;
  if c then Normal (invalid "Subject must be less than 200 characters") else
  t <- String_prototype_trim msg;;
  if Nat.ltb 1000 (length t)
  then Normal (invalid "Message must be less than 1000 characters") else
  Normal valid.

(* ================================================================== *)
(** ** handleRequest *)
(* ================================================================== *)

(** What the handler reads of the incoming request: [request.method],
    the [pathname] of [new URL(request.url)], and what [request.json()]
    settles to (a thrown SyntaxError when the body is not JSON). *)
Record Request := {
  method : jsstring;
  pathname : jsstring;
  json_body : Completion json
}.

Definition failure_message : jsstring :=
  lit "Unable to send your inquiry. Please try again later.".

Definition success_response : Response :=
  {| status := 200;
     headers := (lit "Content-Type", lit "application/json") :: getCORSHeaders;
     body := Some (JSON_stringify_envelope (lit "success")
                     (lit "Your inquiry has been sent.")) |}.

(** [validation.message || 'Validation failed']. *)
Definition message_or_default (m : option jsstring) : jsstring :=
  match m with
  | Some (c :: t) => c :: t
  | _ => lit "Validation failed"
  end.

Definition handleRequest (request : Request) (env : Env) : Async Response :=
  (* Handle CORS preflight requests *)
  if jsstring_eqb (method request) (lit "OPTIONS") then ret handleCORS else
  (* Only allow POST requests to /contact *)
  if negb (jsstring_eqb (method request) (lit "POST"))
  then ret (createErrorResponse (lit "Method not allowed") 405) else
  if negb (jsstring_eqb (pathname request) (lit "/contact"))
  then ret (createErrorResponse (lit "Endpoint not found") 404) else
  try_catch
    ((* Parse JSON body *)
     body <~ lift (json_body request);;
     (* Validate input *)
     validation <~ lift (validateInput body);;
     if negb (isValid validation)
     then ret (createErrorResponse (message_or_default (message validation)) 400)
     else
     (* Send email *)
     emailResult <~ sendEmail body env;;
     if negb (success emailResult)
     then ret (createErrorResponse failure_message 500)
     else
     (* Return success response *)
     ret success_response)
    (fun error => ret (createErrorResponse failure_message 500)).

(* ================================================================== *)
(** ** The validation rules, by name *)
(* ================================================================== *)

(** The nine rules the validator is described by, in the order the
    description gives them. *)
Inductive Rule :=
| BodyIsObject | NamePresent | EmailPresent | MessagePresent
| EmailFormat | MobileFormat | NameLength | SubjectLength | MessageLength.

Definition rule_order : list Rule :=
  [ BodyIsObject; NamePresent; EmailPresent; MessagePresent;
    EmailFormat; MobileFormat; NameLength; SubjectLength; MessageLength ].

Definition rule_message (r : Rule) : string :=
  match r with
  | BodyIsObject => "Invalid request body"
  | NamePresent => "Name is required"
  | EmailPresent => "Email is required"
  | MessagePresent => "Message is required"
  | EmailFormat => "Please provide a valid email address"
  | MobileFormat => "Mobile number must be valid"
  | NameLength => "Name must be less than 100 characters"
  | SubjectLength => "Subject must be less than 200 characters"
  | MessageLength => "Message must be less than 1000 characters"
  end.

(** The test of a required field: [!v || typeof v !== 'string' ||
    v.trim().length === 0]. *)
Definition required_field_fails (v : value) : Completion bool :=
  Normal (negb (ToBoolean v))
  ||| Normal (negb (jsstring_eqb (typeof v) (lit "string")))
  ||| (t <- String_prototype_trim v;; Normal (Nat.eqb (length t) 0)).

(** The test of the mobile rule on the text [String(mobile).trim()]. *)
Definition mobile_text_fails (mobileStr : jsstring) : bool :=
  negb (RegExp_test digitsRegex mobileStr)
  || Nat.ltb (length mobileStr) 7
  || Nat.ltb 15 (length mobileStr).

(** [rule_fails r data]: the condition of the [if] that reports rule
    [r], evaluated on its own. *)
Definition rule_fails (r : Rule) (data : json) : Completion bool :=
  match r with
  | BodyIsObject =>
      Normal (negb (ToBoolean (Some data))
              || negb (jsstring_eqb (typeof (Some data)) (lit "object")))
  | NamePresent => v <- Get data "name";; required_field_fails v
  | EmailPresent => v <- Get data "email";; required_field_fails v
  | MessagePresent => v <- Get data "message";; required_field_fails v
  | EmailFormat =>
      v <- Get data "email";;
      t <- String_prototype_trim v;;
      Normal (negb (RegExp_test emailRegex t))
  | MobileFormat =>
      v <- Get data "mobile";;
      if negb (is_undefined v) && negb (is_null v)
         && negb (strict_equal_string v [])
      then (s <- ToString v;; Normal (mobile_text_fails (trim s)))
      else Normal false
  | NameLength =>
      v <- Get data "name";;
      t <- String_prototype_trim v;;
      Normal (Nat.ltb 100 (length t))
  | SubjectLength =>
      v <- Get data "subject";;
      Normal (ToBoolean v) &&& length_greater_than v 200
  | MessageLength =>
      v <- Get data "message";;
      t <- String_prototype_trim v;;
      Normal (Nat.ltb 1000 (length t))
  end.

(** Running a list of rules in order: the first rule that fails is
    reported, and nothing after it is evaluated. *)
Fixpoint run_rules (rules : list Rule) (data : json)
  : Completion ValidationResult :=
  match rules with
  | [] => Normal valid
  | r :: rest =>
      c <- rule_fails r data;;
      if c then Normal (invalid (rule_message r)) else run_rules rest data
  end.

(** [passes rules data]: every rule of the list evaluates to
    "does not fail". *)
Definition passes (rules : list Rule) (data : json) : Prop :=
  Forall (fun r => rule_fails r data = Normal false) rules.

Definition Rule_eqb (a b : Rule) : bool :=
  match a, b with
  | BodyIsObject, BodyIsObject | NamePresent, NamePresent
  | EmailPresent, EmailPresent | MessagePresent, MessagePresent
  | EmailFormat, EmailFormat | MobileFormat, MobileFormat
  | NameLength, NameLength | SubjectLength, SubjectLength
  | MessageLength, MessageLength => true
  | _, _ => false
  end.

(** The rules that precede [r] in an order. *)
Fixpoint rules_before_in (order : list Rule) (r : Rule) : list Rule :=
  match order with
  | [] => []
  | r' :: rest => if Rule_eqb r r' then [] else r' :: rules_before_in rest r
  end.

Definition rules_before (r : Rule) : list Rule := rules_before_in rule_order r.

(** [r] is the first failing rule on [data]: it fails, and every rule
    before it passes. *)
Definition first_failing (r : Rule) (data : json) : Prop :=
  passes (rules_before r) data /\ rule_fails r data = Normal true.

(* ================================================================== *)
(** ** Vocabulary of the properties *)
(* ================================================================== *)

(** A [POST /contact] request whose body parses to [data]. *)
Definition post_contact (request : Request) (data : json) : Prop :=
  method request = lit "POST" /\ pathname request = lit "/contact" /\
  json_body request = Normal data.

(** The handler answers [request] with [resp]. *)
Definition responds (request : Request) (env : Env) (net : Network)
  (resp : Response) : Prop :=
  fst (handleRequest request env net []) = Normal resp.

(** The outbound calls the handler issues while it answers [request]. *)
Definition outbound_calls (request : Request) (env : Env) (net : Network)
  : Log :=
  snd (handleRequest request env net []).

End Worker.

(** The 400 response of a rule. *)
Definition rule_response (r : Rule) : Response :=
  createErrorResponse (lit (rule_message r)) 400.

(** A response with a JSON body, the content type and the CORS
    headers; the text is written with a backtick for each double quote. *)
Definition json_response (st : Z) (text : string) : Response :=
  {| status := st;
     headers :=
       [ (lit "Content-Type", lit "application/json");
         (lit "Access-Control-Allow-Origin", lit "*");
         (lit "Access-Control-Allow-Methods", lit "POST, OPTIONS");
         (lit "Access-Control-Allow-Headers", lit "Content-Type");
         (lit "Access-Control-Max-Age", lit "86400") ];
     body := Some (tpl text) |}.

(** The text of the error envelope around a message. *)
Definition error_envelope (msg : string) : string :=
  ("{`status`:`error`,`message`:`" ++ msg ++ "`}")%string.

(** The value of a property of the body, [undefined] when the body
    has none. *)
Definition field (data : json) (key : string) : value :=
  match Get data key with
  | Normal v => v
  | Throw _ => undefined
  end.

Definition failure_response : Response :=
  createErrorResponse failure_message 500.

(** A required field that is missing, empty, whitespace-only, or not a
    string. *)
Definition blank (v : value) : bool :=
  match v with
  | None => true
  | Some (JStr s) => forallb isWhiteSpace s
  | Some _ => true
  end.

(** A string made of digits only. *)
Definition digit_only (s : jsstring) : bool := forallb isDigit s.

(** A status in the 2xx range. *)
Definition is_2xx (st : Z) : bool := (200 <=? st) && (st <=? 299).

(** An outbound call that came back with a 2xx status. *)
Definition call_ok (out : FetchOutcome) : bool :=
  match out with
  | Responded st _ => is_2xx st
  | Rejected => false
  end.

(** The five characters that HTML-escaping replaces. *)
Definition html_special (c : N) : bool :=
  (N.eqb c 38 || N.eqb c 60 || N.eqb c 62 || N.eqb c 34 || N.eqb c 39)%N.

(** What escaping makes of one character. *)
Definition escape_unit (c : N) : jsstring :=
  if N.eqb c 38 then lit "&amp;"
  else if N.eqb c 60 then lit "&lt;"
  else if N.eqb c 62 then lit "&gt;"
  else if N.eqb c 34 then lit "&quot;"
  else if N.eqb c 39 then lit "&#039;"
  else [c].

(** The five entities that replace them. *)
Definition html_entities : list jsstring :=
  [ lit "&amp;"; lit "&lt;"; lit "&gt;"; lit "&quot;"; lit "&#039;" ].

(** Text in which none of the five characters occurs except the [&]
    (and nothing else) of an entity: a sequence of ordinary characters and
    whole entities. *)
Inductive escaped : jsstring -> Prop :=
| escaped_nil : escaped []
| escaped_char c s : html_special c = false -> escaped s -> escaped (c :: s)
| escaped_entity e s : In e html_entities -> escaped s -> escaped (e ++ s).

(** [haystack.includes(needle)]. *)
Fixpoint starts_with (needle haystack : jsstring) : bool :=
  match needle, haystack with
  | [], _ => true
  | x :: n', y :: h' => N.eqb x y && starts_with n' h'
  | _ :: _, [] => false
  end.

Fixpoint includes (needle haystack : jsstring) : bool :=
  starts_with needle haystack ||
  match haystack with
  | [] => false
  | _ :: h' => includes needle h'
  end.

(** The integer [± s × 10^(n − k)] with [k <= n]: a Number whose decimal
    expansion has exactly [n] digits. *)
Definition integer_of_digits (x : number) (n : Z) : Prop :=
  exists s, x = NumFinite false s n /\
            Z.of_nat (length (digits_of_pos s)) <= n.

(* ================================================================== *)
(** ** Concrete inputs *)
(* ================================================================== *)

(** A runtime on which the model can be evaluated: it reads a string
    of decimal digits as that integer and any other string as NaN. No
    input below reaches it; every theorem holds for every runtime. *)
Definition decimal_runtime : JSRuntime :=
  {| StringToNumber_gtb := fun s limit =>
       match s with
       | [] => false
       | _ => forallb isDigit s &&
              N.ltb limit
                (fold_left (fun acc d => (10 * acc + (d - 48))%N) s 0%N)
       end |}.

Definition obj (members : list (string * json)) : json :=
  JObj (map (fun kv => (lit (fst kv), snd kv)) members).

Definition str (s : string) : json := JStr (lit s).

Definition sample_env : Env :=
  {| MAILTRAP_API_TOKEN := Some (lit "token");
     FROM_EMAIL := Some (lit "from@desallyltd.com");
     TO_EMAIL := Some (lit "to@desallyltd.com");
     MAILTRAP_API_URL := Some (lit "https://send.api.mailtrap.io/api/send") |}.

(** An upstream that answers every call with the given status. *)
Definition upstream (st : Z) : Network := fun _ => Responded st (Normal []).

(** An upstream whose call fails. *)
Definition upstream_down : Network := fun _ => Rejected.

Definition post (data : Completion json) : Request :=
  {| method := lit "POST"; pathname := lit "/contact"; json_body := data |}.

(** The body of the example of the description. *)
Definition body_jo : json :=
  obj [ ("name", str "Jo"); ("email", str "jo@x.com");
        ("message", str "Hi") ]%string.

Definition letters (n : nat) : json := JStr (repeat 97%N n).

(** The second example of the description: an empty name. *)
Definition body_empty_name : json :=
  obj [ ("name", JStr []); ("email", str "jo@x.com");
        ("message", str "Hi") ]%string.

(** A name of 101 characters, the last of them a space. *)
Definition name_101 : jsstring := repeat 97%N 100 ++ [32%N].

Definition body_name_101 : json :=
  obj [ ("name", JStr name_101); ("email", str "jo@x.com");
        ("message", str "Hi") ]%string.

(** A name of 100, a subject of 200 and a message of 1000 characters. *)
Definition body_at_limits : json :=
  obj [ ("name", letters 100); ("email", str "jo@x.com");
        ("subject", letters 200); ("message", letters 1000) ]%string.

(** A name of one space, and an email without an at sign. *)
Definition body_space_name : json :=
  obj [ ("name", str " "); ("email", str "jo"); ("message", str "Hi") ]%string.

Definition body_bad_email : json :=
  obj [ ("name", str "Jo"); ("email", str "jo@x"); ("message", str "Hi") ]%string.

(** A mobile with a space on either side of seven digits. *)
Definition body_spaced_mobile : json :=
  obj [ ("name", str "Jo"); ("email", str "jo@x.com"); ("message", str "Hi");
        ("mobile", str " 1234567 ") ]%string.

Definition body_short_mobile : json :=
  obj [ ("name", str "Jo"); ("email", str "jo@x.com"); ("message", str "Hi");
        ("mobile", str "12345") ]%string.

(** A mobile that is the JSON number 1234567. *)
Definition body_number_mobile : json :=
  obj [ ("name", str "Jo"); ("email", str "jo@x.com"); ("message", str "Hi");
        ("mobile", JNum (NumFinite false 1234567 7)) ]%string.

Definition body_markup : json :=
  obj [ ("name", str "<script>alert(1)</script>"); ("email", str "jo@x.com");
        ("message", str "Hi") ]%string.

(* ================================================================== *)
(** ** The handler of [src/index.ts] *)
(* ================================================================== *)

Module SrcIndexWorker.

Section WithRuntime.

Context {runtime : JSRuntime}.

(** [createErrorResponse(message, status)] of [src/index.ts], which is
    also called with [validation.message]: a message that is [undefined]
    is left out by [JSON.stringify]. *)
Definition createErrorResponse (message : option jsstring) (status : Z)
  : Response :=
  {| status := status;
     headers := (lit "Content-Type", lit "application/json") :: getCORSHeaders;
     body := Some (match message with
                   | Some m => JSON_stringify_envelope (lit "error") m
                   | None =>
                       tpl "{`status`:" ++ QuoteJSONString (lit "error")
                       ++ lit "}"
                   end) |}.

(** [handleRequest(request)] of [src/index.ts]; the global [env] that
    its [sendEmail] reads is the parameter [global_env]. *)
Definition handleRequest (global_env : option Env) (request : Request)
  : Async Response :=
  (* Handle CORS preflight requests *)
  if jsstring_eqb (method request) (lit "OPTIONS") then ret handleCORS else
  (* Only allow POST requests to /contact *)
  if negb (jsstring_eqb (method request) (lit "POST"))
  then ret (createErrorResponse (Some (lit "Method not allowed")) 405) else
  if negb (jsstring_eqb (pathname request) (lit "/contact"))
  then ret (createErrorResponse (Some (lit "Endpoint not found")) 404) else
  try_catch
    ((* Parse JSON body *)
     body <~ lift (json_body request);;
     (* Validate input *)
     validation <~ lift (validateInput body);;
     if negb (isValid validation)
     then ret (createErrorResponse (message validation) 400)
     else
     (* Send email *)
     emailResult <~ SrcIndex.sendEmail global_env body;;
     if negb (success emailResult)
     then ret (createErrorResponse (Some failure_message) 500)
     else
     (* Return success response *)
     ret success_response)
    (fun error => ret (createErrorResponse (Some failure_message) 500)).

End WithRuntime.

End SrcIndexWorker.

(* ================================================================== *)
(** ** Vocabulary of the further properties *)
(* ================================================================== *)

(** A value that is not an array and not an object. *)
Definition primitive (v : value) : bool :=
  match v with
  | Some (JArr _) | Some (JObj _) => false
  | _ => true
  end.

(** A value that is a string. *)
Definition is_string (v : value) : bool :=
  match v with
  | Some (JStr _) => true
  | _ => false
  end.

(** The text of a field that is a non-empty string, and the fallback
    otherwise. *)
Definition string_or (v : value) (fallback : string) : jsstring :=
  match v with
  | Some (JStr (c :: s)) => c :: s
  | _ => lit fallback
  end.

(** The line of the plain text that shows a mobile that is a non-empty
    string. *)
Definition mobile_line (v : value) : jsstring :=
  match v with
  | Some (JStr (c :: s)) => nl ++ lit "Mobile: " ++ c :: s
  | _ => []
  end.

(** The escaped text of a field that is a non-empty string, and the
    fallback otherwise. *)
Definition escaped_or (v : value) (fallback : jsstring) : jsstring :=
  match v with
  | Some (JStr (c :: s)) => escapeHtml_text (c :: s)
  | _ => fallback
  end.

(** The text of a field that is a string. *)
Definition text_of (v : value) : jsstring :=
  match v with
  | Some (JStr s) => s
  | _ => []
  end.

(** The call the module worker issues for a submission whose fields
    are strings, in closed form. *)
Definition sent_request (env : Env) (contactData : json) : FetchInit :=
  let name := text_of (field contactData "name") in
  let email := text_of (field contactData "email") in
  let mobile := field contactData "mobile" in
  let subject := field contactData "subject" in
  let message := text_of (field contactData "message") in
  {| fetch_url := MAILTRAP_API_URL env;
     fetch_method := lit "POST";
     fetch_headers :=
       [ (lit "Authorization",
          lit "Bearer " ++ binding_text (MAILTRAP_API_TOKEN env));
         (lit "Content-Type", lit "application/json") ];
     fetch_body :=
       {| payload_from := FROM_EMAIL env;
          payload_to := [TO_EMAIL env];
          payload_subject :=
            lit "Contact Form: " ++ string_or subject "New Inquiry";
          payload_text :=
            text_0 ++ name ++ text_1 ++ email ++ mobile_line mobile ++
            text_2 ++ string_or subject "No subject provided" ++ text_3 ++
            message ++ text_4;
          payload_html :=
            htmlContent (escapeHtml_text name) (escapeHtml_text email)
              (escaped_or mobile [])
              (escaped_or subject (lit "No subject provided"))
              (replaceAll 10 (lit "<br>") (escapeHtml_text message));
          payload_reply_to := field contactData "email" |} |}.

(** The three bindings that [sendEmail] requires. *)
Definition configured (env : Env) : bool :=
  truthy_binding (MAILTRAP_API_TOKEN env) && truthy_binding (FROM_EMAIL env)
  && truthy_binding (TO_EMAIL env).

(** The number of occurrences of a code unit. *)
Definition occurrences (c : N) (s : jsstring) : nat :=
  length (filter (N.eqb c) s).

(** Further concrete inputs. *)
Definition env_without_sender : Env :=
  {| MAILTRAP_API_TOKEN := Some (lit "token");
     FROM_EMAIL := None;
     TO_EMAIL := Some (lit "to@desallyltd.com");
     MAILTRAP_API_URL := Some (lit "https://send.api.mailtrap.io/api/send") |}.

(** [body_jo] with a member the worker does not read. *)
Definition body_jo_extra : json :=
  obj [ ("company", str "ACME"); ("name", str "Jo"); ("email", str "jo@x.com");
        ("message", str "Hi") ]%string.

(** A mobile that is an object with an own [toString] key. *)
Definition body_object_mobile : json :=
  obj [ ("name", str "Jo"); ("email", str "jo@x.com"); ("message", str "Hi");
        ("mobile", obj [ ("toString", JNull) ]) ]%string.

(** A mobile that is [false]. *)
Definition body_false_mobile : json :=
  obj [ ("name", str "Jo"); ("email", str "jo@x.com"); ("message", str "Hi");
        ("mobile", JBool false) ]%string.

(** A mobile that is the JSON number 12345. *)
Definition body_short_number_mobile : json :=
  obj [ ("name", str "Jo"); ("email", str "jo@x.com"); ("message", str "Hi");
        ("mobile", JNum (NumFinite false 12345 5)) ]%string.

(** A name and a message within their lengths after trimming, and a
    subject that is absent or a string of at most 200 characters. *)
Definition within_lengths (data : json) (n m : jsstring) : Prop :=
  (length (trim n) <= 100)%nat /\ (length (trim m) <= 1000)%nat /\
  (field data "subject" = None \/
   exists sub, field data "subject" = Some (JStr sub) /\
               (length sub <= 200)%nat).

(** A mobile and a subject that are strings. *)
Definition body_full : json :=
  obj [ ("name", str "Jo & Co"); ("email", str "jo@x.com");
        ("mobile", str "1234567"); ("subject", str "Hello <there>");
        ("message", str "Hi") ]%string.

(* ================================================================== *)
(** ** Strings *)
(* ================================================================== *)

Lemma jsstring_eqb_eq (a b : jsstring) : jsstring_eqb a b = true <-> a = b.
Proof.
  revert b; induction a as [|x a IH]; intros [|y b]; simpl; split;
    try congruence; try reflexivity.
  - intros H. apply andb_true_iff in H as [Hx Ha].
    apply N.eqb_eq in Hx. apply IH in Ha. congruence.
  - intros H. injection H as -> ->.
    rewrite N.eqb_refl. simpl. apply IH. reflexivity.
Qed.

Lemma jsstring_eqb_refl (a : jsstring) : jsstring_eqb a a = true.
Proof. apply jsstring_eqb_eq. reflexivity. Qed.

Lemma dropWhile_nil_iff (p : N -> bool) (s : jsstring) :
  dropWhile p s = [] <-> forallb p s = true.
Proof.
  induction s as [|c s IH]; simpl.
  - tauto.
  - destruct (p c); simpl.
    + exact IH.
    + split; discriminate.
Qed.

Lemma dropWhile_head (p : N -> bool) (s : jsstring) (c : N) (t : jsstring) :
  dropWhile p s = c :: t -> p c = false.
Proof.
  induction s as [|x s IH]; simpl.
  - discriminate.
  - destruct (p x) eqn:E.
    + exact IH.
    + intros H. injection H as -> _. exact E.
Qed.

Lemma forallb_rev (p : N -> bool) (s : jsstring) :
  forallb p (rev s) = forallb p s.
Proof.
  induction s as [|c s IH]; simpl.
  - reflexivity.
  - rewrite forallb_app, IH. simpl. rewrite andb_true_r. apply andb_comm.
Qed.

Lemma trimEnd_nil_iff (s : jsstring) :
  trimEnd s = [] <-> forallb isWhiteSpace s = true.
Proof.
  unfold trimEnd. rewrite <- forallb_rev, <- dropWhile_nil_iff.
  split.
  - intros H. apply (f_equal (@rev N)) in H. rewrite rev_involutive in H.
    exact H.
  - intros ->. reflexivity.
Qed.

(** [trim] leaves nothing exactly when the string is empty or made of
    white space only. *)
Lemma trim_nil_iff (s : jsstring) :
  trim s = [] <-> forallb isWhiteSpace s = true.
Proof.
  unfold trim, trimStart. rewrite trimEnd_nil_iff. split.
  - intros H. apply dropWhile_nil_iff.
    destruct (dropWhile isWhiteSpace s) as [|c t] eqn:E; [reflexivity|].
    apply dropWhile_head in E. simpl in H. rewrite E in H. discriminate.
  - intros H. apply dropWhile_nil_iff in H. rewrite H. reflexivity.
Qed.

Lemma trim_length_zero (s : jsstring) :
  Nat.eqb (length (trim s)) 0 = forallb isWhiteSpace s.
Proof.
  destruct (forallb isWhiteSpace s) eqn:E.
  - apply trim_nil_iff in E. rewrite E. reflexivity.
  - destruct (trim s) eqn:T; [|reflexivity].
    apply trim_nil_iff in T. congruence.
Qed.

(** A string without white space at either end is its own trim. *)
Lemma trim_id (s : jsstring) :
  match s with [] => True | c :: _ => isWhiteSpace c = false end ->
  match rev s with [] => True | c :: _ => isWhiteSpace c = false end ->
  trim s = s.
Proof.
  intros Hs He. unfold trim, trimStart, trimEnd.
  assert (dropWhile isWhiteSpace s = s) as ->.
  { destruct s as [|c t]; simpl; [reflexivity|]. rewrite Hs. reflexivity. }
  assert (dropWhile isWhiteSpace (rev s) = rev s) as ->.
  { destruct (rev s) as [|c t]; simpl; [reflexivity|]. rewrite He. reflexivity. }
  apply rev_involutive.
Qed.

(* ================================================================== *)
(** ** Regular expressions: the matcher decides the language *)
(* ================================================================== *)

Lemma lang_none_inv s : lang RNone s -> False.
Proof. inversion 1. Qed.

Lemma lang_eps_inv s : lang REps s -> s = [].
Proof. inversion 1. reflexivity. Qed.

Lemma lang_class_inv p s : lang (RClass p) s -> exists c, s = [c] /\ p c = true.
Proof. inversion 1; subst. eauto. Qed.

Lemma lang_cat_inv r1 r2 s :
  lang (RCat r1 r2) s -> exists s1 s2, s = s1 ++ s2 /\ lang r1 s1 /\ lang r2 s2.
Proof. inversion 1; subst. eauto. Qed.

Lemma lang_alt_inv r1 r2 s : lang (RAlt r1 r2) s -> lang r1 s \/ lang r2 s.
Proof. inversion 1; subst; auto. Qed.

(** A non-empty word of a starred language starts with a non-empty
    word of the language. *)
Lemma lang_star_cons_inv r c s :
  lang (RStar r) (c :: s) ->
  exists s1 s2, s = s1 ++ s2 /\ lang r (c :: s1) /\ lang (RStar r) s2.
Proof.
  intros H. remember (RStar r) as r' eqn:Er. remember (c :: s) as w eqn:Ew.
  revert s Ew.
  induction H as [| | | | | |r0 s1 s2 H1 _ H2 IH2]; intros t Ew; try discriminate.
  injection Er as ->.
  destruct s1 as [|x s1].
  - simpl in Ew. apply IH2; [reflexivity | exact Ew].
  - simpl in Ew. injection Ew as -> <-. eauto.
Qed.

Lemma nullable_lang r : nullable r = true <-> lang r [].
Proof.
  induction r as [| |p|r1 IH1 r2 IH2|r1 IH1 r2 IH2|r IH]; simpl.
  - split; [discriminate | intros H; destruct (lang_none_inv H)].
  - split; [constructor | reflexivity].
  - split; [discriminate|].
    intros H. apply lang_class_inv in H as (c & E & _). discriminate.
  - rewrite andb_true_iff, IH1, IH2. split.
    + intros [H1 H2]. exact (lang_cat H1 H2).
    + intros H. apply lang_cat_inv in H as (s1 & s2 & E & H1 & H2).
      symmetry in E. apply app_eq_nil in E as [-> ->]. auto.
  - rewrite orb_true_iff, IH1, IH2. split.
    + intros [H|H]; [apply lang_alt_l | apply lang_alt_r]; exact H.
    + apply lang_alt_inv.
  - split; [constructor | reflexivity].
Qed.

Lemma deriv_lang c r : forall s, lang (deriv c r) s <-> lang r (c :: s).
Proof.
  induction r as [| |p|r1 IH1 r2 IH2|r1 IH1 r2 IH2|r IH]; simpl; intros s.
  - split; intros H; destruct (lang_none_inv H).
  - split; intros H; [destruct (lang_none_inv H)|].
    apply lang_eps_inv in H. discriminate.
  - destruct (p c) eqn:E; split; intros H.
    + apply lang_eps_inv in H as ->. constructor. exact E.
    + apply lang_class_inv in H as (c' & Es & _). injection Es as _ ->.
      constructor.
    + destruct (lang_none_inv H).
    + apply lang_class_inv in H as (c' & Es & Hp). injection Es as <- _.
      congruence.
  - assert (Hcat : lang (RCat (deriv c r1) r2) s <->
                   exists s1 s2, s = s1 ++ s2 /\ lang r1 (c :: s1) /\ lang r2 s2).
    { split.
      - intros H. apply lang_cat_inv in H as (s1 & s2 & E & H1 & H2).
        exists s1, s2. rewrite <- IH1. auto.
      - intros (s1 & s2 & -> & H1 & H2). apply lang_cat; [|exact H2].
        apply IH1. exact H1. }
    destruct (nullable r1) eqn:En.
    + split.
      * intros H. apply lang_alt_inv in H as [H|H].
        -- apply Hcat in H as (s1 & s2 & -> & H1 & H2).
           exact (lang_cat H1 H2).
        -- apply IH2 in H. apply nullable_lang in En.
           exact (lang_cat En H).
      * intros H. apply lang_cat_inv in H as (s1 & s2 & E & H1 & H2).
        destruct s1 as [|x s1]; simpl in E.
        -- apply lang_alt_r. apply IH2. rewrite E. exact H2.
        -- injection E as <- ->. apply lang_alt_l. apply Hcat. eauto.
    + rewrite Hcat. split.
      * intros (s1 & s2 & -> & H1 & H2). exact (lang_cat H1 H2).
      * intros H. apply lang_cat_inv in H as (s1 & s2 & E & H1 & H2).
        destruct s1 as [|x s1]; simpl in E.
        -- apply nullable_lang in H1. congruence.
        -- injection E as <- ->. eauto.
  - split; intros H.
    + apply lang_alt_inv in H as [H|H];
        [apply lang_alt_l, IH1 | apply lang_alt_r, IH2]; exact H.
    + apply lang_alt_inv in H as [H|H];
        [apply lang_alt_l, IH1 | apply lang_alt_r, IH2]; exact H.
  - split; intros H.
    + apply lang_cat_inv in H as (s1 & s2 & -> & H1 & H2).
      apply IH in H1. exact (lang_star_cons H1 H2).
    + apply lang_star_cons_inv in H as (s1 & s2 & -> & H1 & H2).
      apply lang_cat; [apply IH; exact H1 | exact H2].
Qed.

(** [test] answers true exactly on the words of the language. *)
Lemma RegExp_test_lang r s : RegExp_test r s = true <-> lang r s.
Proof.
  revert r; induction s as [|c s IH]; intros r; simpl.
  - apply nullable_lang.
  - rewrite IH. apply deriv_lang.
Qed.

Lemma lang_star_class p s :
  lang (RStar (RClass p)) s <-> forallb p s = true.
Proof.
  split.
  - induction s as [|c s IH]; intros H; simpl; [reflexivity|].
    apply lang_star_cons_inv in H as (s1 & s2 & -> & H1 & H2).
    apply lang_class_inv in H1 as (c' & E & Hp).
    injection E as <- ->. rewrite Hp. apply IH. exact H2.
  - induction s as [|c s IH]; simpl; intros H; [constructor|].
    apply andb_true_iff in H as [Hc Hs].
    apply (lang_star_cons (s1 := [c])); [constructor; exact Hc | auto].
Qed.

Lemma lang_plus_class p s :
  lang (RPlus (RClass p)) s <-> s <> [] /\ forallb p s = true.
Proof.
  unfold RPlus. split.
  - intros H. apply lang_cat_inv in H as (s1 & s2 & -> & H1 & H2).
    apply lang_class_inv in H1 as (c & -> & Hp).
    apply lang_star_class in H2. simpl. rewrite Hp, H2.
    split; [discriminate | reflexivity].
  - intros [Hne H]. destruct s as [|c s]; [congruence|].
    simpl in H. apply andb_true_iff in H as [Hc Hs].
    apply (lang_cat (s1 := [c])); [constructor; exact Hc|].
    apply lang_star_class. exact Hs.
Qed.

(** [/^\d+$/] accepts the non-empty strings of digits. *)
Lemma digitsRegex_test (s : jsstring) :
  RegExp_test digitsRegex s = negb (Nat.eqb (length s) 0) && digit_only s.
Proof.
  unfold digitsRegex, digit_only.
  destruct (RegExp_test (RPlus (RClass isDigit)) s) eqn:E.
  - apply RegExp_test_lang, lang_plus_class in E as [Hne H].
    rewrite H. destruct s; [congruence | reflexivity].
  - destruct s as [|c s]; [reflexivity|].
    destruct (forallb isDigit (c :: s)) eqn:F; [|reflexivity].
    assert (RegExp_test (RPlus (RClass isDigit)) (c :: s) = true) as H.
    { apply RegExp_test_lang, lang_plus_class. split; [discriminate | exact F]. }
    congruence.
Qed.

(** The words of the email pattern: a local part, an at sign, and a
    domain with a dot inside, none of them with white space or a second at
    sign. *)
Lemma emailRegex_lang (s : jsstring) :
  lang emailRegex s <->
  exists a b c,
    s = a ++ [64%N] ++ b ++ [46%N] ++ c /\
    a <> [] /\ b <> [] /\ c <> [] /\
    forallb notSpaceAt a = true /\ forallb notSpaceAt b = true /\
    forallb notSpaceAt c = true.
Proof.
  unfold emailRegex, RChar. split.
  - intros H.
    apply lang_cat_inv in H as (a & s1 & -> & Ha & H).
    apply lang_cat_inv in H as (x & s2 & -> & Hx & H).
    apply lang_cat_inv in H as (b & s3 & -> & Hb & H).
    apply lang_cat_inv in H as (y & c & -> & Hy & Hc).
    apply lang_class_inv in Hx as (x' & -> & Ex). apply N.eqb_eq in Ex. subst x'.
    apply lang_class_inv in Hy as (y' & -> & Ey). apply N.eqb_eq in Ey. subst y'.
    apply lang_plus_class in Ha as [? ?], Hb as [? ?], Hc as [? ?].
    exists a, b, c. auto 10.
  - intros (a & b & c & -> & Ha & Hb & Hc & Fa & Fb & Fc).
    apply lang_cat; [apply lang_plus_class; auto|].
    apply lang_cat; [constructor; reflexivity|].
    apply lang_cat; [apply lang_plus_class; auto|].
    apply lang_cat; [constructor; reflexivity|].
    apply lang_plus_class; auto.
Qed.

(* ================================================================== *)
(** ** The validator runs the nine rules in order *)
(* ================================================================== *)

Section WorkerFacts.

Context {runtime : JSRuntime}.

Lemma validateInput_run_rules (data : json) :
  validateInput data = run_rules rule_order data.
Proof.
  unfold validateInput, rule_order, run_rules, rule_fails, required_field_fails,
    mobile_text_fails, orC, andC.
  destruct (negb (ToBoolean (Some data))
            || negb (jsstring_eqb (typeof (Some data)) (lit "object"))) eqn:E0;
    cbn [bind]; [reflexivity|].
  destruct (Get data "name") as [name|]; cbn [bind]; [|reflexivity].
  destruct (negb (ToBoolean name)); cbn [bind]; [reflexivity|].
  destruct (negb (jsstring_eqb (typeof name) (lit "string"))); cbn [bind]; [reflexivity|].
  destruct (String_prototype_trim name) as [tn|]; cbn [bind]; [|reflexivity].
  destruct (Nat.eqb (length tn) 0); [reflexivity|].
  destruct (Get data "email") as [email|]; cbn [bind]; [|reflexivity].
  destruct (negb (ToBoolean email)); cbn [bind]; [reflexivity|].
  destruct (negb (jsstring_eqb (typeof email) (lit "string"))); cbn [bind]; [reflexivity|].
  destruct (String_prototype_trim email) as [te|]; cbn [bind]; [|reflexivity].
  destruct (Nat.eqb (length te) 0); [reflexivity|].
  destruct (Get data "message") as [msg|]; cbn [bind]; [|reflexivity].
  destruct (negb (ToBoolean msg)); cbn [bind]; [reflexivity|].
  destruct (negb (jsstring_eqb (typeof msg) (lit "string"))); cbn [bind]; [reflexivity|].
  destruct (String_prototype_trim msg) as [tm|]; cbn [bind]; [|reflexivity].
  destruct (Nat.eqb (length tm) 0); [reflexivity|].
  destruct (negb (RegExp_test emailRegex te)); [reflexivity|].
  destruct (Get data "mobile") as [mobile|]; cbn [bind]; [|reflexivity].
  destruct (negb (is_undefined mobile) && negb (is_null mobile)
            && negb (strict_equal_string mobile [])).
  - destruct (ToString mobile) as [s|]; cbn [bind]; [|reflexivity].
    destruct (negb (RegExp_test digitsRegex (trim s))
              || Nat.ltb (length (trim s)) 7 || Nat.ltb 15 (length (trim s)));
      [reflexivity|].
    destruct (Nat.ltb 100 (length tn)); [reflexivity|].
    destruct (Get data "subject") as [subject|]; cbn [bind]; [|reflexivity].
    destruct (ToBoolean subject); cbn [bind].
    + destruct (length_greater_than subject 200) as [[]|]; reflexivity.
    + reflexivity.
  - cbn [bind].
    destruct (Nat.ltb 100 (length tn)); [reflexivity|].
    destruct (Get data "subject") as [subject|]; cbn [bind]; [|reflexivity].
    destruct (ToBoolean subject); cbn [bind].
    + destruct (length_greater_than subject 200) as [[]|]; reflexivity.
    + reflexivity.
Qed.

Lemma Rule_eqb_eq (a b : Rule) : Rule_eqb a b = true <-> a = b.
Proof. destruct a, b; simpl; split; congruence. Qed.

Lemma run_rules_first_failing (order : list Rule) (r : Rule) (data : json) :
  In r order ->
  passes (rules_before_in order r) data ->
  rule_fails r data = Normal true ->
  run_rules order data = Normal (invalid (rule_message r)).
Proof.
  induction order as [|r' rest IH]; intros Hin Hpass Hfail.
  - destruct Hin.
  - cbn [run_rules rules_before_in] in *.
    destruct (Rule_eqb r r') eqn:E.
    + apply Rule_eqb_eq in E. subst r'. rewrite Hfail. reflexivity.
    + inversion Hpass as [|? ? Hr' Hrest]; subst.
      rewrite Hr'. cbn [bind]. apply IH; try assumption.
      destruct Hin as [->|Hin]; [|exact Hin].
      assert (Rule_eqb r r = true) by (apply Rule_eqb_eq; reflexivity).
      congruence.
Qed.

Lemma run_rules_all_pass (order : list Rule) (data : json) :
  passes order data -> run_rules order data = Normal valid.
Proof.
  induction 1 as [|r rest Hr _ IH]; cbn [run_rules].
  - reflexivity.
  - rewrite Hr. exact IH.
Qed.

(** Whatever the validator answers, it is the answer of the first
    failing rule, or every rule passes. *)
Lemma run_rules_inv (order : list Rule) (data : json) (v : ValidationResult) :
  run_rules order data = Normal v ->
  (v = valid /\ passes order data) \/
  (exists r, In r order /\ passes (rules_before_in order r) data /\
             rule_fails r data = Normal true /\ v = invalid (rule_message r)).
Proof.
  induction order as [|r' rest IH]; cbn [run_rules]; intros H.
  - left. split; [congruence | constructor].
  - destruct (rule_fails r' data) as [[|]|] eqn:E; cbn [bind] in H;
      [| |discriminate].
    + right. exists r'. cbn [rules_before_in].
      assert (Rule_eqb r' r' = true) as -> by (apply Rule_eqb_eq; reflexivity).
      split; [left; reflexivity|].
      split; [constructor|]. split; [exact E | congruence].
    + destruct (IH H) as [[-> Hp]|(r & Hin & Hp & Hf & ->)].
      * left. split; [reflexivity | constructor; assumption].
      * right. exists r. cbn [rules_before_in].
        destruct (Rule_eqb r r') eqn:Er.
        -- apply Rule_eqb_eq in Er. subst r'. congruence.
        -- split; [right; exact Hin|].
           split; [constructor; assumption|]. split; [exact Hf | reflexivity].
Qed.

Lemma validateInput_first_failing (r : Rule) (data : json) :
  first_failing r data ->
  validateInput data = Normal (invalid (rule_message r)).
Proof.
  intros [Hpass Hfail]. rewrite validateInput_run_rules.
  apply run_rules_first_failing; try assumption.
  destruct r; simpl; auto 10.
Qed.

Lemma validateInput_all_pass (data : json) :
  passes rule_order data -> validateInput data = Normal valid.
Proof.
  intros H. rewrite validateInput_run_rules. apply run_rules_all_pass, H.
Qed.

Lemma validateInput_valid_passes (data : json) :
  validateInput data = Normal valid -> passes rule_order data.
Proof.
  rewrite validateInput_run_rules. intros H.
  apply run_rules_inv in H as [[_ Hp]|(r & _ & _ & _ & E)]; [exact Hp|].
  discriminate.
Qed.

(** The test of a required field fails exactly on a value that is
    missing, empty, whitespace-only, or not a string. *)
Lemma required_field_fails_blank (v : value) :
  required_field_fails v = Normal (blank v).
Proof.
  destruct v as [[| | |s| |]|]; try reflexivity.
  - destruct b; reflexivity.
  - destruct x; reflexivity.
  - unfold required_field_fails, orC. cbn [ToBoolean typeof bind].
    destruct s as [|c s]; [reflexivity|].
    cbn -[trim forallb]. rewrite trim_length_zero. reflexivity.
Qed.

(* ================================================================== *)
(** ** The handler *)
(* ================================================================== *)

Lemma message_or_default_rule (r : Rule) :
  message_or_default (message (invalid (rule_message r))) = lit (rule_message r).
Proof. destruct r; reflexivity. Qed.

Lemma handleRequest_post (request : Request) (env : Env) (net : Network)
  (data : json) :
  post_contact request data ->
  handleRequest request env net [] =
  try_catch
    (validation <~ lift (validateInput data);;
     if negb (isValid validation)
     then ret (createErrorResponse (message_or_default (message validation)) 400)
     else
       emailResult <~ sendEmail data env;;
       if negb (success emailResult)
       then ret failure_response
       else ret success_response)
    (fun _ => ret failure_response) net [].
Proof.
  intros (Hm & Hp & Hb). unfold handleRequest. rewrite Hm, Hp.
  change (jsstring_eqb (lit "POST") (lit "OPTIONS")) with false.
  rewrite !jsstring_eqb_refl. cbn [negb].
  unfold try_catch, bindA, lift. rewrite Hb. reflexivity.
Qed.

(** A body that a rule rejects is answered with that rule's 400, and
    nothing is sent. *)
Lemma handleRequest_invalid (request : Request) (env : Env) (net : Network)
  (data : json) (r : Rule) :
  post_contact request data ->
  validateInput data = Normal (invalid (rule_message r)) ->
  handleRequest request env net [] = (Normal (rule_response r), []).
Proof.
  intros Hpost Hv. rewrite (handleRequest_post env net Hpost).
  unfold try_catch, bindA, lift. rewrite Hv.
  cbn [isValid invalid negb ret].
  rewrite message_or_default_rule. reflexivity.
Qed.

(** What [sendEmail] can do: report failure without calling out, or
    issue exactly one call and report whether it answered 2xx. *)
Lemma sendEmail_outcome (contactData : json) (env : Env) (net : Network)
  (log : Log) :
  sendEmail contactData env net log = (Normal {| success := false |}, log) \/
  exists init,
    sendEmail contactData env net log =
    (Normal {| success := call_ok (net init) |}, log ++ [(init, net init)]).
Proof.
  unfold sendEmail, try_catch, bindA, lift, ret, fetch.
  destruct (negb (truthy_binding (MAILTRAP_API_TOKEN env))
            || negb (truthy_binding (FROM_EMAIL env))
            || negb (truthy_binding (TO_EMAIL env))); [left; reflexivity|].
  repeat match goal with
         | |- context [match ?c with Normal _ => _ | Throw _ => _ end] =>
             match c with
             | context [net] => fail 1
             | _ => destruct c; [|left; reflexivity]
             end
         end.
  right.
  match goal with
  | |- context [net ?i] => exists i; destruct (net i) as [st text|] eqn:E
  end.
  - unfold ok, call_ok, is_2xx. cbn [response_status response_text].
    destruct ((200 <=? st) && (st <=? 299)); [reflexivity|].
    destruct text; reflexivity.
  - reflexivity.
Qed.

(** A body that passes validation is answered according to what
    [sendEmail] reports. *)
Lemma handleRequest_valid (request : Request) (env : Env) (net : Network)
  (data : json) :
  post_contact request data ->
  validateInput data = Normal valid ->
  handleRequest request env net [] =
  (Normal (if match fst (sendEmail data env net []) with
              | Normal r => success r
              | Throw _ => false
              end
           then success_response else failure_response),
   snd (sendEmail data env net [])).
Proof.
  intros Hpost Hv. rewrite (handleRequest_post env net Hpost).
  unfold try_catch at 1. unfold bindA, lift. rewrite Hv.
  cbn [isValid valid negb].
  destruct (sendEmail_outcome data env net []) as [E|(init & E)]; rewrite E.
  - reflexivity.
  - cbn [fst snd success]. destruct (call_ok (net init)); reflexivity.
Qed.

Lemma rule_response_text (r : Rule) :
  rule_response r = json_response 400 (error_envelope (rule_message r)).
Proof. destruct r; reflexivity. Qed.

Lemma failure_response_text :
  failure_response =
  json_response 500
    "{`status`:`error`,`message`:`Unable to send your inquiry. Please try again later.`}".
Proof. reflexivity. Qed.

Lemma success_response_text :
  success_response =
  json_response 200
    "{`status`:`success`,`message`:`Your inquiry has been sent.`}".
Proof. reflexivity. Qed.

Lemma responds_invalid (request : Request) (env : Env) (net : Network)
  (data : json) (r : Rule) :
  post_contact request data ->
  first_failing r data ->
  responds request env net
    (json_response 400 (error_envelope (rule_message r))).
Proof.
  intros Hpost Hff. unfold responds.
  rewrite (@handleRequest_invalid request env net data r Hpost
             (validateInput_first_failing Hff)).
  cbn [fst]. rewrite rule_response_text. reflexivity.
Qed.

Lemma body_object_Get (data : json) (key : string) :
  rule_fails BodyIsObject data = Normal false ->
  Get data key = Normal (field data key).
Proof. destruct data; try discriminate; reflexivity. Qed.

Lemma required_rule_fails (data : json) (key : string) :
  rule_fails BodyIsObject data = Normal false ->
  (v <- Get data key;; required_field_fails v) = Normal (blank (field data key)).
Proof.
  intros H. rewrite (body_object_Get key H). cbn [bind].
  apply required_field_fails_blank.
Qed.

(** C1. For every POST /contact request whose body parses to a JSON
    value: the validator runs the nine rules in the order body-is-object,
    name-present, email-present, message-present, email-format,
    mobile-format, name-length, subject-length, message-length, and
    whichever rule is the first to fail, the response is 400 with that
    rule's message; in particular,
    on a body that is an object, a name that is missing, empty,
    whitespace-only or not a string gives 400 "Name is required", otherwise
    such an email gives 400 "Email is required", otherwise such a message
    gives 400 "Message is required". *)
Theorem first_failing_rule_wins (request : Request) (env : Env)
  (net : Network) (data : json) :
  post_contact request data ->
  validateInput data =
    run_rules
      [ BodyIsObject; NamePresent; EmailPresent; MessagePresent; EmailFormat;
        MobileFormat; NameLength; SubjectLength; MessageLength ] data /\
  (forall r, first_failing r data ->
     responds request env net
       (json_response 400 (error_envelope (rule_message r)))) /\
  (rule_fails BodyIsObject data = Normal false ->
   (blank (field data "name") = true ->
    responds request env net
      (json_response 400 "{`status`:`error`,`message`:`Name is required`}")) /\
   (blank (field data "name") = false ->
    blank (field data "email") = true ->
    responds request env net
      (json_response 400 "{`status`:`error`,`message`:`Email is required`}")) /\
   (blank (field data "name") = false ->
    blank (field data "email") = false ->
    blank (field data "message") = true ->
    responds request env net
      (json_response 400 "{`status`:`error`,`message`:`Message is required`}"))).
Proof.
  intros Hpost. split; [apply validateInput_run_rules|]. split.
  - intros r Hff. exact (responds_invalid env net Hpost Hff).
  - intros Hobj.
    pose proof (required_rule_fails "name" Hobj) as Hn.
    pose proof (required_rule_fails "email" Hobj) as He.
    pose proof (required_rule_fails "message" Hobj) as Hm.
    repeat split.
    + intros Bn.
      apply (responds_invalid env net (r := NamePresent) Hpost).
      split; [|cbn [rule_fails]; rewrite Hn, Bn; reflexivity].
      repeat constructor. exact Hobj.
    + intros Bn Be.
      apply (responds_invalid env net (r := EmailPresent) Hpost).
      split; [|cbn [rule_fails]; rewrite He, Be; reflexivity].
      repeat constructor; [exact Hobj|].
      cbn [rule_fails]. rewrite Hn, Bn. reflexivity.
    + intros Bn Be Bm.
      apply (responds_invalid env net (r := MessagePresent) Hpost).
      split; [|cbn [rule_fails]; rewrite Hm, Bm; reflexivity].
      repeat constructor; [exact Hobj| |].
      * cbn [rule_fails]. rewrite Hn, Bn. reflexivity.
      * cbn [rule_fails]. rewrite He, Be. reflexivity.
Qed.

(** Whatever the handler sends, it sends once. *)
Lemma outbound_calls_valid (request : Request) (env : Env) (net : Network)
  (data : json) :
  post_contact request data ->
  validateInput data = Normal valid ->
  (outbound_calls request env net = [] /\
   responds request env net failure_response) \/
  exists init,
    outbound_calls request env net = [(init, net init)] /\
    responds request env net
      (if call_ok (net init) then success_response else failure_response).
Proof.
  intros Hpost Hv. unfold outbound_calls, responds.
  rewrite (handleRequest_valid env net Hpost Hv).
  destruct (sendEmail_outcome data env net []) as [E|(init & E)]; rewrite E.
  - left. split; reflexivity.
  - right. exists init. split; reflexivity.
Qed.

(** C2. For every POST /contact request with a valid body: if the
    outbound email call returns a 2xx status the response is 200 with the
    success envelope, and if the outbound call returns a status outside
    2xx, or throws, the response is 500 with the generic failure
    envelope. *)
Theorem valid_submission_follows_upstream (request : Request) (env : Env)
  (net : Network) (data : json) (init : FetchInit) (outcome : FetchOutcome) :
  post_contact request data ->
  validateInput data = Normal valid ->
  In (init, outcome) (outbound_calls request env net) ->
  (forall st text, outcome = Responded st text -> 200 <= st <= 299 ->
     responds request env net
       (json_response 200
          "{`status`:`success`,`message`:`Your inquiry has been sent.`}")) /\
  (forall st text, outcome = Responded st text -> ~ 200 <= st <= 299 ->
     responds request env net
       (json_response 500
          "{`status`:`error`,`message`:`Unable to send your inquiry. Please try again later.`}")) /\
  (outcome = Rejected ->
     responds request env net
       (json_response 500
          "{`status`:`error`,`message`:`Unable to send your inquiry. Please try again later.`}")).
Proof.
  intros Hpost Hv Hin.
  destruct (outbound_calls_valid env net Hpost Hv) as [[E _]|(i & E & R)];
    rewrite E in Hin; [destruct Hin|].
  destruct Hin as [Heq|[]]. injection Heq as -> Hout.
  rewrite Hout in R. rewrite <- success_response_text, <- failure_response_text.
  repeat split.
  - intros st text -> Hst. unfold call_ok, is_2xx in R.
    replace ((200 <=? st) && (st <=? 299)) with true in R; [exact R|].
    symmetry. apply andb_true_iff. split; apply Z.leb_le; lia.
  - intros st text -> Hst. unfold call_ok, is_2xx in R.
    replace ((200 <=? st) && (st <=? 299)) with false in R; [exact R|].
    symmetry. apply andb_false_iff.
    destruct (Z.leb_spec 200 st); [|left; reflexivity].
    destruct (Z.leb_spec st 299); [|right; reflexivity]. lia.
  - intros ->. exact R.
Qed.

(** C3, as the code has it. For every POST /contact request whose body
    is not parseable as JSON, the response is 500 with the generic failure
    envelope, and nothing is sent. *)
Theorem unparseable_body_is_a_failure (request : Request) (env : Env)
  (net : Network) (e : Error) :
  method request = lit "POST" ->
  pathname request = lit "/contact" ->
  json_body request = Throw e ->
  responds request env net
    (json_response 500
       "{`status`:`error`,`message`:`Unable to send your inquiry. Please try again later.`}") /\
  outbound_calls request env net = [].
Proof.
  intros Hm Hp Hb. unfold responds, outbound_calls, handleRequest.
  rewrite Hm, Hp.
  change (jsstring_eqb (lit "POST") (lit "OPTIONS")) with false.
  rewrite !jsstring_eqb_refl. cbn [negb].
  unfold try_catch, bindA, lift. rewrite Hb. split; reflexivity.
Qed.

(** C8. An OPTIONS request to any path yields 200 with the CORS headers
    and an empty body; a request whose method is neither POST nor OPTIONS
    yields the 405 envelope; a POST to any path other than /contact yields
    the 404 envelope. *)
Theorem routing (request : Request) (env : Env) (net : Network) :
  (method request = lit "OPTIONS" ->
   responds request env net
     {| status := 200;
        headers :=
          [ (lit "Access-Control-Allow-Origin", lit "*");
            (lit "Access-Control-Allow-Methods", lit "POST, OPTIONS");
            (lit "Access-Control-Allow-Headers", lit "Content-Type");
            (lit "Access-Control-Max-Age", lit "86400") ];
        body := None |}) /\
  (method request <> lit "POST" -> method request <> lit "OPTIONS" ->
   responds request env net
     (json_response 405 "{`status`:`error`,`message`:`Method not allowed`}")) /\
  (method request = lit "POST" -> pathname request <> lit "/contact" ->
   responds request env net
     (json_response 404 "{`status`:`error`,`message`:`Endpoint not found`}")).
Proof.
  unfold responds, handleRequest. repeat split.
  - intros ->. reflexivity.
  - intros Hpost Hopt.
    destruct (jsstring_eqb (method request) (lit "OPTIONS")) eqn:E1.
    { apply jsstring_eqb_eq in E1. contradiction. }
    destruct (jsstring_eqb (method request) (lit "POST")) eqn:E2.
    { apply jsstring_eqb_eq in E2. contradiction. }
    reflexivity.
  - intros -> Hpath.
    change (jsstring_eqb (lit "POST") (lit "OPTIONS")) with false.
    rewrite jsstring_eqb_refl. cbn [negb].
    destruct (jsstring_eqb (pathname request) (lit "/contact")) eqn:E.
    { apply jsstring_eqb_eq in E. contradiction. }
    reflexivity.
Qed.

(** Every path of the handler ends in one of its three kinds of
    response. *)
Lemma handleRequest_response (request : Request) (env : Env) (net : Network) :
  exists resp,
    responds request env net resp /\
    ((method request = lit "OPTIONS" /\ resp = handleCORS) \/
     (method request <> lit "OPTIONS" /\
      ((exists msg st, resp = createErrorResponse msg st) \/
       resp = success_response))).
Proof.
  unfold responds, handleRequest.
  destruct (jsstring_eqb (method request) (lit "OPTIONS")) eqn:E1.
  { apply jsstring_eqb_eq in E1. eexists. split; [reflexivity|]. left. auto. }
  assert (method request <> lit "OPTIONS") as Hne.
  { intros H. apply jsstring_eqb_eq in H. congruence. }
  destruct (negb (jsstring_eqb (method request) (lit "POST"))).
  { eexists. split; [reflexivity|]. right. split; [exact Hne|]. left. eauto. }
  destruct (negb (jsstring_eqb (pathname request) (lit "/contact"))).
  { eexists. split; [reflexivity|]. right. split; [exact Hne|]. left. eauto. }
  unfold try_catch, bindA, lift.
  destruct (json_body request) as [data|];
    [|eexists; split; [reflexivity|]; right; split; [exact Hne|]; left; eauto].
  destruct (validateInput data) as [v|];
    [|eexists; split; [reflexivity|]; right; split; [exact Hne|]; left; eauto].
  destruct (negb (isValid v));
    [eexists; split; [reflexivity|]; right; split; [exact Hne|]; left; eauto|].
  destruct (sendEmail_outcome data env net []) as [E|(init & E)]; rewrite E.
  - eexists. split; [reflexivity|]. right. split; [exact Hne|]. left. eauto.
  - cbn [success]. destruct (call_ok (net init)); cbn [negb].
    + eexists. split; [reflexivity|]. right. split; [exact Hne|]. right. reflexivity.
    + eexists. split; [reflexivity|]. right. split; [exact Hne|]. left. eauto.
Qed.

(** C9. Every response the handler returns, on every path, carries the
    four CORS headers Access-Control-Allow-Origin: *,
    Access-Control-Allow-Methods: POST, OPTIONS,
    Access-Control-Allow-Headers: Content-Type and
    Access-Control-Max-Age: 86400; and every response except the
    empty-body OPTIONS response also carries
    Content-Type: application/json. *)
Theorem cors_on_every_response (request : Request) (env : Env)
  (net : Network) :
  exists resp,
    responds request env net resp /\
    In (lit "Access-Control-Allow-Origin", lit "*") (headers resp) /\
    In (lit "Access-Control-Allow-Methods", lit "POST, OPTIONS") (headers resp) /\
    In (lit "Access-Control-Allow-Headers", lit "Content-Type") (headers resp) /\
    In (lit "Access-Control-Max-Age", lit "86400") (headers resp) /\
    ((method request = lit "OPTIONS" /\ body resp = None) \/
     (method request <> lit "OPTIONS" /\
      In (lit "Content-Type", lit "application/json") (headers resp))).
Proof.
  destruct (handleRequest_response request env net)
    as (resp & R & [[Hm ->]|[Hm [(msg & st & ->)| ->]]]);
    (eexists; split; [exact R|]);
    cbn [headers body handleCORS createErrorResponse success_response
         getCORSHeaders In];
    repeat split; auto 10.
Qed.

(* ================================================================== *)
(** ** The format and length rules *)
(* ================================================================== *)

Lemma field_Get (data : json) (key : string) (v : json) :
  field data key = Some v -> Get data key = Normal (Some v).
Proof.
  unfold field. destruct data; simpl; try discriminate.
  intros ->. reflexivity.
Qed.

Lemma field_body_object (data : json) (key : string) (v : json) :
  field data key = Some v -> rule_fails BodyIsObject data = Normal false.
Proof. unfold field. destruct data; simpl; try discriminate. reflexivity. Qed.

Lemma required_passes (data : json) (key : string) (s : jsstring) :
  field data key = Some (JStr s) -> trim s <> [] ->
  (v <- Get data key;; required_field_fails v) = Normal false.
Proof.
  intros Hf Ht. rewrite (@required_rule_fails _ key (@field_body_object _ _ _ Hf)).
  rewrite Hf. cbn [blank].
  destruct (forallb isWhiteSpace s) eqn:E; [|reflexivity].
  apply trim_nil_iff in E. contradiction.
Qed.

Lemma passes_app (rules1 rules2 : list Rule) (data : json) :
  passes rules1 data -> passes rules2 data -> passes (rules1 ++ rules2) data.
Proof. intros H1 H2. apply Forall_app. split; assumption. Qed.

Lemma passes_one (r : Rule) (data : json) :
  rule_fails r data = Normal false -> passes [r] data.
Proof. intros H. repeat constructor. exact H. Qed.

(** C6, as the code has it. For every body whose name, email and
    message are strings that are not empty after trimming, if the trimmed
    email is not a word of the pattern [^[^\s@]+@[^\s@]+\.[^\s@]+$] then
    the response is 400 with the message about the email address. *)
Theorem invalid_email_format (request : Request) (env : Env) (net : Network)
  (data : json) (n e m : jsstring) :
  post_contact request data ->
  field data "name" = Some (JStr n) ->
  field data "email" = Some (JStr e) ->
  field data "message" = Some (JStr m) ->
  trim n <> [] -> trim e <> [] -> trim m <> [] ->
  ~ lang emailRegex (trim e) ->
  responds request env net
    (json_response 400
       "{`status`:`error`,`message`:`Please provide a valid email address`}").
Proof.
  intros Hpost Fn Fe Fm Tn Te Tm Hno.
  apply (responds_invalid env net (r := EmailFormat) Hpost). split.
  - repeat constructor.
    + exact (@field_body_object _ _ _ Fn).
    + exact (@required_passes _ _ _ Fn Tn).
    + exact (@required_passes _ _ _ Fe Te).
    + exact (@required_passes _ _ _ Fm Tm).
  - cbn [rule_fails]. rewrite (@field_Get _ _ _ Fe). cbn [bind String_prototype_trim].
    destruct (RegExp_test emailRegex (trim e)) eqn:E; [|reflexivity].
    apply RegExp_test_lang in E. contradiction.
Qed.

Lemma digit_not_space (c : N) : isDigit c = true -> isWhiteSpace c = false.
Proof.
  unfold isDigit, isWhiteSpace. intros H.
  apply andb_true_iff in H as [H1 H2]. apply N.leb_le in H1, H2.
  repeat (apply orb_false_iff; split);
    try (apply N.eqb_neq; lia).
  apply andb_false_iff. left. apply N.leb_gt. lia.
Qed.

(** Trimming leaves a string of digits as it is. *)
Lemma trim_digits (s : jsstring) : digit_only s = true -> trim s = s.
Proof.
  unfold digit_only. intros H. apply trim_id.
  - destruct s as [|c t]; [exact I|]. simpl in H.
    apply andb_true_iff in H as [Hc _]. exact (@digit_not_space _ Hc).
  - rewrite <- forallb_rev in H. destruct (rev s) as [|c t]; [exact I|].
    simpl in H. apply andb_true_iff in H as [Hc _]. exact (@digit_not_space _ Hc).
Qed.

Lemma mobile_text_fails_spec (t : jsstring) :
  mobile_text_fails t =
  negb (digit_only t) || Nat.ltb (length t) 7 || Nat.ltb 15 (length t).
Proof.
  unfold mobile_text_fails. rewrite digitsRegex_test.
  destruct t as [|c t]; [reflexivity|]. reflexivity.
Qed.

Lemma mobile_provided (data : json) (v : json) :
  field data "mobile" = Some v -> v <> JNull -> v <> JStr [] ->
  rule_fails MobileFormat data =
  (s <- ToString_json v;; Normal (mobile_text_fails (trim s))).
Proof.
  intros Hf Hnull Hempty. cbn [rule_fails]. rewrite (@field_Get _ _ _ Hf).
  cbn [bind]. destruct v as [| | |s| |]; try reflexivity; [congruence|].
  destruct s; [congruence | reflexivity].
Qed.

(** C7, as the code has it. For every body that passes the
    required-field and email-format rules and whose mobile is present, not
    null and not the empty string: when the trimmed text of [String(mobile)]
    is not made of digits only, or is shorter than 7 or longer than 15, the
    response is 400 with the message about the mobile number; when it is a
    string of 7 to 15 digits the mobile check passes, as it does for a
    mobile that is itself a string of 7 to 15 digits; and an absent, null or
    empty-string mobile skips the check. *)
Theorem mobile_rule (request : Request) (env : Env) (net : Network)
  (data : json) :
  post_contact request data ->
  passes (rules_before MobileFormat) data ->
  (forall v s,
     field data "mobile" = Some v -> v <> JNull -> v <> JStr [] ->
     ToString_json v = Normal s ->
     ((digit_only (trim s) = false \/ (length (trim s) < 7)%nat \/
       (15 < length (trim s))%nat) ->
      responds request env net
        (json_response 400
           "{`status`:`error`,`message`:`Mobile number must be valid`}")) /\
     (digit_only (trim s) = true ->
      (7 <= length (trim s) <= 15)%nat ->
      rule_fails MobileFormat data = Normal false)) /\
  (forall d,
     field data "mobile" = Some (JStr d) -> digit_only d = true ->
     (7 <= length d <= 15)%nat ->
     rule_fails MobileFormat data = Normal false) /\
  (field data "mobile" = None \/ field data "mobile" = Some JNull \/
   field data "mobile" = Some (JStr []) ->
   rule_fails MobileFormat data = Normal false).
Proof.
  intros Hpost Hpass.
  assert (Hgen : forall v s,
     field data "mobile" = Some v -> v <> JNull -> v <> JStr [] ->
     ToString_json v = Normal s ->
     rule_fails MobileFormat data =
     Normal (negb (digit_only (trim s)) || Nat.ltb (length (trim s)) 7
             || Nat.ltb 15 (length (trim s)))).
  { intros v s Hf Hn He Hs. rewrite (@mobile_provided _ _ Hf Hn He), Hs.
    cbn [bind]. rewrite mobile_text_fails_spec. reflexivity. }
  split; [|split].
  - intros v s Hf Hn He Hs. specialize (Hgen v s Hf Hn He Hs). split.
    + intros Hbad.
      apply (responds_invalid env net (r := MobileFormat) Hpost).
      split; [exact Hpass|]. rewrite Hgen. f_equal.
      destruct Hbad as [Hd|[Hl|Hl]].
      * rewrite Hd. reflexivity.
      * apply Nat.ltb_lt in Hl. rewrite Hl. apply orb_true_iff. left.
        apply orb_true_r.
      * apply Nat.ltb_lt in Hl. rewrite Hl. apply orb_true_r.
    + intros Hd [Hl Hu]. rewrite Hgen, Hd. f_equal.
      apply orb_false_iff. split; [|apply Nat.ltb_ge; lia].
      apply orb_false_iff. split; [reflexivity | apply Nat.ltb_ge; lia].
  - intros d Hf Hd [Hl Hu].
    assert (d <> []) as Hne by (destruct d; [simpl in Hl; lia | discriminate]).
    rewrite (Hgen (JStr d) d Hf); [|discriminate|congruence|reflexivity].
    rewrite (@trim_digits _ Hd), Hd. f_equal.
    apply orb_false_iff. split; [|apply Nat.ltb_ge; lia].
    apply orb_false_iff. split; [reflexivity | apply Nat.ltb_ge; lia].
  - assert (Hobj : rule_fails BodyIsObject data = Normal false).
    { inversion Hpass; assumption. }
    intros H. cbn [rule_fails]. rewrite (body_object_Get "mobile" Hobj).
    destruct H as [->|[->| ->]]; reflexivity.
Qed.

Lemma rules_before_SubjectLength :
  rules_before SubjectLength = rules_before NameLength ++ [NameLength].
Proof. reflexivity. Qed.

Lemma rules_before_MessageLength :
  rules_before MessageLength =
  (rules_before NameLength ++ [NameLength]) ++ [SubjectLength].
Proof. reflexivity. Qed.

Lemma rule_order_split :
  rule_order =
  ((rules_before NameLength ++ [NameLength]) ++ [SubjectLength])
  ++ [MessageLength].
Proof. reflexivity. Qed.

Lemma trimmed_length_rule (data : json) (key : string) (s : jsstring)
  (limit : nat) :
  field data key = Some (JStr s) ->
  (v <- Get data key;; t <- String_prototype_trim v;;
   Normal (Nat.ltb limit (length t))) =
  Normal (Nat.ltb limit (length (trim s))).
Proof. intros Hf. rewrite (@field_Get _ _ _ Hf). reflexivity. Qed.

Lemma subject_string_rule (data : json) (sub : jsstring) :
  field data "subject" = Some (JStr sub) ->
  rule_fails SubjectLength data = Normal (Nat.ltb 200 (length sub)).
Proof.
  intros Hf. cbn [rule_fails]. rewrite (@field_Get _ _ _ Hf).
  unfold andC. cbn [bind ToBoolean length_greater_than].
  destruct sub as [|c sub]; [reflexivity|].
  cbn [length Nat.eqb negb]. f_equal.
  destruct (Nat.ltb_spec 200 (S (length sub)));
    [apply N.ltb_lt | apply N.ltb_ge]; lia.
Qed.

(** C5, as the code has it. For every body passing the rules before
    the length rules: a name whose trimmed length exceeds 100 gives 400
    with the name message; otherwise a subject string longer than 200 gives
    400 with the subject message; otherwise a message whose trimmed length
    exceeds 1000 gives 400 with the message about the message; and a body
    whose trimmed name has at most 100 characters, whose subject is absent
    or a string of at most 200, and whose trimmed message has at most 1000
    is accepted (100, 200 and 1000 themselves included). *)
Theorem length_limits (request : Request) (env : Env) (net : Network)
  (data : json) (n m : jsstring) :
  post_contact request data ->
  passes (rules_before NameLength) data ->
  field data "name" = Some (JStr n) ->
  field data "message" = Some (JStr m) ->
  ((100 < length (trim n))%nat ->
   responds request env net
     (json_response 400
        "{`status`:`error`,`message`:`Name must be less than 100 characters`}")) /\
  ((length (trim n) <= 100)%nat ->
   forall sub, field data "subject" = Some (JStr sub) ->
   (200 < length sub)%nat ->
   responds request env net
     (json_response 400
        "{`status`:`error`,`message`:`Subject must be less than 200 characters`}")) /\
  ((length (trim n) <= 100)%nat ->
   rule_fails SubjectLength data = Normal false ->
   (1000 < length (trim m))%nat ->
   responds request env net
     (json_response 400
        "{`status`:`error`,`message`:`Message must be less than 1000 characters`}")) /\
  ((length (trim n) <= 100)%nat ->
   (field data "subject" = None \/
    exists sub, field data "subject" = Some (JStr sub) /\
                (length sub <= 200)%nat) ->
   (length (trim m) <= 1000)%nat ->
   validateInput data = Normal valid).
Proof.
  intros Hpost Hpass Fn Fm.
  assert (Hname : rule_fails NameLength data =
                  Normal (Nat.ltb 100 (length (trim n)))).
  { exact (@trimmed_length_rule data "name" n 100%nat Fn). }
  assert (Hmsg : rule_fails MessageLength data =
                 Normal (Nat.ltb 1000 (length (trim m)))).
  { exact (@trimmed_length_rule data "message" m 1000%nat Fm). }
  assert (Hsub : field data "subject" = None \/
                 (exists sub, field data "subject" = Some (JStr sub) /\
                              (length sub <= 200)%nat) ->
                 rule_fails SubjectLength data = Normal false).
  { intros [Hnone|(sub & Hs & Hl)].
    - cbn [rule_fails].
      rewrite (body_object_Get "subject" (@field_body_object _ _ _ Fn)), Hnone.
      reflexivity.
    - rewrite (@subject_string_rule _ _ Hs). f_equal. apply Nat.ltb_ge. exact Hl. }
  split; [|split; [|split]].
  - intros Hl. apply (responds_invalid env net (r := NameLength) Hpost).
    split; [exact Hpass|]. rewrite Hname. f_equal. apply Nat.ltb_lt. exact Hl.
  - intros Hl sub Hs Hlong.
    apply (responds_invalid env net (r := SubjectLength) Hpost). split.
    + rewrite rules_before_SubjectLength.
      apply passes_app; [exact Hpass|]. apply passes_one.
      rewrite Hname. f_equal. apply Nat.ltb_ge. exact Hl.
    + rewrite (@subject_string_rule _ _ Hs). f_equal. apply Nat.ltb_lt. exact Hlong.
  - intros Hl Hs Hlong.
    apply (responds_invalid env net (r := MessageLength) Hpost). split.
    + rewrite rules_before_MessageLength.
      apply passes_app; [apply passes_app; [exact Hpass|]|]; apply passes_one.
      * rewrite Hname. f_equal. apply Nat.ltb_ge. exact Hl.
      * exact Hs.
    + rewrite Hmsg. f_equal. apply Nat.ltb_lt. exact Hlong.
  - intros Hl Hs Hm. apply validateInput_all_pass. rewrite rule_order_split.
    apply passes_app; [apply passes_app; [apply passes_app; [exact Hpass|]|]|];
      apply passes_one.
    + rewrite Hname. f_equal. apply Nat.ltb_ge. exact Hl.
    + exact (Hsub Hs).
    + rewrite Hmsg. f_equal. apply Nat.ltb_ge. exact Hm.
Qed.

(* ================================================================== *)
(** ** A mobile that is a number *)
(* ================================================================== *)

Lemma digit_units_digits (u : Decimal.uint) :
  forallb isDigit (digit_units u) = true.
Proof. induction u; simpl; auto. Qed.

Lemma forallb_repeat (p : N -> bool) (c : N) (k : nat) :
  p c = true -> forallb p (repeat c k) = true.
Proof. intros H. induction k; simpl; [reflexivity | rewrite H; assumption]. Qed.

(** An integer of [n] digits, [n] at most 21, prints as its [n]
    digits. *)
Lemma Number_toString_integer (x : number) (n : Z) :
  integer_of_digits x n -> n <= 21 ->
  digit_only (Number_toString x) = true /\
  Z.of_nat (length (Number_toString x)) = n.
Proof.
  intros (s & -> & Hk) Hn. unfold Number_toString, digit_only.
  set (ds := digits_of_pos s) in *.
  assert ((-5 <=? n) = true) as -> by (apply Z.leb_le; lia).
  assert ((n <=? 21) = true) as -> by (apply Z.leb_le; lia).
  assert ((Z.of_nat (length ds) <=? n) = true) as -> by (apply Z.leb_le; lia).
  cbn [andb app]. split.
  - rewrite forallb_app. apply andb_true_iff. split.
    + apply digit_units_digits.
    + apply forallb_repeat. reflexivity.
  - rewrite length_app, repeat_length. lia.
Qed.

(** What the validator answers on a body that passes the rules before
    the mobile rule. *)
Lemma validateInput_from_mobile (data : json) :
  passes (rules_before MobileFormat) data ->
  validateInput data =
  (c <- rule_fails MobileFormat data;;
   if c then Normal (invalid "Mobile number must be valid")
   else run_rules [NameLength; SubjectLength; MessageLength] data).
Proof.
  intros Hp. rewrite validateInput_run_rules. unfold rule_order.
  change (rules_before MobileFormat)
    with [BodyIsObject; NamePresent; EmailPresent; MessagePresent; EmailFormat]
    in Hp.
  unfold passes in Hp. rewrite Forall_forall in Hp.
  cbn [run_rules].
  rewrite (Hp BodyIsObject) by (simpl; auto 10). cbn [bind].
  rewrite (Hp NamePresent) by (simpl; auto 10). cbn [bind].
  rewrite (Hp EmailPresent) by (simpl; auto 10). cbn [bind].
  rewrite (Hp MessagePresent) by (simpl; auto 10). cbn [bind].
  rewrite (Hp EmailFormat) by (simpl; auto 10). cbn [bind].
  reflexivity.
Qed.

Lemma presence_rules_pass (data : json) (n e m : jsstring) :
  field data "name" = Some (JStr n) -> trim n <> [] ->
  field data "email" = Some (JStr e) ->
  RegExp_test emailRegex (trim e) = true ->
  field data "message" = Some (JStr m) -> trim m <> [] ->
  passes (rules_before MobileFormat) data.
Proof.
  intros Fn Tn Fe Re Fm Tm. repeat constructor.
  - exact (@field_body_object _ _ _ Fn).
  - exact (@required_passes _ _ _ Fn Tn).
  - apply (@required_passes _ _ _ Fe). intros T. rewrite T in Re.
    discriminate Re.
  - exact (@required_passes _ _ _ Fm Tm).
  - cbn [rule_fails]. rewrite (@field_Get _ _ _ Fe).
    cbn [bind String_prototype_trim]. rewrite Re. reflexivity.
Qed.

Lemma length_rules_pass (data : json) (n m : jsstring) :
  field data "name" = Some (JStr n) ->
  field data "message" = Some (JStr m) ->
  within_lengths data n m ->
  run_rules [NameLength; SubjectLength; MessageLength] data = Normal valid.
Proof.
  intros Fn Fm (Ln & Lm & Hsub). apply run_rules_all_pass.
  repeat constructor.
  - cbn [rule_fails]. rewrite (@trimmed_length_rule data "name" n 100%nat Fn).
    f_equal. apply Nat.ltb_ge. exact Ln.
  - destruct Hsub as [Hnone|(sub & Hs & Hl)].
    + cbn [rule_fails].
      rewrite (body_object_Get "subject" (@field_body_object _ _ _ Fn)), Hnone.
      reflexivity.
    + rewrite (@subject_string_rule _ _ Hs). f_equal. apply Nat.ltb_ge.
      exact Hl.
  - cbn [rule_fails].
    rewrite (@trimmed_length_rule data "message" m 1000%nat Fm).
    f_equal. apply Nat.ltb_ge. exact Lm.
Qed.

(** C10. For every body whose name, email and message pass the
    presence and email-format checks and whose mobile is present, not null
    and not the empty string, the validator decides the mobile on the
    trimmed text of [String(mobile)], whatever the type of the mobile: when
    that text is not made of 7 to 15 digits the validator answers "Mobile
    number must be valid"; when it is, the mobile is accepted and the body
    passes validation if the name, the subject and the message are within
    their lengths; and when [String(mobile)] throws, the validator throws.
    So a mobile that is a JSON number, an integer of 7 to 15 digits, passes
    validation, and an integer of fewer than 7 or of 16 to 21 digits is
    rejected. *)
Theorem mobile_is_coerced (data : json) (v : json) (n e m : jsstring) :
  field data "name" = Some (JStr n) -> trim n <> [] ->
  field data "email" = Some (JStr e) ->
  RegExp_test emailRegex (trim e) = true ->
  field data "message" = Some (JStr m) -> trim m <> [] ->
  field data "mobile" = Some v -> v <> JNull -> v <> JStr [] ->
  (forall s,
     ToString_json v = Normal s ->
     ((digit_only (trim s) = false \/ (length (trim s) < 7)%nat \/
       (15 < length (trim s))%nat) ->
      validateInput data = Normal (invalid "Mobile number must be valid")) /\
     (digit_only (trim s) = true -> (7 <= length (trim s) <= 15)%nat ->
      within_lengths data n m ->
      validateInput data = Normal valid)) /\
  (forall err,
     ToString_json v = Throw err -> validateInput data = Throw err) /\
  (forall x k,
     v = JNum x -> integer_of_digits x k -> k <= 21 ->
     (7 <= k <= 15 -> within_lengths data n m ->
      validateInput data = Normal valid) /\
     (k < 7 \/ 15 < k ->
      validateInput data = Normal (invalid "Mobile number must be valid"))).
Proof.
  intros Fn Tn Fe Re Fm Tm Fv Hnull Hempty.
  assert (Hp : passes (rules_before MobileFormat) data)
    by (eapply presence_rules_pass; eassumption).
  pose proof (@validateInput_from_mobile data Hp) as Hval.
  rewrite (@mobile_provided _ _ Fv Hnull Hempty) in Hval.
  assert (Htext : forall s,
     ToString_json v = Normal s ->
     ((digit_only (trim s) = false \/ (length (trim s) < 7)%nat \/
       (15 < length (trim s))%nat) ->
      validateInput data = Normal (invalid "Mobile number must be valid")) /\
     (digit_only (trim s) = true -> (7 <= length (trim s) <= 15)%nat ->
      within_lengths data n m ->
      validateInput data = Normal valid)).
  { intros s Es. rewrite Es in Hval. cbn [bind] in Hval.
    rewrite mobile_text_fails_spec in Hval. split.
    - intros Hbad. rewrite Hval.
      destruct Hbad as [Hd|[Hl|Hl]].
      + rewrite Hd. reflexivity.
      + apply Nat.ltb_lt in Hl. rewrite Hl, orb_true_r. reflexivity.
      + apply Nat.ltb_lt in Hl. rewrite Hl, orb_true_r. reflexivity.
    - intros Hd [Hl Hu] Hw. rewrite Hval, Hd.
      assert (Nat.ltb (length (trim s)) 7 = false) as ->
          by (apply Nat.ltb_ge; lia).
      assert (Nat.ltb 15 (length (trim s)) = false) as ->
          by (apply Nat.ltb_ge; lia).
      eapply length_rules_pass; eassumption. }
  split; [exact Htext|]. split.
  - intros err Ee. rewrite Hval, Ee. reflexivity.
  - intros x k -> Hx Hk.
    destruct (@Number_toString_integer x k Hx Hk) as [Hd Hlen].
    destruct (Htext (Number_toString x) eq_refl) as [Hbad Hok].
    rewrite (@trim_digits _ Hd) in Hbad, Hok. split.
    + intros Hr Hw. apply Hok; [exact Hd | lia | exact Hw].
    + intros Hr. apply Hbad. right. lia.
Qed.

(* ================================================================== *)
(** ** HTML escaping *)
(* ================================================================== *)

Lemma replaceAll_app (c : N) (r a b : jsstring) :
  replaceAll c r (a ++ b) = replaceAll c r a ++ replaceAll c r b.
Proof. unfold replaceAll. apply flat_map_app. Qed.

Lemma escapeHtml_text_app (a b : jsstring) :
  escapeHtml_text (a ++ b) = escapeHtml_text a ++ escapeHtml_text b.
Proof. unfold escapeHtml_text. rewrite !replaceAll_app. reflexivity. Qed.

Lemma replaceAll_other (c x : N) (r : jsstring) :
  N.eqb x c = false -> replaceAll c r [x] = [x].
Proof. intros H. unfold replaceAll. simpl. rewrite H. reflexivity. Qed.

(** The five passes together escape each character on its own: no
    pass touches what an earlier pass wrote. *)
Lemma escapeHtml_text_unit (c : N) : escapeHtml_text [c] = escape_unit c.
Proof.
  unfold escape_unit.
  destruct (N.eqb_spec c 38) as [->|H1]; [reflexivity|].
  destruct (N.eqb_spec c 60) as [->|H2]; [reflexivity|].
  destruct (N.eqb_spec c 62) as [->|H3]; [reflexivity|].
  destruct (N.eqb_spec c 34) as [->|H4]; [reflexivity|].
  destruct (N.eqb_spec c 39) as [->|H5]; [reflexivity|].
  unfold escapeHtml_text.
  rewrite !replaceAll_other; try reflexivity; apply N.eqb_neq; assumption.
Qed.

Lemma escapeHtml_text_cons (c : N) (s : jsstring) :
  escapeHtml_text (c :: s) = escape_unit c ++ escapeHtml_text s.
Proof.
  change (c :: s) with ([c] ++ s).
  rewrite escapeHtml_text_app, escapeHtml_text_unit. reflexivity.
Qed.

(** Escaped text holds the five characters only as the ampersand of an
    entity. *)
Lemma escapeHtml_text_escaped (s : jsstring) : escaped (escapeHtml_text s).
Proof.
  induction s as [|c s IH].
  - constructor.
  - rewrite escapeHtml_text_cons. unfold escape_unit.
    destruct (N.eqb_spec c 38); [apply escaped_entity; simpl; auto|].
    destruct (N.eqb_spec c 60); [apply escaped_entity; simpl; auto|].
    destruct (N.eqb_spec c 62); [apply escaped_entity; simpl; auto|].
    destruct (N.eqb_spec c 34); [apply escaped_entity; simpl; auto 6|].
    destruct (N.eqb_spec c 39); [apply escaped_entity; simpl; auto 6|].
    apply escaped_char; [|exact IH].
    unfold html_special.
    repeat (apply orb_false_iff; split); apply N.eqb_neq; assumption.
Qed.

(** No angle bracket and no quote is left in escaped text. *)
Lemma escaped_no_markup (s : jsstring) :
  escaped s ->
  forall c, In c s -> c <> 60%N /\ c <> 62%N /\ c <> 34%N /\ c <> 39%N.
Proof.
  induction 1 as [|c s Hc _ IH|e s He _ IH]; intros x Hin.
  - destruct Hin.
  - destruct Hin as [<-|Hin]; [|exact (IH x Hin)].
    unfold html_special in Hc.
    repeat (apply orb_false_iff in Hc as [Hc ?]).
    repeat split; apply N.eqb_neq; assumption.
  - apply in_app_or in Hin as [Hin|Hin]; [|exact (IH x Hin)].
    simpl in He.
    repeat (destruct He as [<-|He];
            [simpl in Hin;
             repeat (destruct Hin as [<-|Hin]; [repeat split; discriminate|]);
             destruct Hin|]).
    destruct He.
Qed.

Lemma escapeHtml_inv (v : value) (safe : jsstring) :
  escapeHtml v = Normal safe ->
  exists s, v = Some (JStr s) /\ safe = escapeHtml_text s.
Proof.
  destruct v as [[| | |s| |]|]; simpl; try discriminate.
  intros H. injection H as <-. eauto.
Qed.

Ltac nothing_sent H Hin := injection H as _ <-; destruct Hin.

(** X20. In the module worker, the HTML of every e-mail that is sent is the
    template around the escaped name, email, mobile, subject and message:
    the five fields are strings (mobile and subject may be absent or
    falsy), each is escaped before it is interpolated, and the only markup
    added to one of them is the [<br>] that replaces a line feed of the
    message. *)
Theorem sendEmail_html_escaped (contactData : json) (env : Env)
  (net : Network) (r : Completion SendResult) (log : Log)
  (init : FetchInit) (out : FetchOutcome) :
  sendEmail contactData env net [] = (r, log) ->
  In (init, out) log ->
  exists name email message safeMobile safeSubject,
    field contactData "name" = Some (JStr name) /\
    field contactData "email" = Some (JStr email) /\
    field contactData "message" = Some (JStr message) /\
    ((ToBoolean (field contactData "mobile") = false /\ safeMobile = []) \/
     (exists mobile, field contactData "mobile" = Some (JStr mobile) /\
                     safeMobile = escapeHtml_text mobile)) /\
    ((ToBoolean (field contactData "subject") = false /\
      safeSubject = lit "No subject provided") \/
     (exists subject, field contactData "subject" = Some (JStr subject) /\
                      safeSubject = escapeHtml_text subject)) /\
    escaped safeMobile /\ escaped safeSubject /\
    payload_html (fetch_body init) =
      htmlContent (escapeHtml_text name) (escapeHtml_text email)
        safeMobile safeSubject
        (replaceAll 10 (lit "<br>") (escapeHtml_text message)).
Proof.
  unfold sendEmail, try_catch, bindA, lift, ret, field.
  intros H Hin.
  destruct (negb (truthy_binding (MAILTRAP_API_TOKEN env))
            || negb (truthy_binding (FROM_EMAIL env))
            || negb (truthy_binding (TO_EMAIL env))).
  { nothing_sent H Hin. }
  destruct (Get contactData "subject") as [subjectField|] eqn:Gs;
    [|nothing_sent H Hin].
  destruct (ToString (or_else subjectField "New Inquiry")) as [subjectText|];
    [|nothing_sent H Hin].
  destruct (Get contactData "name") as [nameField|] eqn:Gn;
    [|nothing_sent H Hin].
  destruct (escapeHtml nameField) as [safeName|] eqn:En;
    [|nothing_sent H Hin].
  destruct (Get contactData "email") as [emailField|] eqn:Ge;
    [|nothing_sent H Hin].
  destruct (escapeHtml emailField) as [safeEmail|] eqn:Ee;
    [|nothing_sent H Hin].
  destruct (Get contactData "mobile") as [mobileField|] eqn:Gm;
    [|nothing_sent H Hin].
  destruct (if ToBoolean mobileField then escapeHtml mobileField else Normal [])
    as [safeMobile|] eqn:Em; [|nothing_sent H Hin].
  destruct (if ToBoolean subjectField then escapeHtml subjectField
            else Normal (lit "No subject provided"))
    as [safeSubject|] eqn:Es; [|nothing_sent H Hin].
  destruct (Get contactData "message") as [messageField|] eqn:Gmsg;
    [|nothing_sent H Hin].
  destruct (escapeHtml messageField) as [escapedMessage|] eqn:Emsg;
    [|nothing_sent H Hin].
  destruct (ToString nameField); [|nothing_sent H Hin].
  destruct (ToString emailField); [|nothing_sent H Hin].
  destruct (if ToBoolean mobileField
            then (m <- ToString mobileField;; Normal (nl ++ lit "Mobile: " ++ m))
            else Normal []); [|nothing_sent H Hin].
  destruct (ToString (or_else subjectField "No subject provided"));
    [|nothing_sent H Hin].
  destruct (ToString messageField); [|nothing_sent H Hin].
  apply escapeHtml_inv in En as (name & -> & ->).
  apply escapeHtml_inv in Ee as (email & -> & ->).
  apply escapeHtml_inv in Emsg as (message & -> & ->).
  assert (Hlog : exists i, log = [(i, net i)] /\
                 payload_html (fetch_body i) =
                 htmlContent (escapeHtml_text name) (escapeHtml_text email)
                   safeMobile safeSubject
                   (replaceAll 10 (lit "<br>") (escapeHtml_text message))).
  { unfold fetch in H.
    match type of H with
    | context [net ?i] => exists i; destruct (net i) as [st text|]
    end.
    - destruct (ok _); [|destruct (response_text _)];
        injection H as _ <-; split; reflexivity.
    - injection H as _ <-. split; reflexivity. }
  destruct Hlog as (i & -> & Hhtml).
  destruct Hin as [Heq|[]]. injection Heq as <- _.
  exists name, email, message, safeMobile, safeSubject.
  split; [reflexivity|]. split; [reflexivity|]. split; [reflexivity|].
  assert (Hmob : (ToBoolean mobileField = false /\ safeMobile = []) \/
                 (exists mobile, mobileField = Some (JStr mobile) /\
                                 safeMobile = escapeHtml_text mobile)).
  { destruct (ToBoolean mobileField).
    - right. exact (escapeHtml_inv _ Em).
    - left. injection Em as <-. auto. }
  assert (Hsub : (ToBoolean subjectField = false /\
                  safeSubject = lit "No subject provided") \/
                 (exists subject, subjectField = Some (JStr subject) /\
                                  safeSubject = escapeHtml_text subject)).
  { destruct (ToBoolean subjectField).
    - right. exact (escapeHtml_inv _ Es).
    - left. injection Es as <-. auto. }
  split; [exact Hmob|]. split; [exact Hsub|].
  split; [|split; [|exact Hhtml]].
  - destruct Hmob as [[_ ->]|(mobile & _ & ->)];
      [constructor | apply escapeHtml_text_escaped].
  - destruct Hsub as [[_ ->]|(subject & _ & ->)];
      [|apply escapeHtml_text_escaped].
    repeat (apply escaped_char; [reflexivity|]). constructor.
Qed.

End WorkerFacts.

(* ================================================================== *)
(** ** The template of [src/index.ts] *)
(* ================================================================== *)

(** The template of [src/index.ts] escapes nothing: were a global [env]
    bound when its [sendEmail] runs, the HTML of every e-mail sent would be
    the template around the text of the name, the email, the subject and
    the message as they were submitted.  The file declares no [env], so
    [sendEmail] stops at its first line and the template is never
    reached. *)
Theorem index_sendEmail_html_interpolates (global_env : option Env)
  (contactData : json) (net : Network) (r : Completion SendResult)
  (log : Log) (init : FetchInit) (out : FetchOutcome) :
  SrcIndex.sendEmail global_env contactData net [] = (r, log) ->
  In (init, out) log ->
  exists nameText emailText mobileParagraph subjectLine message,
    ToString (field contactData "name") = Normal nameText /\
    ToString (field contactData "email") = Normal emailText /\
    ToString (or_else (field contactData "subject") "No subject provided")
      = Normal subjectLine /\
    field contactData "message" = Some (JStr message) /\
    payload_html (fetch_body init) =
      SrcIndex.html_0 ++ nameText ++ SrcIndex.html_1 ++ emailText ++
      SrcIndex.html_2 ++ mobileParagraph ++ SrcIndex.html_3 ++
      subjectLine ++ SrcIndex.html_4 ++
      replaceAll 10 (lit "<br>") message ++ SrcIndex.html_5.
Proof.
  unfold SrcIndex.sendEmail, try_catch, bindA, lift, ret, field.
  intros H Hin.
  destruct global_env as [env|]; [|injection H as _ <-; destruct Hin].
  destruct (negb (truthy_binding (MAILTRAP_API_TOKEN env))
            || negb (truthy_binding (FROM_EMAIL env))
            || negb (truthy_binding (TO_EMAIL env)));
    [injection H as _ <-; destruct Hin|].
  destruct (Get contactData "subject") as [subjectField|];
    [|injection H as _ <-; destruct Hin].
  destruct (ToString (or_else subjectField "New Inquiry"));
    [|injection H as _ <-; destruct Hin].
  destruct (Get contactData "name") as [nameField|];
    [|injection H as _ <-; destruct Hin].
  destruct (ToString nameField) as [nameText|] eqn:En;
    [|injection H as _ <-; destruct Hin].
  destruct (Get contactData "email") as [emailField|];
    [|injection H as _ <-; destruct Hin].
  destruct (ToString emailField) as [emailText|] eqn:Ee;
    [|injection H as _ <-; destruct Hin].
  destruct (Get contactData "mobile") as [mobileField|];
    [|injection H as _ <-; destruct Hin].
  match type of H with
  | context [match ?c with Normal _ => _ | Throw _ => _ end] =>
      destruct c as [mobileParagraph|]; [|injection H as _ <-; destruct Hin]
  end.
  destruct (ToString (or_else subjectField "No subject provided"))
    as [subjectLine|] eqn:Es; [|injection H as _ <-; destruct Hin].
  destruct (Get contactData "message") as [messageField|];
    [|injection H as _ <-; destruct Hin].
  destruct (SrcIndex.replace_newlines messageField) as [messageHtml|] eqn:Em;
    [|injection H as _ <-; destruct Hin].
  match type of H with
  | context [match ?c with Normal _ => _ | Throw _ => _ end] =>
      destruct c; [|injection H as _ <-; destruct Hin]
  end.
  destruct (ToString messageField); [|injection H as _ <-; destruct Hin].
  destruct messageField as [[| | |message| |]|]; try discriminate Em.
  injection Em as <-.
  exists nameText, emailText, mobileParagraph, subjectLine, message.
  split; [reflexivity|]. split; [reflexivity|]. split; [reflexivity|].
  split; [reflexivity|].
  unfold fetch in H.
  match type of H with
  | context [net ?i] => destruct (net i) as [st text|]
  end.
  - destruct (ok _); [|destruct (response_text _)];
      injection H as _ <-; destruct Hin as [Heq|[]];
      injection Heq as <- _; reflexivity.
  - injection H as _ <-. destruct Hin as [Heq|[]].
    injection Heq as <- _. reflexivity.
Qed.

(** A name with markup, through the module worker: the name arrives
    escaped. *)
Example module_sendEmail_html_is_escaped :
  exists init,
    snd (sendEmail body_markup sample_env (upstream 200) [])
    = [(init, upstream 200 init)] /\
    includes (lit "<script>") (payload_html (fetch_body init)) = false /\
    includes (lit "&lt;script&gt;alert(1)&lt;/script&gt;")
      (payload_html (fetch_body init)) = true.
Proof.
  eexists. split; [vm_compute; reflexivity|].
  split; vm_compute; reflexivity.
Qed.

(** A mobile that is a number passes validation, and then the module
    worker's [escapeHtml] has no [replace] to call on it: nothing is sent
    and the answer is the generic 500. *)
Example number_mobile_is_not_sent :
  validateInput (runtime := decimal_runtime) body_number_mobile = Normal valid /\
  handleRequest (runtime := decimal_runtime) (post (Normal body_number_mobile))
    sample_env (upstream 200) [] = (Normal failure_response, []).
Proof. split; vm_compute; reflexivity. Qed.

(* ================================================================== *)
(** ** The theorems at concrete requests *)
(* ================================================================== *)

Lemma post_contact_post (data : json) : post_contact (post (Normal data)) data.
Proof. repeat split. Qed.

Lemma first_failing_rule_wins_witness :
  responds (runtime := decimal_runtime) (post (Normal body_empty_name))
    sample_env (upstream 200)
    (json_response 400 "{`status`:`error`,`message`:`Name is required`}").
Proof.
  apply (proj2 (proj2 (@first_failing_rule_wins decimal_runtime
           (post (Normal body_empty_name)) sample_env (upstream 200)
           body_empty_name (post_contact_post body_empty_name)))).
  - vm_compute; reflexivity.
  - vm_compute; reflexivity.
Defined.

Lemma valid_submission_follows_upstream_witness :
  responds (runtime := decimal_runtime) (post (Normal body_jo)) sample_env
    (upstream 200)
    (json_response 200
       "{`status`:`success`,`message`:`Your inquiry has been sent.`}") /\
  responds (runtime := decimal_runtime) (post (Normal body_jo)) sample_env
    (upstream 503)
    (json_response 500
       "{`status`:`error`,`message`:`Unable to send your inquiry. Please try again later.`}") /\
  responds (runtime := decimal_runtime) (post (Normal body_jo)) sample_env
    upstream_down
    (json_response 500
       "{`status`:`error`,`message`:`Unable to send your inquiry. Please try again later.`}").
Proof.
  split; [|split].
  - eassert (Hin : In (_, _) (outbound_calls (runtime := decimal_runtime)
                               (post (Normal body_jo)) sample_env (upstream 200)))
      by (vm_compute; left; reflexivity).
    eapply (proj1 (@valid_submission_follows_upstream decimal_runtime
              (post (Normal body_jo)) sample_env (upstream 200) body_jo _ _
              (post_contact_post body_jo) ltac:(vm_compute; reflexivity) Hin)).
    + reflexivity.
    + lia.
  - eassert (Hin : In (_, _) (outbound_calls (runtime := decimal_runtime)
                               (post (Normal body_jo)) sample_env (upstream 503)))
      by (vm_compute; left; reflexivity).
    eapply (proj1 (proj2 (@valid_submission_follows_upstream decimal_runtime
              (post (Normal body_jo)) sample_env (upstream 503) body_jo _ _
              (post_contact_post body_jo) ltac:(vm_compute; reflexivity) Hin))).
    + reflexivity.
    + lia.
  - eassert (Hin : In (_, _) (outbound_calls (runtime := decimal_runtime)
                               (post (Normal body_jo)) sample_env upstream_down))
      by (vm_compute; left; reflexivity).
    eapply (proj2 (proj2 (@valid_submission_follows_upstream decimal_runtime
              (post (Normal body_jo)) sample_env upstream_down body_jo _ _
              (post_contact_post body_jo) ltac:(vm_compute; reflexivity) Hin))).
    reflexivity.
Defined.

Lemma unparseable_body_is_a_failure_witness :
  responds (runtime := decimal_runtime) (post (Throw SyntaxError)) sample_env
    (upstream 200)
    (json_response 500
       "{`status`:`error`,`message`:`Unable to send your inquiry. Please try again later.`}") /\
  outbound_calls (runtime := decimal_runtime) (post (Throw SyntaxError))
    sample_env (upstream 200) = [].
Proof.
  apply (@unparseable_body_is_a_failure decimal_runtime
           (post (Throw SyntaxError)) sample_env (upstream 200) SyntaxError);
    reflexivity.
Defined.

(** C3 fails on the code: a body that does not parse is answered with
    status 500, not 400. *)
Lemma unparseable_body_is_not_400 :
  json_body (post (Throw SyntaxError)) = Throw SyntaxError /\
  responds (runtime := decimal_runtime) (post (Throw SyntaxError)) sample_env
    (upstream 200) failure_response /\
  status failure_response = 500 /\
  status failure_response <> 400.
Proof.
  split; [reflexivity|]. split; [vm_compute; reflexivity|].
  split; [reflexivity | discriminate].
Qed.

Lemma length_limits_witness :
  validateInput (runtime := decimal_runtime) body_at_limits = Normal valid.
Proof.
  apply (proj2 (proj2 (proj2 (@length_limits decimal_runtime
           (post (Normal body_at_limits)) sample_env (upstream 200)
           body_at_limits (repeat 97%N 100) (repeat 97%N 1000)
           (post_contact_post body_at_limits)
           ltac:(repeat constructor; vm_compute; reflexivity)
           ltac:(vm_compute; reflexivity) ltac:(vm_compute; reflexivity))))).
  - apply Nat.leb_le. vm_compute. reflexivity.
  - right. exists (repeat 97%N 200). split; [vm_compute; reflexivity|].
    apply Nat.leb_le. vm_compute. reflexivity.
  - apply Nat.leb_le. vm_compute. reflexivity.
Defined.

(** C5 fails on the code: a name of 101 characters that ends in a
    space passes the earlier rules and is accepted, the length being taken
    after trimming. *)
Lemma name_of_101_is_accepted :
  field body_name_101 "name" = Some (JStr name_101) /\
  length name_101 = 101%nat /\
  passes (runtime := decimal_runtime) (rules_before NameLength) body_name_101 /\
  validateInput (runtime := decimal_runtime) body_name_101 = Normal valid /\
  responds (runtime := decimal_runtime) (post (Normal body_name_101))
    sample_env (upstream 200) success_response /\
  status success_response <> 400.
Proof.
  split; [reflexivity|]. split; [reflexivity|].
  split; [repeat constructor; vm_compute; reflexivity|].
  split; [vm_compute; reflexivity|]. split; [vm_compute; reflexivity|].
  discriminate.
Qed.

Lemma invalid_email_format_witness :
  responds (runtime := decimal_runtime) (post (Normal body_bad_email))
    sample_env (upstream 200)
    (json_response 400
       "{`status`:`error`,`message`:`Please provide a valid email address`}").
Proof.
  apply (@invalid_email_format decimal_runtime (post (Normal body_bad_email))
           sample_env (upstream 200) body_bad_email
           (lit "Jo") (lit "jo@x") (lit "Hi")
           (post_contact_post body_bad_email)).
  - reflexivity.
  - reflexivity.
  - reflexivity.
  - vm_compute. discriminate.
  - vm_compute. discriminate.
  - vm_compute. discriminate.
  - intros H. apply RegExp_test_lang in H. vm_compute in H. discriminate H.
Defined.

(** C6 fails on the code: with a name of one space (a present,
    non-empty string) and an email that does not match, the answer is the
    name message, not the email message. *)
Lemma space_name_is_reported_first :
  field body_space_name "name" = Some (JStr (lit " ")) /\
  field body_space_name "email" = Some (JStr (lit "jo")) /\
  field body_space_name "message" = Some (JStr (lit "Hi")) /\
  lit " " <> [] /\ lit "jo" <> [] /\ lit "Hi" <> [] /\
  RegExp_test emailRegex (trim (lit "jo")) = false /\
  responds (runtime := decimal_runtime) (post (Normal body_space_name))
    sample_env (upstream 200)
    (json_response 400 "{`status`:`error`,`message`:`Name is required`}") /\
  json_response 400 "{`status`:`error`,`message`:`Name is required`}" <>
  json_response 400
    "{`status`:`error`,`message`:`Please provide a valid email address`}".
Proof.
  repeat (split; [first [reflexivity | vm_compute; reflexivity
                         | vm_compute; discriminate]|]).
  vm_compute. discriminate.
Qed.

Lemma mobile_rule_witness :
  responds (runtime := decimal_runtime) (post (Normal body_short_mobile))
    sample_env (upstream 200)
    (json_response 400
       "{`status`:`error`,`message`:`Mobile number must be valid`}").
Proof.
  apply (proj1 (proj1 (@mobile_rule decimal_runtime
           (post (Normal body_short_mobile)) sample_env (upstream 200)
           body_short_mobile (post_contact_post body_short_mobile)
           ltac:(repeat constructor; vm_compute; reflexivity))
         (str "12345") (lit "12345")
         ltac:(vm_compute; reflexivity) ltac:(discriminate)
         ltac:(vm_compute; discriminate) ltac:(reflexivity))).
  right. left. apply Nat.ltb_lt. vm_compute. reflexivity.
Defined.

(** C7 fails on the code: a mobile with spaces around seven digits is
    not a digit-only string, and it is accepted, the check being made after
    trimming. *)
Lemma spaced_mobile_is_accepted :
  passes (runtime := decimal_runtime) (rules_before MobileFormat)
    body_spaced_mobile /\
  field body_spaced_mobile "mobile" = Some (JStr (lit " 1234567 ")) /\
  lit " 1234567 " <> [] /\
  digit_only (lit " 1234567 ") = false /\
  rule_fails (runtime := decimal_runtime) MobileFormat body_spaced_mobile
    = Normal false /\
  responds (runtime := decimal_runtime) (post (Normal body_spaced_mobile))
    sample_env (upstream 200) success_response /\
  status success_response <> 400.
Proof.
  split; [repeat constructor; vm_compute; reflexivity|].
  repeat (split; [first [reflexivity | vm_compute; reflexivity
                         | vm_compute; discriminate]|]).
  discriminate.
Qed.

Lemma routing_witness :
  responds (runtime := decimal_runtime)
    {| method := lit "OPTIONS"; pathname := lit "/anything";
       json_body := Throw SyntaxError |}
    sample_env (upstream 200)
    {| status := 200;
       headers :=
         [ (lit "Access-Control-Allow-Origin", lit "*");
           (lit "Access-Control-Allow-Methods", lit "POST, OPTIONS");
           (lit "Access-Control-Allow-Headers", lit "Content-Type");
           (lit "Access-Control-Max-Age", lit "86400") ];
       body := None |} /\
  responds (runtime := decimal_runtime)
    {| method := lit "GET"; pathname := lit "/contact";
       json_body := Throw SyntaxError |}
    sample_env (upstream 200)
    (json_response 405 "{`status`:`error`,`message`:`Method not allowed`}") /\
  responds (runtime := decimal_runtime)
    {| method := lit "POST"; pathname := lit "/";
       json_body := Normal body_jo |}
    sample_env (upstream 200)
    (json_response 404 "{`status`:`error`,`message`:`Endpoint not found`}").
Proof.
  split; [|split].
  - apply (proj1 (@routing decimal_runtime _ sample_env (upstream 200))).
    reflexivity.
  - apply (proj1 (proj2 (@routing decimal_runtime _ sample_env (upstream 200)))).
    + vm_compute. discriminate.
    + vm_compute. discriminate.
  - apply (proj2 (proj2 (@routing decimal_runtime _ sample_env (upstream 200)))).
    + reflexivity.
    + vm_compute. discriminate.
Defined.

Lemma mobile_is_coerced_witness :
  validateInput (runtime := decimal_runtime) body_number_mobile
    = Normal valid /\
  validateInput (runtime := decimal_runtime) body_short_number_mobile
    = Normal (invalid "Mobile number must be valid").
Proof.
  split.
  - apply (proj2 (proj2
             (@mobile_is_coerced decimal_runtime body_number_mobile
                (JNum (NumFinite false 1234567 7))
                (lit "Jo") (lit "jo@x.com") (lit "Hi")
                ltac:(reflexivity) ltac:(vm_compute; discriminate)
                ltac:(reflexivity) ltac:(vm_compute; reflexivity)
                ltac:(reflexivity) ltac:(vm_compute; discriminate)
                ltac:(reflexivity) ltac:(discriminate) ltac:(discriminate)))
           (NumFinite false 1234567 7) 7 eq_refl).
    + exists 1234567%positive. split; [reflexivity | vm_compute; discriminate].
    + lia.
    + lia.
    + split; [vm_compute; lia|]. split; [vm_compute; lia|].
      left. reflexivity.
  - apply (proj2 (proj2
             (@mobile_is_coerced decimal_runtime body_short_number_mobile
                (JNum (NumFinite false 12345 5))
                (lit "Jo") (lit "jo@x.com") (lit "Hi")
                ltac:(reflexivity) ltac:(vm_compute; discriminate)
                ltac:(reflexivity) ltac:(vm_compute; reflexivity)
                ltac:(reflexivity) ltac:(vm_compute; discriminate)
                ltac:(reflexivity) ltac:(discriminate) ltac:(discriminate)))
           (NumFinite false 12345 5) 5 eq_refl).
    + exists 12345%positive. split; [reflexivity | vm_compute; discriminate].
    + lia.
    + left. lia.
Defined.

(* ================================================================== *)
(** ** Further properties: escaping and the email pattern *)
(* ================================================================== *)

Ltac split_unit c :=
  destruct (N.eqb_spec c 38) as [->|?];
  [|destruct (N.eqb_spec c 60) as [->|?];
    [|destruct (N.eqb_spec c 62) as [->|?];
      [|destruct (N.eqb_spec c 34) as [->|?];
        [|destruct (N.eqb_spec c 39) as [->|?]]]]].

(** What escaping writes for one character tells the character, and
    where its text ends. *)
Lemma escape_unit_prefix (c1 c2 : N) (r1 r2 : jsstring) :
  escape_unit c1 ++ r1 = escape_unit c2 ++ r2 -> c1 = c2 /\ r1 = r2.
Proof.
  unfold escape_unit.
  split_unit c1; split_unit c2; cbn; intros H; injection H; intros; subst;
    try discriminate; try contradiction; try (split; reflexivity);
    congruence.
Qed.

(** X1. Escaping loses nothing: two texts with the same escaped form
    are the same text. *)
Theorem escapeHtml_text_injective (a b : jsstring) :
  escapeHtml_text a = escapeHtml_text b -> a = b.
Proof.
  revert b. induction a as [|x a IH]; intros [|y b].
  - reflexivity.
  - rewrite escapeHtml_text_cons. unfold escape_unit.
    split_unit y; cbn; discriminate.
  - rewrite escapeHtml_text_cons. unfold escape_unit.
    split_unit x; cbn; discriminate.
  - rewrite !escapeHtml_text_cons. intros H.
    apply escape_unit_prefix in H as [-> H]. f_equal. exact (IH b H).
Qed.

Lemma escape_unit_length (c : N) :
  (1 <= length (escape_unit c) <= 6)%nat.
Proof. unfold escape_unit. split_unit c; cbn; lia. Qed.

Lemma escapeHtml_text_length (s : jsstring) :
  (length s <= length (escapeHtml_text s) <= 6 * length s)%nat.
Proof.
  induction s as [|c s IH].
  - cbn. lia.
  - rewrite escapeHtml_text_cons, length_app. cbn [length].
    pose proof (escape_unit_length c). lia.
Qed.

Lemma escapeHtml_text_plain (s : jsstring) :
  forallb (fun c => negb (html_special c)) s = true -> escapeHtml_text s = s.
Proof.
  induction s as [|c s IH]; [reflexivity|]. cbn [forallb]. intros H.
  apply andb_true_iff in H as [Hc Hs].
  rewrite escapeHtml_text_cons, (IH Hs). unfold escape_unit.
  unfold html_special in Hc. apply negb_true_iff in Hc.
  repeat (apply orb_false_iff in Hc as [Hc ?]).
  replace (N.eqb c 38) with false by (symmetry; assumption).
  replace (N.eqb c 60) with false by (symmetry; assumption).
  replace (N.eqb c 62) with false by (symmetry; assumption).
  replace (N.eqb c 34) with false by (symmetry; assumption).
  replace (N.eqb c 39) with false by (symmetry; assumption).
  reflexivity.
Qed.

(** X2. [escapeHtml] of a string returns its escaped text: a sequence
    of ordinary characters and of the five entities, without any angle
    bracket or quote, between one and six times as long as the string, and
    the string itself when it has none of the five characters; on anything
    that is not a string it throws a TypeError. *)
Theorem escapeHtml_result (v : value) :
  match v with
  | Some (JStr s) =>
      escapeHtml v = Normal (escapeHtml_text s) /\
      escaped (escapeHtml_text s) /\
      (forall c, In c (escapeHtml_text s) ->
         c <> 60%N /\ c <> 62%N /\ c <> 34%N /\ c <> 39%N) /\
      (length s <= length (escapeHtml_text s) <= 6 * length s)%nat /\
      (forallb (fun c => negb (html_special c)) s = true ->
       escapeHtml_text s = s)
  | _ => escapeHtml v = Throw TypeError
  end.
Proof.
  destruct v as [[| | |s| |]|]; try reflexivity.
  split; [reflexivity|].
  split; [apply escapeHtml_text_escaped|].
  split; [apply escaped_no_markup, escapeHtml_text_escaped|].
  split; [apply escapeHtml_text_length | apply escapeHtml_text_plain].
Qed.

Lemma occurrences_app (c : N) (a b : jsstring) :
  occurrences c (a ++ b) = (occurrences c a + occurrences c b)%nat.
Proof. unfold occurrences. rewrite filter_app, length_app. reflexivity. Qed.

Lemma notSpaceAt_facts (s : jsstring) :
  forallb notSpaceAt s = true ->
  occurrences 64 s = 0%nat /\
  forallb (fun c => negb (isWhiteSpace c)) s = true.
Proof.
  induction s as [|c s IH]; [split; reflexivity|]. cbn [forallb]. intros H.
  apply andb_true_iff in H as [Hc Hs]. destruct (IH Hs) as [Ho Hw].
  unfold notSpaceAt in Hc. apply negb_true_iff, orb_false_iff in Hc as [Hws Hat].
  split.
  - unfold occurrences in *. cbn [filter].
    rewrite N.eqb_sym, Hat. exact Ho.
  - rewrite Hws, Hw. reflexivity.
Qed.

(** X3. The email pattern accepts exactly the strings made of a
    non-empty local part, an at sign, and a domain that has a dot with
    something on either side of it, none of the three parts holding white
    space or an at sign; so an accepted string has exactly one at sign and
    no white space. *)
Theorem email_pattern_accepts (s : jsstring) :
  (RegExp_test emailRegex s = true <->
   exists a b c,
     s = a ++ [64%N] ++ b ++ [46%N] ++ c /\
     a <> [] /\ b <> [] /\ c <> [] /\
     forallb notSpaceAt a = true /\ forallb notSpaceAt b = true /\
     forallb notSpaceAt c = true) /\
  (RegExp_test emailRegex s = true ->
   occurrences 64 s = 1%nat /\
   forallb (fun c => negb (isWhiteSpace c)) s = true).
Proof.
  assert (Hiff := conj (fun H => proj1 (emailRegex_lang s)
                                   (proj1 (RegExp_test_lang emailRegex s) H))
                       (fun H => proj2 (RegExp_test_lang emailRegex s)
                                   (proj2 (emailRegex_lang s) H))).
  split; [exact Hiff|].
  intros H. apply (proj1 Hiff) in H.
  destruct H as (a & b & c & -> & _ & _ & _ & Fa & Fb & Fc).
  destruct (notSpaceAt_facts _ Fa) as [Oa Wa].
  destruct (notSpaceAt_facts _ Fb) as [Ob Wb].
  destruct (notSpaceAt_facts _ Fc) as [Oc Wc].
  split.
  - rewrite !occurrences_app, Oa, Ob, Oc. reflexivity.
  - rewrite !forallb_app, Wa, Wb, Wc. reflexivity.
Qed.

(* ================================================================== *)
(** ** Further properties: what [sendEmail] sends *)
(* ================================================================== *)

Lemma mobile_parts (v : value) (safe line : jsstring) :
  (if ToBoolean v then escapeHtml v else Normal []) = Normal safe ->
  (if ToBoolean v
   then (m <- ToString v;; Normal (nl ++ lit "Mobile: " ++ m))
   else Normal []) = Normal line ->
  safe = escaped_or v [] /\ line = mobile_line v /\
  (ToBoolean v = false \/ is_string v = true).
Proof.
  destruct v as [[|[]|[]|[|c s]| |]|]; cbn [ToBoolean escapeHtml];
    try discriminate; intros Hs Hl;
    injection Hs as <-; injection Hl as <-; auto.
Qed.

Lemma subject_parts (v : value) (subjectText safe line : jsstring) :
  ToString (or_else v "New Inquiry") = Normal subjectText ->
  (if ToBoolean v then escapeHtml v else Normal (lit "No subject provided"))
    = Normal safe ->
  ToString (or_else v "No subject provided") = Normal line ->
  subjectText = string_or v "New Inquiry" /\
  safe = escaped_or v (lit "No subject provided") /\
  line = string_or v "No subject provided" /\
  (ToBoolean v = false \/ is_string v = true).
Proof.
  unfold or_else.
  destruct v as [[|[]|[]|[|c s]| |]|]; cbn [ToBoolean escapeHtml];
    try discriminate; intros Ht Hs Hl;
    injection Ht as <-; injection Hs as <-; injection Hl as <-; auto.
Qed.

Lemma configured_negb (env : Env) :
  negb (truthy_binding (MAILTRAP_API_TOKEN env))
  || negb (truthy_binding (FROM_EMAIL env))
  || negb (truthy_binding (TO_EMAIL env)) = negb (configured env).
Proof.
  unfold configured.
  destruct (truthy_binding (MAILTRAP_API_TOKEN env)),
    (truthy_binding (FROM_EMAIL env)), (truthy_binding (TO_EMAIL env));
    reflexivity.
Qed.

(** Every call of [sendEmail] is the call [sent_request] describes,
    and it is the only one. *)
Lemma sendEmail_sent (contactData : json) (env : Env) (net : Network)
  (r : Completion SendResult) (log : Log) (init : FetchInit)
  (out : FetchOutcome) :
  sendEmail contactData env net [] = (r, log) ->
  In (init, out) log ->
  init = sent_request env contactData /\
  out = net init /\ log = [(init, out)] /\
  configured env = true /\
  is_string (field contactData "name") = true /\
  is_string (field contactData "email") = true /\
  is_string (field contactData "message") = true /\
  (ToBoolean (field contactData "mobile") = false \/
   is_string (field contactData "mobile") = true) /\
  (ToBoolean (field contactData "subject") = false \/
   is_string (field contactData "subject") = true).
Proof.
  unfold sendEmail, try_catch, bindA, lift, ret, sent_request, field.
  rewrite configured_negb. intros H Hin.
  destruct (configured env); cbn [negb] in H;
    [|injection H as _ <-; destruct Hin].
  destruct (Get contactData "subject") as [subjectField|];
    [|injection H as _ <-; destruct Hin].
  destruct (ToString (or_else subjectField "New Inquiry"))
    as [subjectText|] eqn:Est; [|injection H as _ <-; destruct Hin].
  destruct (Get contactData "name") as [nameField|];
    [|injection H as _ <-; destruct Hin].
  destruct (escapeHtml nameField) as [safeName|] eqn:En;
    [|injection H as _ <-; destruct Hin].
  destruct (Get contactData "email") as [emailField|];
    [|injection H as _ <-; destruct Hin].
  destruct (escapeHtml emailField) as [safeEmail|] eqn:Ee;
    [|injection H as _ <-; destruct Hin].
  destruct (Get contactData "mobile") as [mobileField|];
    [|injection H as _ <-; destruct Hin].
  destruct (if ToBoolean mobileField then escapeHtml mobileField else Normal [])
    as [safeMobile|] eqn:Em; [|injection H as _ <-; destruct Hin].
  destruct (if ToBoolean subjectField then escapeHtml subjectField
            else Normal (lit "No subject provided"))
    as [safeSubject|] eqn:Es; [|injection H as _ <-; destruct Hin].
  destruct (Get contactData "message") as [messageField|];
    [|injection H as _ <-; destruct Hin].
  destruct (escapeHtml messageField) as [escapedMessage|] eqn:Emsg;
    [|injection H as _ <-; destruct Hin].
  apply escapeHtml_inv in En as (name & -> & ->).
  apply escapeHtml_inv in Ee as (email & -> & ->).
  apply escapeHtml_inv in Emsg as (message & -> & ->).
  cbn [ToString ToString_json] in H.
  destruct (if ToBoolean mobileField
            then (m <- ToString mobileField;; Normal (nl ++ lit "Mobile: " ++ m))
            else Normal []) as [mobileLine|] eqn:Eml;
    [|injection H as _ <-; destruct Hin].
  destruct (ToString (or_else subjectField "No subject provided"))
    as [subjectLine|] eqn:Esl; [|injection H as _ <-; destruct Hin].
  destruct (mobile_parts _ Em Eml) as (-> & -> & Hmob).
  destruct (subject_parts _ Est Es Esl) as (-> & -> & -> & Hsub).
  cbn [text_of is_string].
  unfold fetch in H.
  match type of H with
  | context [net ?i] => set (call := i) in *
  end.
  assert (Hlog : log = [(call, net call)]).
  { destruct (net call) as [st text|].
    - destruct (ok _); [|destruct (response_text _)];
        injection H as _ <-; reflexivity.
    - injection H as _ <-. reflexivity. }
  subst log. destruct Hin as [Heq|[]]. injection Heq as <- <-.
  repeat split; auto.
Qed.

(** X4. [sendEmail] never throws and calls out at most once: either it
    reports failure without any call, or it issues exactly one call and
    reports success exactly when that call came back with a 2xx status. *)
Theorem sendEmail_calls_once (contactData : json) (env : Env)
  (net : Network) :
  exists r,
    fst (sendEmail contactData env net []) = Normal r /\
    ((snd (sendEmail contactData env net []) = [] /\ success r = false) \/
     (exists init,
        snd (sendEmail contactData env net []) = [(init, net init)] /\
        success r =
          match net init with
          | Responded st _ => (200 <=? st) && (st <=? 299)
          | Rejected => false
          end)).
Proof.
  destruct (sendEmail_outcome contactData env net []) as [E|(init & E)];
    rewrite E; eexists; (split; [reflexivity|]).
  - left. split; reflexivity.
  - right. exists init. split; reflexivity.
Qed.

(** X5. When the API token, the sender or the recipient is not
    configured (undefined or empty), [sendEmail] reports failure and calls
    nothing, whatever the submission. *)
Theorem sendEmail_unconfigured (contactData : json) (env : Env)
  (net : Network) (log : Log) :
  truthy_binding (MAILTRAP_API_TOKEN env) = false \/
  truthy_binding (FROM_EMAIL env) = false \/
  truthy_binding (TO_EMAIL env) = false ->
  sendEmail contactData env net log = (Normal {| success := false |}, log).
Proof.
  intros H. unfold sendEmail, try_catch, ret. rewrite configured_negb.
  assert (configured env = false) as ->.
  { unfold configured. destruct H as [->|[->| ->]];
      rewrite ?andb_false_r; reflexivity. }
  reflexivity.
Qed.

(** X6. Every call of [sendEmail] is a POST to the configured API URL
    (not checked: it may be undefined), authorised with the bearer token,
    announcing JSON; the e-mail goes from the configured sender to the
    configured recipient, replies go to the submitted email, and the
    subject line is "Contact Form: " followed by the submitted subject or,
    without one, by "New Inquiry". *)
Theorem sendEmail_request (contactData : json) (env : Env) (net : Network)
  (r : Completion SendResult) (log : Log) (init : FetchInit)
  (out : FetchOutcome) :
  sendEmail contactData env net [] = (r, log) ->
  In (init, out) log ->
  fetch_url init = MAILTRAP_API_URL env /\
  fetch_method init = lit "POST" /\
  (exists token,
     MAILTRAP_API_TOKEN env = Some token /\ token <> [] /\
     fetch_headers init =
       [ (lit "Authorization", lit "Bearer " ++ token);
         (lit "Content-Type", lit "application/json") ]) /\
  payload_from (fetch_body init) = FROM_EMAIL env /\
  payload_to (fetch_body init) = [TO_EMAIL env] /\
  (exists email,
     field contactData "email" = Some (JStr email) /\
     payload_reply_to (fetch_body init) = Some (JStr email)) /\
  payload_subject (fetch_body init) =
    lit "Contact Form: " ++
    string_or (field contactData "subject") "New Inquiry".
Proof.
  intros H Hin.
  destruct (@sendEmail_sent _ _ _ _ _ _ _ H Hin)
    as (-> & _ & _ & Hcfg & _ & He & _).
  cbn [sent_request fetch_url fetch_method fetch_headers fetch_body
       payload_from payload_to payload_reply_to payload_subject].
  repeat split.
  - unfold configured in Hcfg.
    destruct (MAILTRAP_API_TOKEN env) as [[|c token]|]; try discriminate.
    exists (c :: token). repeat split. discriminate.
  - destruct (field contactData "email") as [[| | |email| |]|];
      try discriminate. exists email. split; reflexivity.
Qed.

(** X7. The plain text of every e-mail that is sent is the text
    template around the name, the email, the subject and the message as
    they were submitted, with no escaping; a mobile line appears exactly
    when the mobile is a non-empty string, and a missing subject reads
    "No subject provided". *)
Theorem sendEmail_text (contactData : json) (env : Env) (net : Network)
  (r : Completion SendResult) (log : Log) (init : FetchInit)
  (out : FetchOutcome) :
  sendEmail contactData env net [] = (r, log) ->
  In (init, out) log ->
  exists name email message,
    field contactData "name" = Some (JStr name) /\
    field contactData "email" = Some (JStr email) /\
    field contactData "message" = Some (JStr message) /\
    payload_text (fetch_body init) =
      text_0 ++ name ++ text_1 ++ email ++
      mobile_line (field contactData "mobile") ++
      text_2 ++ string_or (field contactData "subject") "No subject provided"
      ++ text_3 ++ message ++ text_4.
Proof.
  intros H Hin.
  destruct (@sendEmail_sent _ _ _ _ _ _ _ H Hin)
    as (-> & _ & _ & _ & Hn & He & Hm & _).
  cbn [sent_request fetch_body payload_text].
  destruct (field contactData "name") as [[| | |name| |]|]; try discriminate.
  destruct (field contactData "email") as [[| | |email| |]|]; try discriminate.
  destruct (field contactData "message") as [[| | |message| |]|];
    try discriminate.
  exists name, email, message. repeat split.
Qed.

(* ================================================================== *)
(** ** Further properties: what the validator accepts *)
(* ================================================================== *)

Section FurtherFacts.

Context {runtime : JSRuntime}.

Lemma blank_false_inv (v : value) :
  blank v = false -> exists s, v = Some (JStr s) /\ trim s <> [].
Proof.
  destruct v as [[| | |s| |]|]; try discriminate. cbn [blank]. intros H.
  exists s. split; [reflexivity|]. intros T. apply trim_nil_iff in T. congruence.
Qed.

Lemma body_object_inv (data : json) :
  rule_fails BodyIsObject data = Normal false ->
  (exists l, data = JArr l) \/ (exists members, data = JObj members).
Proof.
  destruct data as [|[]|[]|[|]| |]; intros H; eauto;
    vm_compute in H; discriminate H.
Qed.

Lemma mobile_rule_passes_inv (data : json) :
  rule_fails BodyIsObject data = Normal false ->
  rule_fails MobileFormat data = Normal false ->
  field data "mobile" = None \/ field data "mobile" = Some JNull \/
  field data "mobile" = Some (JStr []) \/
  exists v s,
    field data "mobile" = Some v /\ ToString_json v = Normal s /\
    digit_only (trim s) = true /\ (7 <= length (trim s) <= 15)%nat.
Proof.
  intros Hobj H.
  destruct (field data "mobile") as [v|] eqn:Hf; [|auto].
  destruct v as [| | |[|c s]| |] eqn:Ev; auto; right; right; right;
    (rewrite (@mobile_provided _ data _ Hf) in H; [|discriminate|discriminate]);
    (destruct (ToString_json _) as [t|] eqn:Et; [|discriminate]);
    cbn [bind] in H; injection H as H; rewrite mobile_text_fails_spec in H;
    apply orb_false_iff in H as [H Hu]; apply orb_false_iff in H as [Hd Hl];
    apply negb_false_iff in Hd; apply Nat.ltb_ge in Hl, Hu;
    eexists; exists t; (split; [reflexivity|]); auto.
Qed.

Lemma mobile_rule_passes (data : json) :
  rule_fails BodyIsObject data = Normal false ->
  (field data "mobile" = None \/ field data "mobile" = Some JNull \/
   field data "mobile" = Some (JStr []) \/
   exists v s,
     field data "mobile" = Some v /\ ToString_json v = Normal s /\
     digit_only (trim s) = true /\ (7 <= length (trim s) <= 15)%nat) ->
  rule_fails MobileFormat data = Normal false.
Proof.
  intros Hobj H. cbn [rule_fails]. rewrite (body_object_Get "mobile" Hobj).
  destruct H as [->|[->|[->|(v & s & -> & Hs & Hd & Hl & Hu)]]];
    try reflexivity.
  cbn [bind]. destruct v as [| | |[|c t]| |]; try reflexivity;
    cbn [is_undefined is_null strict_equal_string jsstring_eqb negb andb
         ToString];
    rewrite Hs; cbn [bind]; rewrite mobile_text_fails_spec, Hd; f_equal;
    (apply orb_false_iff; split; [|apply Nat.ltb_ge; lia]);
    (apply orb_false_iff; split; [reflexivity | apply Nat.ltb_ge; lia]).
Qed.

(** X8. The validator accepts a body exactly when it is an object whose
    name, email and message are strings that are not empty after trimming,
    with a trimmed name of at most 100 and a trimmed message of at most
    1000 characters and a trimmed email that the email pattern accepts;
    whose mobile is absent, null, the empty string, or a value whose
    [String()] text, trimmed, is 7 to 15 digits; and whose subject passes
    the subject test, which a string passes exactly when it has at most 200
    characters. *)
Theorem validateInput_accepts (data : json) :
  (validateInput data = Normal valid <->
   exists members n e m,
     data = JObj members /\
     field data "name" = Some (JStr n) /\ trim n <> [] /\
     (length (trim n) <= 100)%nat /\
     field data "email" = Some (JStr e) /\
     RegExp_test emailRegex (trim e) = true /\
     field data "message" = Some (JStr m) /\ trim m <> [] /\
     (length (trim m) <= 1000)%nat /\
     (field data "mobile" = None \/ field data "mobile" = Some JNull \/
      field data "mobile" = Some (JStr []) \/
      exists v s,
        field data "mobile" = Some v /\ ToString_json v = Normal s /\
        digit_only (trim s) = true /\ (7 <= length (trim s) <= 15)%nat) /\
     rule_fails SubjectLength data = Normal false) /\
  (forall sub,
     field data "subject" = Some (JStr sub) ->
     (rule_fails SubjectLength data = Normal false <->
      (length sub <= 200)%nat)).
Proof.
  split; [split|].
  - intros Hv. apply validateInput_valid_passes in Hv.
    assert (Hall : forall r, rule_fails r data = Normal false).
    { intros r. unfold passes in Hv. rewrite Forall_forall in Hv. apply Hv.
      destruct r; simpl; auto 10. }
    pose proof (Hall BodyIsObject) as Hobj.
    pose proof (Hall NamePresent) as Hn. cbn [rule_fails] in Hn.
    rewrite (required_rule_fails "name" Hobj) in Hn. injection Hn as Hn.
    apply blank_false_inv in Hn as (n & Hn & Tn).
    pose proof (Hall EmailPresent) as He. cbn [rule_fails] in He.
    rewrite (required_rule_fails "email" Hobj) in He. injection He as He.
    apply blank_false_inv in He as (e & He & Te).
    pose proof (Hall MessagePresent) as Hm. cbn [rule_fails] in Hm.
    rewrite (required_rule_fails "message" Hobj) in Hm. injection Hm as Hm.
    apply blank_false_inv in Hm as (m & Hm & Tm).
    destruct (body_object_inv Hobj) as [(l & ->)|(members & ->)];
      [discriminate Hn|].
    exists members, n, e, m.
    pose proof (Hall EmailFormat) as Re. cbn [rule_fails] in Re.
    rewrite (@field_Get _ _ _ He) in Re. cbn [bind String_prototype_trim] in Re.
    injection Re as Re. apply negb_false_iff in Re.
    pose proof (Hall NameLength) as Ln. cbn [rule_fails] in Ln.
    rewrite (@trimmed_length_rule _ "name" n 100%nat Hn) in Ln.
    injection Ln as Ln. apply Nat.ltb_ge in Ln.
    pose proof (Hall MessageLength) as Lm. cbn [rule_fails] in Lm.
    rewrite (@trimmed_length_rule _ "message" m 1000%nat Hm) in Lm.
    injection Lm as Lm. apply Nat.ltb_ge in Lm.
    repeat (split; [first [reflexivity | assumption]|]).
    split; [|exact (Hall SubjectLength)].
    apply mobile_rule_passes_inv; [exact Hobj | exact (Hall MobileFormat)].
  - intros (members & n & e & m & -> & Hn & Tn & Ln & He & Re & Hm & Tm & Lm
            & Hmob & Hsub).
    assert (Hobj : rule_fails BodyIsObject (JObj members) = Normal false)
      by reflexivity.
    apply validateInput_all_pass. unfold rule_order.
    repeat constructor; try assumption.
    + eapply required_passes; eassumption.
    + eapply required_passes; [exact He|]. intros T. rewrite T in Re.
      discriminate Re.
    + eapply required_passes; eassumption.
    + cbn [rule_fails]. rewrite (@field_Get _ _ _ He).
      cbn [bind String_prototype_trim]. rewrite Re. reflexivity.
    + apply mobile_rule_passes; assumption.
    + cbn [rule_fails].
      rewrite (@trimmed_length_rule _ "name" n 100%nat Hn). f_equal.
      apply Nat.ltb_ge. exact Ln.
    + cbn [rule_fails].
      rewrite (@trimmed_length_rule _ "message" m 1000%nat Hm). f_equal.
      apply Nat.ltb_ge. exact Lm.
  - intros sub Hs. rewrite (@subject_string_rule _ data sub Hs). split.
    + intros H. injection H as H. apply Nat.ltb_ge. exact H.
    + intros H. f_equal. apply Nat.ltb_ge. exact H.
Qed.

(** [String()] of a JSON value throws nothing but a TypeError. *)
Lemma ToString_json_error :
  forall (v : json) (e : Error), ToString_json v = Throw e -> e = TypeError.
Proof.
  fix IH 1. intros [|b|x|s|elements|members] e; cbn [ToString_json];
    try discriminate.
  - match goal with
    | |- ?f elements true = _ -> _ => set (join := f)
    end.
    revert e. generalize true. revert elements.
    fix IHl 1. intros [|el rest] first e H; [discriminate|].
    unfold join in H. cbn [bind] in H. fold join in H.
    destruct (match el with JNull => Normal [] | _ => ToString_json el end)
      as [next|e'] eqn:En; cbn [bind] in H.
    + destruct (join rest false) as [tail|e''] eqn:Et; cbn [bind] in H;
        [discriminate|].
      injection H as <-. exact (IHl rest false _ Et).
    + injection H as <-.
      assert (Hel : ToString_json el = Throw e')
        by (destruct el; try discriminate En; exact En).
      exact (IH el e' Hel).
  - destruct (own_property members (lit "toString")); [|discriminate].
    intros H. injection H as <-. reflexivity.
Qed.

Lemma ToString_primitive (v : json) :
  primitive (Some v) = true -> exists s, ToString_json v = Normal s.
Proof. destruct v; try discriminate; intros _; eexists; reflexivity. Qed.

Lemma run_rules_throw_inv (order : list Rule) (data : json) (e : Error) :
  run_rules order data = Throw e ->
  exists r, In r order /\ passes (rules_before_in order r) data /\
            rule_fails r data = Throw e.
Proof.
  induction order as [|r' rest IH]; cbn [run_rules]; intros H;
    [discriminate|].
  destruct (rule_fails r' data) as [[|]|e'] eqn:E; cbn [bind] in H.
  - discriminate.
  - destruct (IH H) as (r & Hin & Hp & Hf).
    exists r. cbn [rules_before_in].
    destruct (Rule_eqb r r') eqn:Er.
    + apply Rule_eqb_eq in Er. subst r'. congruence.
    + split; [right; exact Hin|]. split; [constructor; assumption | exact Hf].
  - injection H as <-. exists r'. cbn [rules_before_in].
    assert (Rule_eqb r' r' = true) as -> by (apply Rule_eqb_eq; reflexivity).
    split; [left; reflexivity|]. split; [constructor | exact E].
Qed.

(** X9. The validator throws nothing but a TypeError, and only while
    it converts a mobile or a subject that is an array or an object: on a
    body whose mobile and subject are absent or primitive values it always
    returns a result. *)
Theorem validateInput_throws (data : json) (e : Error) :
  validateInput data = Throw e ->
  e = TypeError /\
  (primitive (field data "mobile") = false \/
   primitive (field data "subject") = false).
Proof.
  rewrite validateInput_run_rules. intros H.
  apply run_rules_throw_inv in H as (r & Hin & Hp & Hf).
  assert (Hbefore : forall r', In r' (rules_before_in rule_order r) ->
                               rule_fails r' data = Normal false).
  { unfold passes in Hp. rewrite Forall_forall in Hp. exact Hp. }
  destruct r; cbn [rule_fails] in Hf; try discriminate Hf.
  - (* name-present *)
    rewrite (required_rule_fails "name") in Hf; [discriminate|].
    apply Hbefore. simpl. auto.
  - rewrite (required_rule_fails "email") in Hf; [discriminate|].
    apply Hbefore. simpl. auto.
  - rewrite (required_rule_fails "message") in Hf; [discriminate|].
    apply Hbefore. simpl. auto.
  - (* email-format *)
    assert (Hobj : rule_fails BodyIsObject data = Normal false)
      by (apply Hbefore; simpl; auto).
    assert (He : rule_fails EmailPresent data = Normal false)
      by (apply Hbefore; simpl; auto).
    cbn [rule_fails] in He. rewrite (required_rule_fails "email" Hobj) in He.
    injection He as He. apply blank_false_inv in He as (s & He & _).
    rewrite (@field_Get _ _ _ He) in Hf. discriminate Hf.
  - (* mobile-format *)
    assert (Hobj : rule_fails BodyIsObject data = Normal false)
      by (apply Hbefore; simpl; auto).
    rewrite (body_object_Get "mobile" Hobj) in Hf. cbn [bind] in Hf.
    destruct (field data "mobile") as [v|]; [|discriminate Hf].
    destruct (negb (is_undefined (Some v)) && negb (is_null (Some v))
              && negb (strict_equal_string (Some v) []));
      [|discriminate Hf].
    cbn [ToString] in Hf.
    destruct (ToString_json v) as [s|e'] eqn:Es; [discriminate Hf|].
    cbn [bind] in Hf. injection Hf as <-.
    split; [exact (ToString_json_error _ Es)|]. left.
    destruct v; try discriminate Es; reflexivity.
  - (* name-length *)
    assert (Hobj : rule_fails BodyIsObject data = Normal false)
      by (apply Hbefore; simpl; auto).
    assert (Hn : rule_fails NamePresent data = Normal false)
      by (apply Hbefore; simpl; auto).
    cbn [rule_fails] in Hn. rewrite (required_rule_fails "name" Hobj) in Hn.
    injection Hn as Hn. apply blank_false_inv in Hn as (s & Hn & _).
    rewrite (@field_Get _ _ _ Hn) in Hf. discriminate Hf.
  - (* subject-length *)
    assert (Hobj : rule_fails BodyIsObject data = Normal false)
      by (apply Hbefore; simpl; auto).
    rewrite (body_object_Get "subject" Hobj) in Hf. cbn [bind] in Hf.
    unfold andC in Hf. cbn [bind] in Hf.
    destruct (field data "subject") as [[| | | | |members]|];
      try discriminate Hf;
      try (destruct (ToBoolean _); discriminate Hf).
    split; [|right; reflexivity].
    cbn [ToBoolean length_greater_than] in Hf. unfold greater_than in Hf.
    destruct (own_property members (lit "length")) as [[| | | | |]|];
      try discriminate Hf;
      match type of Hf with
      | bind ?t _ = _ => destruct t eqn:Et; [discriminate Hf|]
      end; cbn [bind] in Hf; injection Hf as <-;
      exact (ToString_json_error _ Et).
  - (* message-length *)
    assert (Hobj : rule_fails BodyIsObject data = Normal false)
      by (apply Hbefore; simpl; auto).
    assert (Hm : rule_fails MessagePresent data = Normal false)
      by (apply Hbefore; simpl; auto).
    cbn [rule_fails] in Hm. rewrite (required_rule_fails "message" Hobj) in Hm.
    injection Hm as Hm. apply blank_false_inv in Hm as (s & Hm & _).
    rewrite (@field_Get _ _ _ Hm) in Hf. discriminate Hf.
Qed.

Lemma run_rules_ext (order : list Rule) (d1 d2 : json) :
  (forall r, rule_fails r d1 = rule_fails r d2) ->
  run_rules order d1 = run_rules order d2.
Proof.
  intros H. induction order as [|r rest IH]; cbn [run_rules];
    [reflexivity|].
  rewrite H, IH. reflexivity.
Qed.

(** X10. The validator reads nothing but the five fields: two bodies
    that are objects (or arrays) and agree on name, email, mobile, subject
    and message get the same verdict, whatever else they hold. *)
Theorem validateInput_reads_five_fields (d1 d2 : json) :
  rule_fails BodyIsObject d1 = Normal false ->
  rule_fails BodyIsObject d2 = Normal false ->
  field d1 "name" = field d2 "name" ->
  field d1 "email" = field d2 "email" ->
  field d1 "mobile" = field d2 "mobile" ->
  field d1 "subject" = field d2 "subject" ->
  field d1 "message" = field d2 "message" ->
  validateInput d1 = validateInput d2.
Proof.
  intros H1 H2 Hn He Hmo Hs Hm. rewrite !validateInput_run_rules.
  apply run_rules_ext. intros r.
  destruct r; [exact (eq_trans H1 (eq_sym H2))|..]; cbn [rule_fails];
    rewrite ?(body_object_Get "name" H1), ?(body_object_Get "name" H2),
      ?(body_object_Get "email" H1), ?(body_object_Get "email" H2),
      ?(body_object_Get "mobile" H1), ?(body_object_Get "mobile" H2),
      ?(body_object_Get "subject" H1), ?(body_object_Get "subject" H2),
      ?(body_object_Get "message" H1), ?(body_object_Get "message" H2),
      ?Hn, ?He, ?Hmo, ?Hs, ?Hm; reflexivity.
Qed.

(** X11. A body that is null, a boolean, a number or a string is
    answered 400 "Invalid request body"; a body that is an array is taken
    for an object and answered 400 "Name is required". *)
Theorem non_object_bodies (request : Request) (env : Env) (net : Network)
  (data : json) :
  post_contact request data ->
  match data with
  | JObj _ => True
  | JArr _ =>
      responds request env net
        (json_response 400 "{`status`:`error`,`message`:`Name is required`}")
  | _ =>
      responds request env net
        (json_response 400
           "{`status`:`error`,`message`:`Invalid request body`}")
  end.
Proof.
  intros Hpost.
  destruct data as [|b|x|s|l|members]; [| | | | |exact I];
    try (apply (responds_invalid env net (r := BodyIsObject) Hpost);
         split; [constructor|];
         try reflexivity; try (destruct b; reflexivity);
         try (destruct x; reflexivity);
         destruct s; reflexivity).
  apply (responds_invalid env net (r := NamePresent) Hpost).
  split; [repeat constructor | reflexivity].
Qed.

(** X12. A mobile that is [false], [true] or zero is present as far as
    the validator is concerned: it is checked as the text "false", "true"
    or "0", and the body is answered 400 with the mobile message. *)
Theorem falsy_mobile_is_checked (request : Request) (env : Env)
  (net : Network) (data : json) :
  post_contact request data ->
  passes (rules_before MobileFormat) data ->
  (exists b, field data "mobile" = Some (JBool b)) \/
  (exists neg, field data "mobile" = Some (JNum (NumZero neg))) ->
  responds request env net
    (json_response 400
       "{`status`:`error`,`message`:`Mobile number must be valid`}").
Proof.
  intros Hpost Hpass Hm.
  apply (responds_invalid env net (r := MobileFormat) Hpost).
  split; [exact Hpass|]. cbn [rule_fails].
  destruct Hm as [(b & Hf)|(neg & Hf)]; rewrite (@field_Get _ _ _ Hf).
  - destruct b; reflexivity.
  - reflexivity.
Qed.

(* ================================================================== *)
(** ** Further properties: the handler and the network *)
(* ================================================================== *)

Lemma validation_result_inv (data : json) (v : ValidationResult) :
  validateInput data = Normal v ->
  v = valid \/ exists r, v = invalid (rule_message r).
Proof.
  rewrite validateInput_run_rules. intros H.
  apply run_rules_inv in H as [[-> _]|(r & _ & _ & _ & ->)]; eauto.
Qed.

(** The seven ways through the handler. *)
Lemma handleRequest_cases (request : Request) (env : Env) (net : Network) :
  (method request = lit "OPTIONS" /\
   handleRequest request env net [] = (Normal handleCORS, [])) \/
  (method request <> lit "OPTIONS" /\ method request <> lit "POST" /\
   handleRequest request env net [] =
   (Normal (createErrorResponse (lit "Method not allowed") 405), [])) \/
  (method request = lit "POST" /\ pathname request <> lit "/contact" /\
   handleRequest request env net [] =
   (Normal (createErrorResponse (lit "Endpoint not found") 404), [])) \/
  (method request = lit "POST" /\ pathname request = lit "/contact" /\
   (forall data, json_body request = Normal data ->
                 validateInput data <> Normal valid) /\
   ((handleRequest request env net [] = (Normal failure_response, [])) \/
    (exists r,
       handleRequest request env net [] = (Normal (rule_response r), [])))) \/
  (exists data,
     post_contact request data /\ validateInput data = Normal valid /\
     ((handleRequest request env net [] = (Normal failure_response, [])) \/
      (exists init,
         init = sent_request env data /\
         handleRequest request env net [] =
         (Normal (if call_ok (net init)
                  then success_response else failure_response),
          [(init, net init)])))).
Proof.
  destruct (jsstring_eqb (method request) (lit "OPTIONS")) eqn:E1.
  { left. apply jsstring_eqb_eq in E1. split; [exact E1|].
    unfold handleRequest. rewrite E1. reflexivity. }
  assert (Hno : method request <> lit "OPTIONS").
  { intros H. apply jsstring_eqb_eq in H. congruence. }
  destruct (jsstring_eqb (method request) (lit "POST")) eqn:E2.
  2:{ right. left. split; [exact Hno|]. split.
      - intros H. apply jsstring_eqb_eq in H. congruence.
      - unfold handleRequest. rewrite E1, E2. reflexivity. }
  apply jsstring_eqb_eq in E2.
  destruct (jsstring_eqb (pathname request) (lit "/contact")) eqn:E3.
  2:{ right. right. left. split; [exact E2|]. split.
      - intros H. apply jsstring_eqb_eq in H. congruence.
      - unfold handleRequest. rewrite E1, E3, E2. reflexivity. }
  apply jsstring_eqb_eq in E3.
  right. right. right.
  destruct (json_body request) as [data|e] eqn:Eb.
  2:{ left. split; [exact E2|]. split; [exact E3|].
      split; [intros data H; discriminate H|]. left.
      unfold handleRequest. rewrite E2, E3.
      change (jsstring_eqb (lit "POST") (lit "OPTIONS")) with false.
      rewrite !jsstring_eqb_refl. cbn [negb].
      unfold try_catch, bindA, lift. rewrite Eb. reflexivity. }
  assert (Hpost : post_contact request data) by (repeat split; assumption).
  destruct (validateInput data) as [v|e] eqn:Ev.
  2:{ left. split; [exact E2|]. split; [exact E3|]. split.
      - intros d Hd. assert (d = data) as -> by congruence. congruence.
      - left. rewrite (handleRequest_post env net Hpost).
        unfold try_catch, bindA, lift. rewrite Ev. reflexivity. }
  destruct (validation_result_inv _ Ev) as [->|(r & ->)].
  - right. exists data. split; [exact Hpost|]. split; [exact Ev|].
    rewrite (handleRequest_valid env net Hpost Ev).
    destruct (sendEmail data env net []) as [res log] eqn:Es.
    destruct (sendEmail_outcome data env net []) as [E|(init & E)];
      rewrite Es in E; injection E as -> ->.
    + left. reflexivity.
    + right. exists init. split; [|destruct (call_ok (net init)); reflexivity].
      apply (@sendEmail_sent data env net _ _ init (net init) Es).
      left. reflexivity.
  - left. split; [exact E2|]. split; [exact E3|]. split.
    + intros d Hd. assert (d = data) as -> by congruence.
      rewrite Ev. discriminate.
    + right. exists r. exact (@handleRequest_invalid _ _ env net _ r Hpost Ev).
Qed.

Lemma Normal_inj (A : Type) (a b : A) : Normal a = Normal b -> a = b.
Proof. intros H. injection H as H. exact H. Qed.

Lemma error_is_not_success (msg : jsstring) (st : Z) :
  st <> 200 -> createErrorResponse msg st <> success_response.
Proof. intros Hst H. apply (f_equal status) in H. exact (Hst H). Qed.

(** X13. The handler calls out only for a POST to /contact whose body
    passes validation, and then once: every outbound call it issues is the
    one call of [sendEmail] for that body. *)
Theorem calls_only_for_valid_submissions (request : Request) (env : Env)
  (net : Network) (init : FetchInit) (out : FetchOutcome) :
  In (init, out) (outbound_calls request env net) ->
  exists data,
    post_contact request data /\
    validateInput data = Normal valid /\
    init = sent_request env data /\
    out = net init /\
    outbound_calls request env net = [(init, out)].
Proof.
  unfold outbound_calls.
  destruct (handleRequest_cases request env net)
    as [[_ E]|[(_ & _ & E)|[(_ & _ & E)|[(_ & _ & _ & [E|(r & E)])
        |(data & Hpost & Hv & [E|(i & Hi & E)])]]]];
    rewrite E; cbn [snd]; intros Hin; try (destruct Hin; fail).
  destruct Hin as [Heq|[]]. injection Heq as <- <-.
  exists data. split; [exact Hpost|]. split; [exact Hv|].
  split; [exact Hi|]. split; reflexivity.
Qed.

(** X14. Success is reported only for mail the upstream accepted: when
    the handler answers with the success envelope, the request was a POST
    to /contact with a valid body and the one call it issued came back with
    a 2xx status. *)
Theorem success_only_after_2xx (request : Request) (env : Env)
  (net : Network) :
  responds request env net success_response ->
  exists data init st text,
    post_contact request data /\
    validateInput data = Normal valid /\
    outbound_calls request env net = [(init, Responded st text)] /\
    200 <= st <= 299.
Proof.
  unfold responds, outbound_calls.
  destruct (handleRequest_cases request env net)
    as [[_ E]|[(_ & _ & E)|[(_ & _ & E)|[(_ & _ & _ & [E|(r & E)])
        |(data & Hpost & Hv & [E|(i & Hi & E)])]]]];
    rewrite E; cbn [fst snd]; intros H; apply Normal_inj in H.
  - apply (f_equal body) in H. discriminate H.
  - exfalso. revert H. apply error_is_not_success. discriminate.
  - exfalso. revert H. apply error_is_not_success. discriminate.
  - exfalso. revert H. apply error_is_not_success. discriminate.
  - exfalso. revert H. apply error_is_not_success. discriminate.
  - exfalso. revert H. apply error_is_not_success. discriminate.
  - destruct (net i) as [st text|] eqn:En; cbn [call_ok] in H.
    + destruct (is_2xx st) eqn:E2;
        [|exfalso; revert H; apply error_is_not_success; discriminate].
      exists data, i, st, text.
      split; [exact Hpost|]. split; [exact Hv|]. split; [reflexivity|].
      unfold is_2xx in E2. apply andb_true_iff in E2 as [L U].
      apply Z.leb_le in L, U. split; assumption.
    + exfalso. revert H. apply error_is_not_success. discriminate.
Qed.

(** X15. The handler never rejects, and it has fourteen answers: the
    preflight response, the 405, the 404, the nine 400s of the rules, the
    generic 500 and the success envelope; in particular the fallback
    message "Validation failed" is never sent, and the status is always
    200, 400, 404, 405 or 500. *)
Theorem handler_answers (request : Request) (env : Env) (net : Network) :
  exists resp,
    responds request env net resp /\
    (resp = handleCORS \/
     resp = json_response 405
              "{`status`:`error`,`message`:`Method not allowed`}" \/
     resp = json_response 404
              "{`status`:`error`,`message`:`Endpoint not found`}" \/
     (exists r,
        resp = json_response 400 (error_envelope (rule_message r))) \/
     resp = json_response 500
              "{`status`:`error`,`message`:`Unable to send your inquiry. Please try again later.`}" \/
     resp = json_response 200
              "{`status`:`success`,`message`:`Your inquiry has been sent.`}") /\
    In (status resp) [200; 400; 404; 405; 500].
Proof.
  unfold responds.
  destruct (handleRequest_cases request env net)
    as [[_ E]|[(_ & _ & E)|[(_ & _ & E)|[(_ & _ & _ & [E|(r & E)])
        |(data & Hpost & Hv & [E|(i & Hi & E)])]]]];
    rewrite E; cbn [fst]; eexists; (split; [reflexivity|]).
  - split; [auto | cbn; auto].
  - split; [right; left; reflexivity | cbn; auto 6].
  - split; [right; right; left; reflexivity | cbn; auto 6].
  - split; [do 4 right; left; reflexivity | cbn; auto 6].
  - split; [do 3 right; left; exists r; apply rule_response_text
           | cbn; auto 6].
  - split; [do 4 right; left; reflexivity | cbn; auto 6].
  - destruct (call_ok (net i)).
    + split; [do 5 right; reflexivity | cbn; auto].
    + split; [do 4 right; left; reflexivity | cbn; auto 6].
Qed.

Lemma object_Get (data : json) (key : string) :
  data <> JNull -> Get data key = Normal (field data key).
Proof. destruct data; try reflexivity. congruence. Qed.

(** A submission whose fields are strings is sent, as [sent_request]
    describes, when the three bindings are configured. *)
Lemma sendEmail_sends (data : json) (env : Env) (net : Network) :
  configured env = true ->
  is_string (field data "name") = true ->
  is_string (field data "email") = true ->
  is_string (field data "message") = true ->
  ToBoolean (field data "mobile") = false \/
  is_string (field data "mobile") = true ->
  ToBoolean (field data "subject") = false \/
  is_string (field data "subject") = true ->
  sendEmail data env net [] =
  (Normal {| success := call_ok (net (sent_request env data)) |},
   [(sent_request env data, net (sent_request env data))]).
Proof.
  intros Hcfg Hn He Hm Hmob Hsub.
  assert (Hdata : data <> JNull) by (intros ->; discriminate Hn).
  unfold sendEmail, try_catch, bindA, lift, ret, sent_request.
  rewrite configured_negb, Hcfg. cbn [negb].
  rewrite !(object_Get _ Hdata).
  destruct (field data "name") as [[| | |name| |]|]; try discriminate Hn.
  destruct (field data "email") as [[| | |email| |]|]; try discriminate He.
  destruct (field data "message") as [[| | |message| |]|];
    try discriminate Hm.
  destruct (field data "mobile") as [[|[]|[]|[|c mobile]| |]|];
    try (destruct Hmob as [Hmob|Hmob]; discriminate Hmob);
    destruct (field data "subject") as [[|[]|[]|[|d subject]| |]|];
    try (destruct Hsub as [Hsub|Hsub]; discriminate Hsub);
    cbn [ToBoolean escapeHtml ToString ToString_json or_else bind length
         Nat.eqb negb text_of string_or mobile_line escaped_or];
    unfold fetch;
    match goal with
    | |- context [net ?i] => set (call := i)
    end;
    (destruct (net call) as [st text|]; cbn [call_ok];
     [unfold ok, is_2xx; cbn [response_status response_text];
      destruct ((200 <=? st) && (st <=? 299)); [|destruct text]
     |]; reflexivity).
Qed.

Lemma valid_fields_are_strings (data : json) :
  validateInput data = Normal valid ->
  is_string (field data "name") = true /\
  is_string (field data "email") = true /\
  is_string (field data "message") = true.
Proof.
  intros Hv. apply validateInput_valid_passes in Hv.
  assert (Hall : forall r, In r rule_order -> rule_fails r data = Normal false).
  { unfold passes in Hv. rewrite Forall_forall in Hv. exact Hv. }
  assert (Hobj : rule_fails BodyIsObject data = Normal false)
    by (apply Hall; simpl; auto).
  assert (Hkey : forall r key,
            In r rule_order ->
            rule_fails r data = (v <- Get data key;; required_field_fails v) ->
            is_string (field data key) = true).
  { intros r key Hin Hr. pose proof (Hall r Hin) as H. rewrite Hr in H.
    rewrite (required_rule_fails key Hobj) in H. injection H as H.
    apply blank_false_inv in H as (s & -> & _). reflexivity. }
  split; [|split].
  - apply (Hkey NamePresent); [simpl; auto | reflexivity].
  - apply (Hkey EmailPresent); [simpl; auto | reflexivity].
  - apply (Hkey MessagePresent); [simpl; auto | reflexivity].
Qed.

(** X16. A submission that passes validation with a mobile or a subject
    that is truthy and not a string (a number, [true], an array, an object)
    is never sent by the module worker: [escapeHtml] throws on it, no call
    is issued and the answer is the generic 500. *)
Theorem non_string_field_is_not_sent (request : Request) (env : Env)
  (net : Network) (data : json) :
  post_contact request data ->
  validateInput data = Normal valid ->
  (ToBoolean (field data "mobile") = true /\
   is_string (field data "mobile") = false) \/
  (ToBoolean (field data "subject") = true /\
   is_string (field data "subject") = false) ->
  responds request env net failure_response /\
  outbound_calls request env net = [].
Proof.
  intros Hpost Hv Hbad. unfold responds, outbound_calls.
  rewrite (handleRequest_valid env net Hpost Hv).
  destruct (sendEmail data env net []) as [res log] eqn:Es.
  destruct (sendEmail_outcome data env net []) as [E|(init & E)];
    rewrite Es in E; injection E as -> ->; [split; reflexivity|].
  exfalso.
  destruct (@sendEmail_sent data env net _ _ init (net init) Es
              (or_introl eq_refl))
    as (_ & _ & _ & _ & _ & _ & _ & Hmob & Hsub).
  destruct Hbad as [[Ht Hs]|[Ht Hs]];
    [destruct Hmob as [H|H] | destruct Hsub as [H|H]]; congruence.
Qed.

(** X17. A submission that passes validation and whose mobile and
    subject are each falsy or a string is sent whenever the token, the
    sender and the recipient are configured: exactly one call is issued,
    the one [sent_request] describes, and the answer is the success
    envelope when it comes back 2xx and the generic 500 otherwise. *)
Theorem valid_submission_is_sent (request : Request) (env : Env)
  (net : Network) (data : json) :
  post_contact request data ->
  validateInput data = Normal valid ->
  configured env = true ->
  ToBoolean (field data "mobile") = false \/
  is_string (field data "mobile") = true ->
  ToBoolean (field data "subject") = false \/
  is_string (field data "subject") = true ->
  outbound_calls request env net =
    [(sent_request env data, net (sent_request env data))] /\
  responds request env net
    (if call_ok (net (sent_request env data))
     then success_response else failure_response).
Proof.
  intros Hpost Hv Hcfg Hmob Hsub. unfold responds, outbound_calls.
  rewrite (handleRequest_valid env net Hpost Hv).
  destruct (@valid_fields_are_strings data Hv) as (Hn & He & Hm).
  rewrite (@sendEmail_sends data env net Hcfg); cbn [fst snd success];
    try assumption.
  split; reflexivity.
Qed.

(* ================================================================== *)
(** ** Further properties: the handler of [src/index.ts] *)
(* ================================================================== *)

(** X18. The two workers answer alike whenever there is nothing to
    send: for a request that is not a POST to /contact, or whose body does
    not parse or does not pass validation, the handler of [src/index.ts]
    returns the response of the module worker and, like it, calls
    nothing. *)
Theorem index_handler_agrees (global_env : option Env) (request : Request)
  (env : Env) (net : Network) :
  method request <> lit "POST" \/ pathname request <> lit "/contact" \/
  (forall data, json_body request = Normal data ->
                validateInput data <> Normal valid) ->
  SrcIndexWorker.handleRequest global_env request net [] =
    handleRequest request env net [] /\
  snd (handleRequest request env net []) = [].
Proof.
  intros H. unfold SrcIndexWorker.handleRequest, handleRequest.
  destruct (jsstring_eqb (method request) (lit "OPTIONS"));
    [split; reflexivity|].
  destruct (jsstring_eqb (method request) (lit "POST")) eqn:E2;
    cbn [negb]; [|split; reflexivity].
  destruct (jsstring_eqb (pathname request) (lit "/contact")) eqn:E3;
    cbn [negb]; [|split; reflexivity].
  apply jsstring_eqb_eq in E2, E3.
  destruct H as [H|[H|H]]; try contradiction.
  unfold try_catch, bindA, lift.
  destruct (json_body request) as [data|]; [|split; reflexivity].
  specialize (H data eq_refl).
  destruct (validateInput data) as [v|] eqn:Ev; [|split; reflexivity].
  destruct (validation_result_inv _ Ev) as [->|(r & ->)]; [contradiction|].
  cbn [isValid invalid negb ret message].
  destruct r; split; reflexivity.
Qed.

(** X19. Where no global [env] exists, the worker of [src/index.ts]
    sends nothing, whatever the request, and answers every valid
    submission with the generic 500. *)
Theorem index_handler_without_env (request : Request) (net : Network) :
  snd (SrcIndexWorker.handleRequest None request net []) = [] /\
  (forall data,
     post_contact request data -> validateInput data = Normal valid ->
     fst (SrcIndexWorker.handleRequest None request net [])
     = Normal failure_response).
Proof.
  unfold SrcIndexWorker.handleRequest. split.
  - destruct (jsstring_eqb (method request) (lit "OPTIONS")); [reflexivity|].
    destruct (negb (jsstring_eqb (method request) (lit "POST")));
      [reflexivity|].
    destruct (negb (jsstring_eqb (pathname request) (lit "/contact")));
      [reflexivity|].
    unfold try_catch, bindA, lift.
    destruct (json_body request) as [data|]; [|reflexivity].
    destruct (validateInput data) as [v|]; [|reflexivity].
    destruct (negb (isValid v)); reflexivity.
  - intros data (Hm & Hp & Hb) Hv. rewrite Hm, Hp.
    change (jsstring_eqb (lit "POST") (lit "OPTIONS")) with false.
    rewrite !jsstring_eqb_refl. cbn [negb].
    unfold try_catch, bindA, lift. rewrite Hb, Hv. reflexivity.
Qed.

(* ================================================================== *)
(** ** The HTML of every validated submission *)
(* ================================================================== *)

Lemma escaped_or_escaped (v : value) (fallback : jsstring) :
  escaped fallback -> escaped (escaped_or v fallback).
Proof.
  intros H. destruct v as [[| | |[|c s]| |]|]; cbn [escaped_or];
    try exact H. apply escapeHtml_text_escaped.
Qed.

(** C4. For every validated submission: the name, the email and the
    message are strings, and the HTML of every e-mail the module worker
    renders and sends for it is the fixed template around the escaped name,
    email, mobile, subject and message (an empty mobile leaves its row out,
    a falsy subject reads [No subject provided], and each line feed of the
    escaped message becomes [<br>]).  Each of the five interpolated texts is
    escaped: it holds no [<], [>], double or single quote, and every [&] in
    it begins one of the five entities.  The e-mail is rendered, with
    exactly one call, whenever the three bindings are configured and the
    mobile and the subject are each falsy or a string.  The worker of
    [src/index.ts], whose [sendEmail] reads an [env] that the file does not
    declare, renders no e-mail. *)
Theorem html_body_is_escaped (request : Request) (env : Env) (net : Network)
  (data : json) :
  post_contact request data ->
  validateInput data = Normal valid ->
  exists name email message,
    field data "name" = Some (JStr name) /\
    field data "email" = Some (JStr email) /\
    field data "message" = Some (JStr message) /\
    (forall init out,
       In (init, out) (outbound_calls request env net) ->
       payload_html (fetch_body init) =
         htmlContent (escapeHtml_text name) (escapeHtml_text email)
           (escaped_or (field data "mobile") [])
           (escaped_or (field data "subject") (lit "No subject provided"))
           (replaceAll 10 (lit "<br>") (escapeHtml_text message))) /\
    Forall (fun safe =>
              escaped safe /\
              forall c, In c safe ->
                        c <> 60%N /\ c <> 62%N /\ c <> 34%N /\ c <> 39%N)
      [ escapeHtml_text name; escapeHtml_text email;
        escaped_or (field data "mobile") [];
        escaped_or (field data "subject") (lit "No subject provided");
        escapeHtml_text message ] /\
    (configured env = true ->
     ToBoolean (field data "mobile") = false \/
     is_string (field data "mobile") = true ->
     ToBoolean (field data "subject") = false \/
     is_string (field data "subject") = true ->
     exists init, outbound_calls request env net = [(init, net init)]) /\
    snd (SrcIndexWorker.handleRequest None request net []) = [].
Proof.
  intros Hpost Hv.
  destruct (@valid_fields_are_strings data Hv) as (Hn & He & Hm).
  destruct (field data "name") as [[| | |name| |]|] eqn:Fn;
    try discriminate Hn.
  destruct (field data "email") as [[| | |email| |]|] eqn:Fe;
    try discriminate He.
  destruct (field data "message") as [[| | |message| |]|] eqn:Fm;
    try discriminate Hm.
  exists name, email, message.
  split; [reflexivity|]. split; [reflexivity|]. split; [reflexivity|].
  split; [|split; [|split]].
  - unfold outbound_calls.
    rewrite (handleRequest_valid env net Hpost Hv). cbn [snd].
    intros init out Hin.
    destruct (@sendEmail_sent data env net _ _ init out
                (surjective_pairing _) Hin) as (-> & _).
    unfold sent_request. cbn [fetch_body payload_html].
    rewrite Fn, Fe, Fm. reflexivity.
  - assert (Hsafe : forall safe, escaped safe ->
              escaped safe /\
              forall c, In c safe ->
                        c <> 60%N /\ c <> 62%N /\ c <> 34%N /\ c <> 39%N).
    { intros safe H. split; [exact H | exact (escaped_no_markup H)]. }
    apply Forall_cons; [apply Hsafe, escapeHtml_text_escaped|].
    apply Forall_cons; [apply Hsafe, escapeHtml_text_escaped|].
    apply Forall_cons; [apply Hsafe, escaped_or_escaped; constructor|].
    apply Forall_cons.
    { apply Hsafe, escaped_or_escaped.
      repeat (apply escaped_char; [reflexivity|]). constructor. }
    apply Forall_cons; [apply Hsafe, escapeHtml_text_escaped|].
    apply Forall_nil.
  - intros Hcfg Hmob Hsub. unfold outbound_calls.
    rewrite (handleRequest_valid env net Hpost Hv). cbn [snd].
    rewrite (@sendEmail_sends data env net Hcfg);
      [|rewrite ?Fn, ?Fe, ?Fm; first [reflexivity | assumption]..].
    cbn [snd]. eexists. reflexivity.
  - destruct Hpost as (Hmeth & Hpath & Hbody).
    unfold SrcIndexWorker.handleRequest. rewrite Hmeth, Hpath.
    change (jsstring_eqb (lit "POST") (lit "OPTIONS")) with false.
    rewrite !jsstring_eqb_refl. cbn [negb].
    unfold try_catch, bindA, lift. rewrite Hbody, Hv. reflexivity.
Qed.

End FurtherFacts.

(* ================================================================== *)
(** ** The further properties at concrete requests *)
(* ================================================================== *)

Lemma escapeHtml_text_injective_witness :
  lit "Jo & Co" = lit "Jo " ++ lit "& Co".
Proof.
  apply (@escapeHtml_text_injective (lit "Jo & Co") (lit "Jo " ++ lit "& Co")).
  vm_compute. reflexivity.
Defined.

Lemma sendEmail_unconfigured_witness :
  sendEmail body_jo env_without_sender (upstream 200) []
  = (Normal {| success := false |}, []).
Proof.
  apply (@sendEmail_unconfigured body_jo env_without_sender (upstream 200) []).
  right. left. reflexivity.
Defined.

Lemma sent_full :
  snd (sendEmail body_full sample_env (upstream 200) [])
  = [(sent_request sample_env body_full,
      upstream 200 (sent_request sample_env body_full))].
Proof. vm_compute. reflexivity. Qed.

Lemma sent_full_In :
  In (sent_request sample_env body_full,
      upstream 200 (sent_request sample_env body_full))
     (snd (sendEmail body_full sample_env (upstream 200) [])).
Proof. rewrite sent_full. left. reflexivity. Qed.

Lemma sendEmail_request_witness :
  fetch_url (sent_request sample_env body_full)
  = Some (lit "https://send.api.mailtrap.io/api/send") /\
  payload_subject (fetch_body (sent_request sample_env body_full))
  = lit "Contact Form: Hello <there>" /\
  payload_reply_to (fetch_body (sent_request sample_env body_full))
  = Some (JStr (lit "jo@x.com")).
Proof.
  destruct (@sendEmail_request body_full sample_env (upstream 200) _ _ _ _
              (surjective_pairing _) sent_full_In)
    as (Hurl & _ & _ & _ & _ & _ & Hsub).
  split; [exact Hurl|]. split; [exact Hsub|]. reflexivity.
Defined.

Lemma sendEmail_text_witness :
  exists name email message,
    field body_full "name" = Some (JStr name) /\
    field body_full "email" = Some (JStr email) /\
    field body_full "message" = Some (JStr message) /\
    payload_text (fetch_body (sent_request sample_env body_full)) =
      text_0 ++ name ++ text_1 ++ email ++
      mobile_line (field body_full "mobile") ++
      text_2 ++ string_or (field body_full "subject") "No subject provided"
      ++ text_3 ++ message ++ text_4.
Proof.
  exact (@sendEmail_text body_full sample_env (upstream 200) _ _ _ _
           (surjective_pairing _) sent_full_In).
Defined.

Lemma sendEmail_html_escaped_witness :
  exists name,
    field body_full "name" = Some (JStr name) /\
    includes (escapeHtml_text name)
      (payload_html (fetch_body (sent_request sample_env body_full))) = true.
Proof.
  destruct (@sendEmail_html_escaped body_full sample_env (upstream 200) _ _ _ _
              (surjective_pairing _) sent_full_In)
    as (name & email & message & safeMobile & safeSubject & Hn & _).
  exists name. split; [exact Hn|].
  vm_compute in Hn. injection Hn as <-. vm_compute. reflexivity.
Defined.

Lemma validateInput_throws_witness :
  validateInput (runtime := decimal_runtime) body_object_mobile
  = Throw TypeError /\
  (primitive (field body_object_mobile "mobile") = false \/
   primitive (field body_object_mobile "subject") = false).
Proof.
  split; [vm_compute; reflexivity|].
  apply (@validateInput_throws decimal_runtime body_object_mobile TypeError).
  vm_compute. reflexivity.
Defined.

Lemma validateInput_reads_five_fields_witness :
  validateInput (runtime := decimal_runtime) body_jo_extra
  = validateInput (runtime := decimal_runtime) body_jo.
Proof.
  apply (@validateInput_reads_five_fields decimal_runtime body_jo_extra body_jo);
    vm_compute; reflexivity.
Defined.

Lemma non_object_bodies_witness :
  responds (runtime := decimal_runtime) (post (Normal (JArr []))) sample_env
    (upstream 200)
    (json_response 400 "{`status`:`error`,`message`:`Name is required`}") /\
  responds (runtime := decimal_runtime) (post (Normal JNull)) sample_env
    (upstream 200)
    (json_response 400 "{`status`:`error`,`message`:`Invalid request body`}").
Proof.
  split.
  - exact (@non_object_bodies decimal_runtime (post (Normal (JArr [])))
             sample_env (upstream 200) (JArr [])
             (post_contact_post (JArr []))).
  - exact (@non_object_bodies decimal_runtime (post (Normal JNull))
             sample_env (upstream 200) JNull (post_contact_post JNull)).
Defined.

Lemma falsy_mobile_is_checked_witness :
  responds (runtime := decimal_runtime) (post (Normal body_false_mobile))
    sample_env (upstream 200)
    (json_response 400
       "{`status`:`error`,`message`:`Mobile number must be valid`}").
Proof.
  apply (@falsy_mobile_is_checked decimal_runtime
           (post (Normal body_false_mobile)) sample_env (upstream 200)
           body_false_mobile (post_contact_post body_false_mobile)).
  - repeat constructor; vm_compute; reflexivity.
  - left. exists false. vm_compute. reflexivity.
Defined.

Lemma calls_only_for_valid_submissions_witness :
  exists data,
    post_contact (post (Normal body_jo)) data /\
    validateInput (runtime := decimal_runtime) data = Normal valid /\
    outbound_calls (runtime := decimal_runtime) (post (Normal body_jo))
      sample_env (upstream 200)
    = [(sent_request sample_env data,
        upstream 200 (sent_request sample_env data))].
Proof.
  eassert (Hin : In (_, _) (outbound_calls (runtime := decimal_runtime)
                              (post (Normal body_jo)) sample_env
                              (upstream 200)))
    by (vm_compute; left; reflexivity).
  destruct (@calls_only_for_valid_submissions decimal_runtime
              (post (Normal body_jo)) sample_env (upstream 200) _ _ Hin)
    as (data & Hpost & Hv & Hi & Ho & Hlog).
  exists data. split; [exact Hpost|]. split; [exact Hv|].
  rewrite Hlog, Ho, Hi. reflexivity.
Defined.

Lemma success_only_after_2xx_witness :
  exists data init st text,
    post_contact (post (Normal body_jo)) data /\
    validateInput (runtime := decimal_runtime) data = Normal valid /\
    outbound_calls (runtime := decimal_runtime) (post (Normal body_jo))
      sample_env (upstream 200) = [(init, Responded st text)] /\
    200 <= st <= 299.
Proof.
  apply (@success_only_after_2xx decimal_runtime (post (Normal body_jo))
           sample_env (upstream 200)).
  vm_compute. reflexivity.
Defined.

Lemma non_string_field_is_not_sent_witness :
  responds (runtime := decimal_runtime) (post (Normal body_number_mobile))
    sample_env (upstream 200) failure_response /\
  outbound_calls (runtime := decimal_runtime)
    (post (Normal body_number_mobile)) sample_env (upstream 200) = [].
Proof.
  apply (@non_string_field_is_not_sent decimal_runtime
           (post (Normal body_number_mobile)) sample_env (upstream 200)
           body_number_mobile (post_contact_post body_number_mobile)).
  - vm_compute. reflexivity.
  - left. split; vm_compute; reflexivity.
Defined.

Lemma valid_submission_is_sent_witness :
  outbound_calls (runtime := decimal_runtime) (post (Normal body_full))
    sample_env (upstream 200)
  = [(sent_request sample_env body_full,
      upstream 200 (sent_request sample_env body_full))] /\
  responds (runtime := decimal_runtime) (post (Normal body_full)) sample_env
    (upstream 200) success_response.
Proof.
  apply (@valid_submission_is_sent decimal_runtime (post (Normal body_full))
           sample_env (upstream 200) body_full (post_contact_post body_full)).
  - vm_compute. reflexivity.
  - reflexivity.
  - right. vm_compute. reflexivity.
  - right. vm_compute. reflexivity.
Defined.

Lemma index_handler_agrees_witness :
  SrcIndexWorker.handleRequest (runtime := decimal_runtime) None
    (post (Normal body_empty_name)) (upstream 200) []
  = handleRequest (runtime := decimal_runtime)
      (post (Normal body_empty_name)) sample_env (upstream 200) [] /\
  snd (handleRequest (runtime := decimal_runtime)
         (post (Normal body_empty_name)) sample_env (upstream 200) []) = [].
Proof.
  apply (@index_handler_agrees decimal_runtime None
           (post (Normal body_empty_name)) sample_env (upstream 200)).
  right. right. intros data H. injection H as <-. vm_compute. discriminate.
Defined.

Lemma html_body_is_escaped_witness :
  exists init,
    outbound_calls (runtime := decimal_runtime) (post (Normal body_markup))
      sample_env (upstream 200) = [(init, upstream 200 init)] /\
    includes (lit "&lt;script&gt;alert(1)&lt;/script&gt;")
      (payload_html (fetch_body init)) = true /\
    includes (lit "<script>") (payload_html (fetch_body init)) = false.
Proof.
  destruct (@html_body_is_escaped decimal_runtime (post (Normal body_markup))
              sample_env (upstream 200) body_markup
              (post_contact_post body_markup)
              ltac:(vm_compute; reflexivity))
    as (name & email & message & Hn & He & Hm & Hhtml & _ & Hsent & _).
  destruct (Hsent ltac:(reflexivity) ltac:(left; reflexivity)
              ltac:(left; reflexivity)) as (init & Hlog).
  exists init. split; [exact Hlog|].
  rewrite (Hhtml init (upstream 200 init)
             ltac:(rewrite Hlog; left; reflexivity)).
  vm_compute in Hn. injection Hn as <-.
  vm_compute in He. injection He as <-.
  vm_compute in Hm. injection Hm as <-.
  split; vm_compute; reflexivity.
Defined.
